(** * MEF Ön Muhasebe: store, recurrence projection, retention and period
    aggregation, embedded from the TypeScript sources.

    Sources embedded here:
    - the store ([useStore]): profiles, transactions, monthly cleanup;
    - [UpcomingPayments] (the [upcomingItems] memo);
    - [CalendarView] (the [calendarData] memo);
    - [calculatePeriodData] of the export service;
    - the expense bucketing of the reports page;
    - the getters of the store, the transaction form, the navigation and
      the grid of [CalendarView], [turkishToAscii] and the category sheet
      of the export service, the 12-month trend of the reports page and
      the 14-day chart of the dashboard.

    Conventions of the embedding.
    - A JavaScript [Date] is its time value: milliseconds since the epoch,
      in UTC, as a [Z].  The helper functions are the abstract operations of
      the ECMAScript specification ([Day], [DayFromYear], [MakeDay],
      [LocalTime], [UTC]; [YearFromDay], [MonthFromDay] and [DateFromDay]
      are its [YearFromTime], [MonthFromTime] and [DateFromTime] on day
      numbers).  Time values stay far inside the range a [Date] can hold,
      so the clipping of out-of-range values to an invalid date is not
      modelled.
    - The host time zone is a fixed offset [tz], in minutes east of UTC
      (Europe/Istanbul is [180], America/Bogota is [-300]).  A zone whose
      offset changes with the instant is a [Zone]; the day count across a
      clock change and the 14-day chart of the dashboard are stated over
      it.
    - The [date] of a transaction is a date-only string "YYYY-MM-DD" (the
      value of the date input of the form, or the date part of
      [toISOString]).  It is represented by the day number of that calendar
      date (days since 1970-01-01); [iso_date y m d] is the string written
      y-m-d.  [new Date(t.date)] reads such a string as midnight UTC.
    - Amounts are JavaScript numbers.  The development is generic in the type
      of amounts and in its addition and subtraction ([JsNumber]); the
      concrete examples use integers, which a double adds exactly. *)

From Stdlib Require Import ZArith NArith List Bool Lia Sorted Permutation.
From stdpp Require Import gmap strings pretty.

Local Open Scope Z_scope.

(** ** Dates *)

Module JsDate.

Definition msPerDay : Z := 86400000.
Definition msPerMinute : Z := 60000.

Definition Day (t : Z) : Z := t / msPerDay.
Definition TimeWithinDay (t : Z) : Z := t mod msPerDay.

Definition DayFromYear (y : Z) : Z :=
  365 * (y - 1970) + (y - 1969) / 4 - (y - 1901) / 100 + (y - 1601) / 400.

Definition InLeapYear (y : Z) : bool :=
  if negb (y mod 4 =? 0) then false
  else if negb (y mod 100 =? 0) then true
  else if negb (y mod 400 =? 0) then false
  else true.

Definition DaysInYear (y : Z) : Z := if InLeapYear y then 366 else 365.

(** The largest [y] with [DayFromYear y <= d]: an estimate from the mean
    length of a year, corrected by at most one year. *)
Definition YearFromDay (d : Z) : Z :=
  let y := 1970 + (400 * d) / 146097 in
  if d <? DayFromYear y then y - 1
  else if DayFromYear (y + 1) <=? d then y + 1
  else y.

Definition DayWithinYear (d : Z) : Z := d - DayFromYear (YearFromDay d).

Definition leapDays (y : Z) : Z := if InLeapYear y then 1 else 0.

(** Month number, 0 for January. *)
Definition MonthFromDay (d : Z) : Z :=
  let n := DayWithinYear d in
  let l := leapDays (YearFromDay d) in
  if n <? 31 then 0
  else if n <? 59 + l then 1
  else if n <? 90 + l then 2
  else if n <? 120 + l then 3
  else if n <? 151 + l then 4
  else if n <? 181 + l then 5
  else if n <? 212 + l then 6
  else if n <? 243 + l then 7
  else if n <? 273 + l then 8
  else if n <? 304 + l then 9
  else if n <? 334 + l then 10
  else 11.

(** Days of the year before the first of month [m] (0 for January). *)
Definition daysBeforeMonth (l m : Z) : Z :=
  if m =? 0 then 0
  else if m =? 1 then 31
  else if m =? 2 then 59 + l
  else if m =? 3 then 90 + l
  else if m =? 4 then 120 + l
  else if m =? 5 then 151 + l
  else if m =? 6 then 181 + l
  else if m =? 7 then 212 + l
  else if m =? 8 then 243 + l
  else if m =? 9 then 273 + l
  else if m =? 10 then 304 + l
  else 334 + l.

Definition DateFromDay (d : Z) : Z :=
  DayWithinYear d
  - daysBeforeMonth (leapDays (YearFromDay d)) (MonthFromDay d) + 1.

(** [MakeDay year month date]: months outside 0..11 carry into the year and
    the day of the month is added as an offset, so a day past the end of
    the month rolls over into the following month and day 0 is the last day
    of the month before. *)
Definition MakeDay (year month date : Z) : Z :=
  let ym := year + month / 12 in
  let mn := month mod 12 in
  DayFromYear ym + daysBeforeMonth (leapDays ym) mn + date - 1.

(** The string "YYYY-MM-DD" as a day number ([m] is 1 for January). *)
Definition iso_date (y m d : Z) : Z := MakeDay y (m - 1) d.

(** [new Date("YYYY-MM-DD")]: a date-only string is midnight UTC. *)
Definition Date_parse (isoDay : Z) : Z := isoDay * msPerDay.

Section Local.
Variable tz : Z.

Definition LocalTZA : Z := tz * msPerMinute.
Definition LocalTime (t : Z) : Z := t + LocalTZA.
Definition UTC (t : Z) : Z := t - LocalTZA.

Definition getFullYear (t : Z) : Z := YearFromDay (Day (LocalTime t)).
Definition getMonth (t : Z) : Z := MonthFromDay (Day (LocalTime t)).
Definition getDate (t : Z) : Z := DateFromDay (Day (LocalTime t)).

(** [new Date(year, month, date)]: local midnight of the day [MakeDay]
    gives; a year from 0 to 99 means 1900 + year. *)
Definition Date_ymd (year month date : Z) : Z :=
  let yr := if (0 <=? year) && (year <=? 99) then 1900 + year else year in
  UTC (MakeDay yr month date * msPerDay).

(** [d.setHours(0, 0, 0, 0)] *)
Definition setHours0 (t : Z) : Z :=
  UTC (Day (LocalTime t) * msPerDay).

(** [d.setDate(date)] *)
Definition setDate (t date : Z) : Z :=
  let lt := LocalTime t in
  UTC (MakeDay (YearFromDay (Day lt)) (MonthFromDay (Day lt)) date * msPerDay
       + TimeWithinDay lt).
End Local.

(** [Math.ceil(a / b)] for integers [a] and positive [b]. *)
Definition ceil_div (a b : Z) : Z := - ((- a) / b).

End JsDate.

Import JsDate.

(** ** Data model (the store's type definitions) *)

Inductive Currency := TRY | USD | EUR.

Inductive TransactionType := income | expense.

Inductive TransactionCategory :=
  | salary | freelance | investment | gift | food | transport
  | shopping | utilities | entertainment | health | education | other.

(** The arithmetic of [number] that the sources use on amounts. *)
Class JsNumber (num : Type) := {
  nzero : num;
  nadd : num -> num -> num;
  nsub : num -> num -> num
}.

#[export] Instance Z_JsNumber : JsNumber Z :=
  {| nzero := 0; nadd := Z.add; nsub := Z.sub |}.

(** The [id] and [createdAt] of a profile are [pid] and [pcreatedAt] here,
    the [id] of a transaction is [tid]; time stamps are time values. *)
Record Profile := {
  pid : string;
  name : string;
  avatarColor : string;
  currency : Currency;
  pcreatedAt : Z
}.

(** Optional fields are [option]s: [None] is [undefined]. *)
Record Transaction {num : Type} := {
  tid : string;
  profileId : string;
  type : TransactionType;
  amount : num;
  category : TransactionCategory;
  title : string;
  description : option string;
  date : Z;
  createdAt : Z;
  isRecurring : option bool;
  recurringDay : option Z
}.
Arguments Transaction : clear implicits.

(** Truthiness of an optional boolean and of an optional number. *)
Definition truthy_bool (b : option bool) : bool :=
  match b with Some true => true | _ => false end.

Definition truthy_num (n : option Z) : bool :=
  match n with Some d => negb (d =? 0) | None => false end.

(** [x === day] for an optional number [x]. *)
Definition strict_eq_num (x : option Z) (day : Z) : bool :=
  match x with Some d => d =? day | None => false end.

(** ** The store *)

Record State {num : Type} := {
  profiles : list Profile;
  transactions : list (Transaction num);
  activeProfileId : option string;
  lastCleanupMonth : option string
}.
Arguments State : clear implicits.

Section Store.
Context {num : Type}.
#[local] Abbreviation Tx := (Transaction num).
#[local] Abbreviation St := (State num).

Definition initialState : St :=
  {| profiles := []; transactions := []; activeProfileId := None;
     lastCleanupMonth := None |}.

(** [addProfile]; the fresh identifier and the clock are inputs. *)
Definition addProfile (newId : string) (now : Z)
    (nm color : string) (cur : Currency) (s : St) : St :=
  let newProfile :=
    {| pid := newId; name := nm; avatarColor := color; currency := cur;
       pcreatedAt := now |} in
  {| profiles := profiles s ++ [newProfile];
     transactions := transactions s;
     activeProfileId := activeProfileId s;
     lastCleanupMonth := lastCleanupMonth s |}.

(** The [data] argument of [updateProfile]: a partial profile without [id]
    and [createdAt]; an absent key is [None]. *)
Record ProfilePatch := {
  pp_name : option string;
  pp_avatarColor : option string;
  pp_currency : option Currency
}.

Definition patched {A} (old : A) (new : option A) : A :=
  match new with Some v => v | None => old end.

Definition updateProfile (id : string) (data : ProfilePatch) (s : St) : St :=
  {| profiles :=
       List.map (fun profile =>
                   if String.eqb (pid profile) id
                   then {| pid := pid profile;
                           name := patched (name profile) (pp_name data);
                           avatarColor :=
                             patched (avatarColor profile) (pp_avatarColor data);
                           currency := patched (currency profile) (pp_currency data);
                           pcreatedAt := pcreatedAt profile |}
                   else profile)
                (profiles s);
     transactions := transactions s;
     activeProfileId := activeProfileId s;
     lastCleanupMonth := lastCleanupMonth s |}.

Definition deleteProfile (id : string) (s : St) : St :=
  {| profiles := List.filter (fun p => negb (String.eqb (pid p) id)) (profiles s);
     transactions :=
       List.filter (fun t => negb (String.eqb (profileId t) id)) (transactions s);
     activeProfileId :=
       match activeProfileId s with
       | Some a => if String.eqb a id then None else Some a
       | None => None
       end;
     lastCleanupMonth := lastCleanupMonth s |}.

Definition selectProfile (id : option string) (s : St) : St :=
  {| profiles := profiles s;
     transactions := transactions s;
     activeProfileId := id;
     lastCleanupMonth := lastCleanupMonth s |}.

(** [addTransaction].  [dateArg] is [None] for an omitted (or empty) date,
    which defaults to the date part of [toISOString()], the UTC day of
    [now]. *)
Definition addTransaction (newId : string) (now : Z)
    (profId : string) (ty : TransactionType) (amt : num)
    (cat : TransactionCategory) (ttl : string) (descr : option string)
    (dateArg : option Z) (isRec : option bool) (recDay : option Z)
    (s : St) : St :=
  let newTransaction : Tx :=
    {| tid := newId;
       profileId := profId;
       type := ty;
       amount := amt;
       category := cat;
       title := ttl;
       description := descr;
       date := match dateArg with Some d => d | None => Day now end;
       createdAt := now;
       isRecurring := Some (truthy_bool isRec);
       recurringDay := if truthy_bool isRec then recDay else None |} in
  {| profiles := profiles s;
     transactions := newTransaction :: transactions s;
     activeProfileId := activeProfileId s;
     lastCleanupMonth := lastCleanupMonth s |}.

(** The [data] argument of [updateTransaction]: a partial transaction
    without [id], [profileId] and [createdAt].  An absent key is [None]; a
    key of an optional field can be present with the value [undefined]. *)
Record TransactionPatch := {
  p_type : option TransactionType;
  p_amount : option num;
  p_category : option TransactionCategory;
  p_title : option string;
  p_description : option (option string);
  p_date : option Z;
  p_isRecurring : option (option bool);
  p_recurringDay : option (option Z)
}.

(** [{ ...t, ...data }] *)
Definition applyPatch (t : Tx) (data : TransactionPatch) : Tx :=
  {| tid := tid t;
     profileId := profileId t;
     type := patched (type t) (p_type data);
     amount := patched (amount t) (p_amount data);
     category := patched (category t) (p_category data);
     title := patched (title t) (p_title data);
     description := patched (description t) (p_description data);
     date := patched (date t) (p_date data);
     createdAt := createdAt t;
     isRecurring := patched (isRecurring t) (p_isRecurring data);
     recurringDay := patched (recurringDay t) (p_recurringDay data) |}.

Definition updateTransaction (id : string) (data : TransactionPatch)
    (s : St) : St :=
  {| profiles := profiles s;
     transactions :=
       List.map (fun t => if String.eqb (tid t) id then applyPatch t data else t)
                (transactions s);
     activeProfileId := activeProfileId s;
     lastCleanupMonth := lastCleanupMonth s |}.

Definition deleteTransaction (id : string) (s : St) : St :=
  {| profiles := profiles s;
     transactions :=
       List.filter (fun t => negb (String.eqb (tid t) id)) (transactions s);
     activeProfileId := activeProfileId s;
     lastCleanupMonth := lastCleanupMonth s |}.

(** *** Monthly cleanup *)

Section Cleanup.
Variable tz : Z.

(** The predicate of the filter in [cleanupNonRecurringTransactions]. *)
Definition keptByCleanup (now : Z) (t : Tx) : bool :=
  let currentMonth := getMonth tz now in
  let currentYear := getFullYear tz now in
  if truthy_bool (isRecurring t) then true
  else
    let transactionDate := Date_parse (date t) in
    (getMonth tz transactionDate =? currentMonth)
    && (getFullYear tz transactionDate =? currentYear).

Definition cleanupNonRecurringTransactions (now : Z) (s : St) : St :=
  {| profiles := profiles s;
     transactions := List.filter (keptByCleanup now) (transactions s);
     activeProfileId := activeProfileId s;
     lastCleanupMonth := lastCleanupMonth s |}.

(** [String(n).padStart(2, '0')] *)
Definition padStart2 (s : string) : string :=
  match s with
  | EmptyString => "00"
  | String c EmptyString => "0" +:+ s
  | _ => s
  end.

Definition currentMonthKey (now : Z) : string :=
  pretty (getFullYear tz now) +:+ "-" +:+ padStart2 (pretty (getMonth tz now + 1)).

(** The clock is read once for the whole action. *)
Definition checkAndPerformMonthlyCleanup (now : Z) (s : St) : St :=
  let key := currentMonthKey now in
  if bool_decide (lastCleanupMonth s <> Some key) then
    let s' := cleanupNonRecurringTransactions now s in
    {| profiles := profiles s';
       transactions := transactions s';
       activeProfileId := activeProfileId s';
       lastCleanupMonth := Some key |}
  else s.
End Cleanup.

End Store.

(** ** Recurrence projector *)

Section Projector.
Context {num : Type}.
#[local] Abbreviation Tx := (Transaction num).
Variable tz : Z.

(** *** UpcomingPayments: the [upcomingItems] memo *)

Record UpcomingItem := {
  transaction : Tx;
  dueDate : Z;
  daysLeft : Z
}.

(** The next occurrence computed inside the loop over the recurring
    transactions, for the day of month [recurringDay]. *)
Definition nextDueDate (today recurringDay : Z) : Z :=
  let dueDate := Date_ymd tz (getFullYear tz today) (getMonth tz today) recurringDay in
  let dueDate :=
    if dueDate <? today
    then Date_ymd tz (getFullYear tz today) (getMonth tz today + 1) recurringDay
    else dueDate in
  let lastDayOfMonth :=
    getDate tz (Date_ymd tz (getFullYear tz dueDate) (getMonth tz dueDate + 1) 0) in
  if recurringDay >? lastDayOfMonth then setDate tz dueDate lastDayOfMonth
  else dueDate.

Definition daysUntil (today due : Z) : Z := ceil_div (due - today) msPerDay.

Definition recurringDaysLeft (today recurringDay : Z) : Z :=
  daysUntil today (nextDueDate today recurringDay).

(** The date and day count of a non-recurring transaction. *)
Definition futureDate (t : Tx) : Z := setHours0 tz (Date_parse (date t)).

Definition futureDaysLeft (today : Z) (t : Tx) : Z :=
  daysUntil today (futureDate t).

Definition recurringItem (today : Z) (t : Tx) : list UpcomingItem :=
  match recurringDay t with
  | Some d =>
      let due := nextDueDate today d in
      let left := daysUntil today due in
      if (left <=? 30) && (left >=? 0)
      then [ {| transaction := t; dueDate := due; daysLeft := left |} ]
      else []
  | None => []
  end.

Definition isFuture (today : Z) (t : Tx) : bool :=
  if truthy_bool (isRecurring t) then false
  else
    let left := futureDaysLeft today t in
    (left >? 0) && (left <=? 30).

Definition futureItem (today : Z) (t : Tx) : UpcomingItem :=
  {| transaction := t; dueDate := futureDate t; daysLeft := futureDaysLeft today t |}.

(** [Array.prototype.sort] with the comparator [a.daysLeft - b.daysLeft]:
    a stable sort, here by insertion (an item goes before the items
    with the same [daysLeft] that came after it). *)
Fixpoint insertByDaysLeft (x : UpcomingItem) (l : list UpcomingItem)
    : list UpcomingItem :=
  match l with
  | [] => [x]
  | y :: l' =>
      if daysLeft y <? daysLeft x then y :: insertByDaysLeft x l'
      else x :: l
  end.

Definition sortByDaysLeft (l : list UpcomingItem) : list UpcomingItem :=
  fold_right insertByDaysLeft [] l.

Definition upcomingItems (now : Z) (txs : list Tx) : list UpcomingItem :=
  let today := setHours0 tz now in
  let recurringTransactions :=
    List.filter (fun t => truthy_bool (isRecurring t) && truthy_num (recurringDay t)) txs in
  let items := flat_map (recurringItem today) recurringTransactions in
  let futureTransactions := List.filter (isFuture today) txs in
  let items := items ++ List.map (futureItem today) futureTransactions in
  sortByDaysLeft items.

(** *** CalendarView: the test inside the loop over the days of the
    displayed month *)

Definition isMatch (t : Tx) (currentYear currentMonth day : Z) : bool :=
  let tDate := Date_parse (date t) in
  (getDate tz tDate =? day)
  && (getMonth tz tDate =? currentMonth)
  && (getFullYear tz tDate =? currentYear).

Definition isRecurringMatch (t : Tx) (currentYear currentMonth day : Z) : bool :=
  let tDate := Date_parse (date t) in
  truthy_bool (isRecurring t)
  && strict_eq_num (recurringDay t) day
  && ((currentYear >? getFullYear tz tDate)
      || ((currentYear =? getFullYear tz tDate)
          && (currentMonth >=? getMonth tz tDate))).

Definition onCalendarDay (t : Tx) (currentYear currentMonth day : Z) : bool :=
  isMatch t currentYear currentMonth day
  || isRecurringMatch t currentYear currentMonth day.

Definition dayTransactions (txs : list Tx) (currentYear currentMonth day : Z)
    : list Tx :=
  List.filter (fun t => onCalendarDay t currentYear currentMonth day) txs.

(** The days the calendar shows for the displayed month: 1 up to
    [daysInMonth]. *)
Definition daysInMonth (currentYear currentMonth : Z) : Z :=
  getDate tz (Date_ymd tz currentYear (currentMonth + 1) 0).

End Projector.

Arguments UpcomingItem : clear implicits.

(** ** Period aggregator *)

Inductive PeriodType := month | quarter | half | year.

Record ExportData {num : Type} := {
  e_transactions : list (Transaction num);
  profileName : string;
  e_currency : Currency;
  periodLabel : string;
  totalIncome : num;
  totalExpense : num;
  balance : num
}.
Arguments ExportData : clear implicits.

Section Aggregator.
Context {num : Type} `{JsNumber num}.
#[local] Abbreviation Tx := (Transaction num).
Variable tz : Z.

Definition monthNames : list string :=
  ["Ocak"; "Subat"; "Mart"; "Nisan"; "Mayis"; "Haziran";
   "Temmuz"; "Agustos"; "Eylul"; "Ekim"; "Kasim"; "Aralik"].

(** [monthNames[m]] inside a template string. *)
Definition monthName (m : Z) : string :=
  if m <? 0 then "undefined"
  else nth (Z.to_nat m) monthNames "undefined".

(** The [switch] of [calculatePeriodData]: start, end and label of the
    period.  [m] is [month ?? new Date().getMonth()]. *)
Definition periodBounds (periodType : PeriodType) (yr m : Z)
    : Z * Z * string :=
  match periodType with
  | month =>
      (Date_ymd tz yr m 1, Date_ymd tz yr (m + 1) 0,
       monthName m +:+ " " +:+ pretty yr)
  | quarter =>
      let q := m / 3 in
      (Date_ymd tz yr (q * 3) 1, Date_ymd tz yr ((q + 1) * 3) 0,
       pretty (q + 1) +:+ ". Ceyrek " +:+ pretty yr)
  | half =>
      let h := if m <? 6 then 0 else 1 in
      (Date_ymd tz yr (h * 6) 1, Date_ymd tz yr ((h + 1) * 6) 0,
       if h =? 0 then "Ilk Yari " +:+ pretty yr else "Ikinci Yari " +:+ pretty yr)
  | year =>
      (Date_ymd tz yr 0 1, Date_ymd tz yr 11 31, pretty yr +:+ " Yili")
  end.

Definition inPeriod (startDate endDate : Z) (t : Tx) : bool :=
  let date := Date_parse (date t) in
  (date >=? startDate) && (date <=? endDate).

Definition isIncome (t : Tx) : bool :=
  match type t with income => true | expense => false end.

Definition isExpense (t : Tx) : bool :=
  match type t with expense => true | income => false end.

(** [list.reduce((sum, t) => sum + t.amount, 0)] *)
Definition sumAmounts (l : list Tx) : num :=
  fold_left (fun sum t => nadd sum (amount t)) l nzero.

Definition calculatePeriodData (now : Z) (txs : list Tx)
    (pname : string) (cur : Currency) (periodType : PeriodType)
    (yr : Z) (mon : option Z) : ExportData num :=
  let m := match mon with Some m => m | None => getMonth tz now end in
  let '(startDate, endDate, label) := periodBounds periodType yr m in
  let filteredTransactions := List.filter (inPeriod startDate endDate) txs in
  let totalIncome := sumAmounts (List.filter isIncome filteredTransactions) in
  let totalExpense := sumAmounts (List.filter isExpense filteredTransactions) in
  {| e_transactions := filteredTransactions;
     profileName := pname;
     e_currency := cur;
     periodLabel := label;
     totalIncome := totalIncome;
     totalExpense := totalExpense;
     balance := nsub totalIncome totalExpense |}.

(** *** Reports page: expenses grouped by title *)

Record Bucket := {
  b_amount : num;
  b_category : TransactionCategory
}.

(** Property names every object inherits from [Object.prototype].  The
    lookup [expenseByTitle[t.title]] finds them on a fresh object, and they
    are truthy. *)
Definition inheritedKeys : list string :=
  ["constructor"; "__defineGetter__"; "__defineSetter__"; "hasOwnProperty";
   "__lookupGetter__"; "__lookupSetter__"; "isPrototypeOf";
   "propertyIsEnumerable"; "toString"; "valueOf"; "__proto__";
   "toLocaleString"].

Definition inherited (k : string) : bool :=
  existsb (String.eqb k) inheritedKeys.

(** One round of the [forEach] over the filtered transactions, on
    [expenseByTitle].  An income transaction leaves it alone.  For an
    expense whose title has a bucket, the amount is added to the bucket and
    nothing else changes.  For a title without a bucket a new bucket is
    written, unless the lookup found an inherited property: then the
    addition lands on that inherited object and [expenseByTitle] gets no
    property. *)
Definition addExpense (expenseByTitle : gmap string Bucket) (t : Tx)
    : gmap string Bucket :=
  match type t with
  | income => expenseByTitle
  | expense =>
      match expenseByTitle !! title t with
      | Some b =>
          <[title t := {| b_amount := nadd (b_amount b) (amount t);
                          b_category := b_category b |}]> expenseByTitle
      | None =>
          if inherited (title t) then expenseByTitle
          else <[title t := {| b_amount := amount t;
                               b_category := category t |}]> expenseByTitle
      end
  end.

Definition expenseByTitle (filteredTransactions : list Tx)
    : gmap string Bucket :=
  fold_left addExpense filteredTransactions ∅.

End Aggregator.

Arguments Bucket : clear implicits.

(** *** The store as a transition system *)

Section Transitions.
Context {num : Type}.
#[local] Abbreviation Tx := (Transaction num).
#[local] Abbreviation St := (State num).
Variable tz : Z.

(** The public actions of the store that replace the state, with the
    values they read from the environment (fresh identifier, clock). *)
Inductive Action :=
  | AddProfile (newId : string) (now : Z) (nm color : string) (cur : Currency)
  | UpdateProfile (id : string) (data : ProfilePatch)
  | DeleteProfile (id : string)
  | SelectProfile (id : option string)
  | AddTransaction (newId : string) (now : Z) (profId : string)
      (ty : TransactionType) (amt : num) (cat : TransactionCategory)
      (ttl : string) (descr : option string) (dateArg : option Z)
      (isRec : option bool) (recDay : option Z)
  | UpdateTransaction (id : string) (data : TransactionPatch (num := num))
  | DeleteTransaction (id : string)
  | CleanupNonRecurring (now : Z)
  | CheckMonthlyCleanup (now : Z).

Definition step (a : Action) (s : St) : St :=
  match a with
  | AddProfile newId now nm color cur => addProfile newId now nm color cur s
  | UpdateProfile id data => updateProfile id data s
  | DeleteProfile id => deleteProfile id s
  | SelectProfile id => selectProfile id s
  | AddTransaction newId now profId ty amt cat ttl descr dateArg isRec recDay =>
      addTransaction newId now profId ty amt cat ttl descr dateArg isRec recDay s
  | UpdateTransaction id data => updateTransaction id data s
  | DeleteTransaction id => deleteTransaction id s
  | CleanupNonRecurring now => cleanupNonRecurringTransactions tz now s
  | CheckMonthlyCleanup now => checkAndPerformMonthlyCleanup tz now s
  end.

(** States reachable from the initial state by actions that satisfy
    [allowed]. *)
Inductive reachableBy (allowed : Action -> Prop) : St -> Prop :=
  | reach_init : reachableBy allowed initialState
  | reach_step a s :
      reachableBy allowed s -> allowed a -> reachableBy allowed (step a s).

Definition reachable : St -> Prop := reachableBy (fun _ => True).

(** An [updateTransaction] whose patch has neither the key [isRecurring]
    nor the key [recurringDay]; every other action qualifies. *)
Definition keepsRecurrence (a : Action) : Prop :=
  match a with
  | UpdateTransaction _ data =>
      p_isRecurring data = None /\ p_recurringDay data = None
  | _ => True
  end.

(** What the callers in the repository guarantee (the transaction form is
    the only caller of [addTransaction], and no caller passes a patch with
    these keys): a recurring transaction is added with a day of month from
    1 to 31, and a patch has neither the key [isRecurring] nor the key
    [recurringDay]. *)
Definition respectsRecurrence (a : Action) : Prop :=
  match a with
  | AddTransaction _ _ _ _ _ _ _ _ _ isRec recDay =>
      truthy_bool isRec = true -> exists d, recDay = Some d /\ 1 <= d <= 31
  | UpdateTransaction _ data =>
      p_isRecurring data = None /\ p_recurringDay data = None
  | _ => True
  end.

(** The invariant as the data model states it. *)
Definition recurrenceInvariant (t : Tx) : Prop :=
  isRecurring t = Some true <->
  exists d, recurringDay t = Some d /\ 1 <= d <= 31.

(** What [addTransaction] establishes: [isRecurring] is a boolean, and a
    transaction that is not recurring has no [recurringDay]. *)
Definition recurringDayOnlyIfRecurring (t : Tx) : Prop :=
  (isRecurring t = Some true \/ isRecurring t = Some false)
  /\ (recurringDay t <> None -> isRecurring t = Some true).

End Transitions.

(** Sample data for the examples. *)

Definition sampleRent : Transaction Z :=
  {| tid := "t1"; profileId := "p1"; type := expense; amount := 400;
     category := utilities; title := "Kira"; description := None;
     date := iso_date 2025 3 10; createdAt := 0;
     isRecurring := Some false; recurringDay := None |}.

(** A recurring transaction stored without a day of month: the call
    [addTransaction("p1", "expense", 400, "utilities", "Kira", undefined,
    "2025-03-10", true, undefined)] on the initial state. *)
Definition addRecurringWithoutDay : Action (num := Z) :=
  AddTransaction "t1" 0 "p1" expense 400 utilities "Kira" None
                 (Some (iso_date 2025 3 10)) (Some true) None.

(** A recurring transaction of day 15, as the form creates it. *)
Definition addRecurringDay15 : Action (num := Z) :=
  AddTransaction "t1" 0 "p1" expense 400 utilities "Kira" None
                 (Some (iso_date 2025 6 15)) (Some true) (Some 15).

(** The patch [{ isRecurring: false }]. *)
Definition patchNotRecurring : TransactionPatch (num := Z) :=
  {| p_type := None; p_amount := None; p_category := None; p_title := None;
     p_description := None; p_date := None;
     p_isRecurring := Some (Some false); p_recurringDay := None |}.

(** ** Vocabulary of the statements *)

(** The expense transactions of a list that carry the title [k], in the
    order of the list. *)
Definition expensesTitled {num : Type} (k : string) (l : list (Transaction num))
    : list (Transaction num) :=
  List.filter (fun t => isExpense t && String.eqb (title t) k) l.

(** When the upcoming list shows a transaction, relative to [today]: a
    recurring transaction (with a day of month) when its day count is from 0
    to 30, a transaction that is not recurring when its day count is from 1
    to 30. *)
Definition isUpcoming {num : Type} (tz today : Z) (t : Transaction num) : Prop :=
  if truthy_bool (isRecurring t) then
    match recurringDay t with
    | Some d => d <> 0 /\ 0 <= recurringDaysLeft tz today d <= 30
    | None => False
    end
  else 0 < futureDaysLeft tz today t <= 30.

(** The day count and the due date the list shows for a transaction. *)
Definition shownDaysLeft {num : Type} (tz today : Z) (t : Transaction num) : Z :=
  if truthy_bool (isRecurring t) then
    match recurringDay t with
    | Some d => recurringDaysLeft tz today d
    | None => 0
    end
  else futureDaysLeft tz today t.

Definition shownDueDate {num : Type} (tz today : Z) (t : Transaction num) : Z :=
  if truthy_bool (isRecurring t) then
    match recurringDay t with
    | Some d => nextDueDate tz today d
    | None => 0
    end
  else futureDate tz t.

Definition byDaysLeft {num : Type} (a b : UpcomingItem num) : Prop :=
  daysLeft a <= daysLeft b.

(** The number of days of month [m] (0 for January) of year [y]. *)
Definition daysInMonthOf (y m : Z) : Z :=
  if m =? 1 then 28 + leapDays y
  else if (m =? 3) || (m =? 5) || (m =? 8) || (m =? 10) then 30
  else 31.

(** The calendar fields of a stored date: year, month (0 for January) and
    day of the month. *)
Definition dateYear {num : Type} (t : Transaction num) : Z := YearFromDay (date t).
Definition dateMonth {num : Type} (t : Transaction num) : Z := MonthFromDay (date t).
Definition dateDay {num : Type} (t : Transaction num) : Z := DateFromDay (date t).

(** The decimal digit [d], from 0 to 9, as a character. *)
Definition digitChar (d : Z) : Ascii.ascii := Ascii.ascii_of_nat (48 + Z.to_nat d).

(** Four and two decimal digits. *)
Definition fourDigits (y : Z) : string :=
  String (digitChar (y / 1000))
    (String (digitChar (y / 100 mod 10))
       (String (digitChar (y / 10 mod 10))
          (String (digitChar (y mod 10)) EmptyString))).

Definition twoDigits (m : Z) : string :=
  String (digitChar (m / 10)) (String (digitChar (m mod 10)) EmptyString).

(** The text "YYYY-MM" of a year of four digits and a month number. *)
Definition yearMonthText (y m : Z) : string :=
  fourDigits y +:+ "-" +:+ twoDigits m.

(** A transaction that is not recurring, dated [d]. *)
Definition expenseOn (d : Z) : Transaction Z :=
  {| tid := "t1"; profileId := "p1"; type := expense; amount := 400;
     category := food; title := "Market"; description := None;
     date := d; createdAt := 0;
     isRecurring := Some false; recurringDay := None |}.

Definition incomeOn (d : Z) : Transaction Z :=
  {| tid := "t0"; profileId := "p1"; type := income; amount := 1000;
     category := salary; title := "Maas"; description := None;
     date := d; createdAt := 0;
     isRecurring := Some false; recurringDay := None |}.

(** A recurring transaction created on [d] for the day of month [day]. *)
Definition recurringOn (d day : Z) : Transaction Z :=
  {| tid := "t3"; profileId := "p1"; type := expense; amount := 400;
     category := utilities; title := "Kira"; description := None;
     date := d; createdAt := 0;
     isRecurring := Some true; recurringDay := Some day |}.

(** Noon, local time, of a day given as for [new Date(year, month, date)]. *)
Definition noon (tz year month date : Z) : Z :=
  Date_ymd tz year month date + 12 * 3600000.

(** Two expenses with the same title and different categories. *)
Definition rentAsOther : Transaction Z :=
  {| tid := "t2"; profileId := "p1"; type := expense; amount := 100;
     category := other; title := "Kira"; description := None;
     date := iso_date 2025 3 20; createdAt := 0;
     isRecurring := Some false; recurringDay := None |}.

(** * More of the sources *)

(** ** The store: getters *)

Record FinancialSummary {num : Type} := {
  totalBalance : num;
  s_totalIncome : num;
  s_totalExpense : num;
  transactionCount : nat
}.
Arguments FinancialSummary : clear implicits.

Section StoreGetters.
Context {num : Type} `{JsNumber num}.
#[local] Abbreviation Tx := (Transaction num).
#[local] Abbreviation St := (State num).

(** [profiles.find((p) => p.id === activeProfileId) || null] *)
Definition getActiveProfile (s : St) : option Profile :=
  match activeProfileId s with
  | Some a => List.find (fun p => String.eqb (pid p) a) (profiles s)
  | None => None
  end.

(** [Array.prototype.sort] with the comparator
    [new Date(b.date).getTime() - new Date(a.date).getTime()]: a stable
    sort, here by insertion; [x] stays in front of [y] unless the date of
    [y] is later. *)
Fixpoint insertByDateDesc (x : Tx) (l : list Tx) : list Tx :=
  match l with
  | [] => [x]
  | y :: l' =>
      if Date_parse (date y) - Date_parse (date x) >? 0
      then y :: insertByDateDesc x l'
      else x :: l
  end.

Definition sortByDateDesc (l : list Tx) : list Tx :=
  fold_right insertByDateDesc [] l.

Definition getProfileTransactions (profId : string) (s : St) : list Tx :=
  sortByDateDesc
    (List.filter (fun t => String.eqb (profileId t) profId) (transactions s)).

Definition getSummary (profId : string) (s : St) : FinancialSummary num :=
  let txs := getProfileTransactions profId s in
  let totalIncome := sumAmounts (List.filter isIncome txs) in
  let totalExpense := sumAmounts (List.filter isExpense txs) in
  {| totalBalance := nsub totalIncome totalExpense;
     s_totalIncome := totalIncome;
     s_totalExpense := totalExpense;
     transactionCount := List.length txs |}.

End StoreGetters.

(** ** The transaction form of the dashboard: [onSubmit] and [onAdd] *)

(** [onSubmit] reads the day of month from the chosen date with
    [new Date(data.date).getDate()] and passes it on only for a recurring
    transaction; [onAdd] calls [addTransaction] for the active profile. *)
Definition submitTransaction {num : Type} (tz : Z) (newId : string) (now : Z)
    (activeProfile : string) (ty : TransactionType) (amt : num)
    (cat : TransactionCategory) (ttl : string) (descr : option string)
    (dateStr : Z) (isRec : bool) (s : State num) : State num :=
  let selectedDate := Date_parse dateStr in
  let dayOfMonth := getDate tz selectedDate in
  addTransaction newId now activeProfile ty amt cat ttl descr (Some dateStr)
                 (Some isRec) (if isRec then Some dayOfMonth else None) s.

(** ** CalendarView: navigation and the grid *)

(** The displayed month: [(currentYear, currentMonth)]. *)
Definition goToPreviousMonth (cur : Z * Z) : Z * Z :=
  let '(currentYear, currentMonth) := cur in
  if currentMonth =? 0 then (currentYear - 1, 11)
  else (currentYear, currentMonth - 1).

Definition goToNextMonth (cur : Z * Z) : Z * Z :=
  let '(currentYear, currentMonth) := cur in
  if currentMonth =? 11 then (currentYear + 1, 0)
  else (currentYear, currentMonth + 1).

Definition goToToday (tz today : Z) : Z * Z :=
  (getFullYear tz today, getMonth tz today).

(** [d.getDay()]: the day of the week in local time, 0 for Sunday. *)
Definition getDay (tz t : Z) : Z := (Day (LocalTime tz t) + 4) mod 7.

Record DayData {num : Type} := {
  d_date : Z;
  isCurrentMonth : bool;
  isToday : bool;
  d_income : num;
  d_expense : num;
  d_transactions : list (Transaction num)
}.
Arguments DayData : clear implicits.

Section CalendarGrid.
Context {num : Type} `{JsNumber num}.
#[local] Abbreviation Tx := (Transaction num).
Variable tz : Z.

(** The integers [from], [from + 1], ..., [to], empty when [to < from]. *)
Definition zrange (from to : Z) : list Z :=
  List.map (fun k => from + Z.of_nat k) (seq 0 (Z.to_nat (to - from + 1))).

Definition fillerDay (date : Z) : DayData num :=
  {| d_date := date; isCurrentMonth := false; isToday := false;
     d_income := nzero; d_expense := nzero; d_transactions := [] |}.

(** One round of the [forEach] inside the loop over the days: the
    accumulators are [dayTransactions], [income] and [expense] (here
    [incomeSum] and [expenseSum]). *)
Definition addToDay (currentYear currentMonth day : Z)
    (acc : list Tx * num * num) (t : Tx) : list Tx * num * num :=
  let '(dayTransactions, incomeSum, expenseSum) := acc in
  if onCalendarDay tz t currentYear currentMonth day then
    match type t with
    | income => (dayTransactions ++ [t], nadd incomeSum (amount t), expenseSum)
    | expense => (dayTransactions ++ [t], incomeSum, nadd expenseSum (amount t))
    end
  else acc.

Definition monthDay (today : Z) (txs : list Tx)
    (currentYear currentMonth day : Z) : DayData num :=
  let date := Date_ymd tz currentYear currentMonth day in
  let isToday :=
    (getDate tz date =? getDate tz today)
    && (getMonth tz date =? getMonth tz today)
    && (getFullYear tz date =? getFullYear tz today) in
  let '(dayTransactions, incomeSum, expenseSum) :=
    fold_left (addToDay currentYear currentMonth day) txs ([], nzero, nzero) in
  {| d_date := date; isCurrentMonth := true; isToday := isToday;
     d_income := incomeSum; d_expense := expenseSum;
     d_transactions := dayTransactions |}.

Definition calendarData (today : Z) (txs : list Tx)
    (currentYear currentMonth : Z) : list (DayData num) :=
  let firstDayOfMonth := Date_ymd tz currentYear currentMonth 1 in
  let lastDayOfMonth := Date_ymd tz currentYear (currentMonth + 1) 0 in
  let startDay := getDay tz firstDayOfMonth - 1 in
  let startDay := if startDay <? 0 then 6 else startDay in
  let daysInMonth := getDate tz lastDayOfMonth in
  let prevMonthLastDay := getDate tz (Date_ymd tz currentYear currentMonth 0) in
  let days :=
    List.map (fun i => fillerDay (Date_ymd tz currentYear (currentMonth - 1)
                                           (prevMonthLastDay - i)))
             (rev (zrange 0 (startDay - 1))) in
  let days :=
    days ++ List.map (monthDay today txs currentYear currentMonth)
                     (zrange 1 daysInMonth) in
  let remainingDays := 42 - Z.of_nat (List.length days) in
  days ++ List.map (fun i => fillerDay (Date_ymd tz currentYear (currentMonth + 1) i))
                   (zrange 1 remainingDays).

End CalendarGrid.

(** ** Export service: text helpers *)

(** A JavaScript string as the list of its UTF-16 code units; this is how
    texts with Turkish letters are written here. *)
Fixpoint units (s : string) : list N :=
  match s with
  | EmptyString => []
  | String c s' => Ascii.N_of_ascii c :: units s'
  end.

(** The keys of [charMap]: g-breve, u-diaeresis, s-cedilla, dotless i and
    dotted I, o-diaeresis, c-cedilla in both cases, and the lira sign. *)
Definition charMap (c : N) : option (list N) :=
  if (c =? 287)%N then Some (units "g")
  else if (c =? 286)%N then Some (units "G")
  else if (c =? 252)%N then Some (units "u")
  else if (c =? 220)%N then Some (units "U")
  else if (c =? 351)%N then Some (units "s")
  else if (c =? 350)%N then Some (units "S")
  else if (c =? 305)%N then Some (units "i")
  else if (c =? 304)%N then Some (units "I")
  else if (c =? 246)%N then Some (units "o")
  else if (c =? 214)%N then Some (units "O")
  else if (c =? 231)%N then Some (units "c")
  else if (c =? 199)%N then Some (units "C")
  else if (c =? 8378)%N then Some (units "TL")
  else None.

(** The character class of the regular expression. *)
Definition inTurkishClass (c : N) : bool :=
  existsb (N.eqb c)
          [287; 286; 252; 220; 351; 350; 305; 304; 246; 214; 231; 199; 8378]%N.

(** [text.replace(/[...]/g, (char) => charMap[char] || char)] *)
Definition turkishToAscii (text : list N) : list N :=
  flat_map (fun c => if inTurkishClass c
                     then match charMap c with Some r => r | None => [c] end
                     else [c]) text.

(** ** Export service: category summary of the Excel report *)

(** [CATEGORY_CONFIG[c].label] *)
Definition categoryLabel (c : TransactionCategory) : list N :=
  match c with
  | salary => units "Maa" ++ [351%N]
  | freelance => units "Serbest"
  | investment => units "Yat" ++ [305%N] ++ units "r" ++ [305%N] ++ units "m"
  | gift => units "Hediye"
  | food => units "Yemek"
  | transport => units "Ula" ++ [351%N; 305%N] ++ units "m"
  | shopping => units "Al" ++ [305%N; 351%N] ++ units "veri" ++ [351%N]
  | utilities => units "Faturalar"
  | entertainment => units "E" ++ [287%N] ++ units "lence"
  | health => units "Sa" ++ [287%N] ++ units "l" ++ [305%N] ++ units "k"
  | education => units "E" ++ [287%N] ++ units "itim"
  | other => units "Di" ++ [287%N] ++ units "er"
  end.

Definition category_eqb (a b : TransactionCategory) : bool :=
  match a, b with
  | salary, salary | freelance, freelance | investment, investment
  | gift, gift | food, food | transport, transport | shopping, shopping
  | utilities, utilities | entertainment, entertainment | health, health
  | education, education | other, other => true
  | _, _ => false
  end.

Record CategoryTotal {num : Type} := {
  ct_income : num;
  ct_expense : num;
  ct_count : Z
}.
Arguments CategoryTotal : clear implicits.

Section ExcelSummary.
Context {num : Type} `{JsNumber num}.
#[local] Abbreviation Tx := (Transaction num).

(** One round of the [forEach] of sheet 3.  The key is the label of the
    category; no label is the name of an inherited property, so the test
    [!categoryTotals[cat]] is a test for an own entry. *)
Definition addToCategory (categoryTotals : gmap (list N) (CategoryTotal num))
    (t : Tx) : gmap (list N) (CategoryTotal num) :=
  let cat := categoryLabel (category t) in
  let entry :=
    match categoryTotals !! cat with
    | Some e => e
    | None => {| ct_income := nzero; ct_expense := nzero; ct_count := 0 |}
    end in
  let entry := {| ct_income := ct_income entry; ct_expense := ct_expense entry;
                  ct_count := ct_count entry + 1 |} in
  <[cat := match type t with
           | income => {| ct_income := nadd (ct_income entry) (amount t);
                          ct_expense := ct_expense entry;
                          ct_count := ct_count entry |}
           | expense => {| ct_income := ct_income entry;
                           ct_expense := nadd (ct_expense entry) (amount t);
                           ct_count := ct_count entry |}
           end]> categoryTotals.

Definition categoryTotals (txs : list Tx) : gmap (list N) (CategoryTotal num) :=
  fold_left addToCategory txs ∅.

End ExcelSummary.

(** ** Export service: category summary of the PDF report *)

Record PdfCategoryTotal {num : Type} := {
  pct_income : num;
  pct_expense : num
}.
Arguments PdfCategoryTotal : clear implicits.

Section PdfSummary.
Context {num : Type} `{JsNumber num}.
#[local] Abbreviation Tx := (Transaction num).

(** One round of the [forEach] of the category summary of the PDF; the key
    is the label of the category without Turkish letters. *)
Definition addToPdfCategory
    (categoryTotals : gmap (list N) (PdfCategoryTotal num)) (t : Tx)
    : gmap (list N) (PdfCategoryTotal num) :=
  let cat := turkishToAscii (categoryLabel (category t)) in
  let entry :=
    match categoryTotals !! cat with
    | Some e => e
    | None => {| pct_income := nzero; pct_expense := nzero |}
    end in
  <[cat := match type t with
           | income => {| pct_income := nadd (pct_income entry) (amount t);
                          pct_expense := pct_expense entry |}
           | expense => {| pct_income := pct_income entry;
                           pct_expense := nadd (pct_expense entry) (amount t) |}
           end]> categoryTotals.

Definition pdfCategoryTotals (txs : list Tx)
    : gmap (list N) (PdfCategoryTotal num) :=
  fold_left addToPdfCategory txs ∅.

End PdfSummary.

(** ** Reports page: the 12-month trend *)

Definition MONTH_NAMES : list (list N) :=
  [units "Oca"; [350%N] ++ units "ub"; units "Mar"; units "Nis"; units "May";
   units "Haz"; units "Tem"; units "A" ++ [287%N] ++ units "u"; units "Eyl";
   units "Eki"; units "Kas"; units "Ara"].

Record TrendEntry {num : Type} := {
  t_name : list N;
  Gelir : num;
  Gider : num;
  Net : num
}.
Arguments TrendEntry : clear implicits.

Section Trend.
Context {num : Type} `{JsNumber num}.
#[local] Abbreviation Tx := (Transaction num).
Variable tz : Z.

(** The body of the loop of [yearlyTrendData], for one [i]. *)
Definition trendEntry (txs : list Tx) (currentYear currentMonth i : Z)
    : TrendEntry num :=
  let monthDate := Date_ymd tz currentYear (currentMonth - i) 1 in
  let yr := getFullYear tz monthDate in
  let mon := getMonth tz monthDate in
  let monthStart := Date_ymd tz yr mon 1 in
  let monthEnd := Date_ymd tz yr (mon + 1) 0 in
  let monthTransactions := List.filter (inPeriod monthStart monthEnd) txs in
  let incomeSum := sumAmounts (List.filter isIncome monthTransactions) in
  let expenseSum := sumAmounts (List.filter isExpense monthTransactions) in
  {| t_name := nth (Z.to_nat mon) MONTH_NAMES (units "undefined");
     Gelir := incomeSum;
     Gider := expenseSum;
     Net := nsub incomeSum expenseSum |}.

(** [for (let i = 11; i >= 0; i--)] *)
Definition yearlyTrendData (txs : list Tx) (currentYear currentMonth : Z)
    : list (TrendEntry num) :=
  List.map (trendEntry txs currentYear currentMonth) (rev (zrange 0 11)).

End Trend.

(** ** Local time in a zone whose offset changes *)

(** The offset of a zone, in minutes east of UTC: [offsetAt t] is in effect
    at the time value [t] (the specification's [LocalTZA(t, true)]), and
    [offsetOfLocal t] is the one a local time value [t] is read with
    ([LocalTZA(t, false)]). *)
Record Zone := {
  offsetAt : Z -> Z;
  offsetOfLocal : Z -> Z
}.

(** A zone without clock changes. *)
Definition fixedZone (tz : Z) : Zone :=
  {| offsetAt := fun _ => tz; offsetOfLocal := fun _ => tz |}.

Definition hasFixedOffset (z : Zone) (tz : Z) : Prop :=
  (forall t, offsetAt z t = tz) /\ (forall t, offsetOfLocal z t = tz).

Section InZone.
Variable z : Zone.

Definition LocalTimeIn (t : Z) : Z := t + offsetAt z t * msPerMinute.
Definition UTCIn (t : Z) : Z := t - offsetOfLocal z t * msPerMinute.

Definition getMonthIn (t : Z) : Z := MonthFromDay (Day (LocalTimeIn t)).
Definition getDateIn (t : Z) : Z := DateFromDay (Day (LocalTimeIn t)).

(** [new Date(year, month, date)] *)
Definition Date_ymdIn (year month date : Z) : Z :=
  let yr := if (0 <=? year) && (year <=? 99) then 1900 + year else year in
  UTCIn (MakeDay yr month date * msPerDay).

(** [d.setHours(0, 0, 0, 0)] *)
Definition setHours0In (t : Z) : Z :=
  UTCIn (Day (LocalTimeIn t) * msPerDay).

(** [d.setDate(date)] *)
Definition setDateIn (t date : Z) : Z :=
  let lt := LocalTimeIn t in
  UTCIn (MakeDay (YearFromDay (Day lt)) (MonthFromDay (Day lt)) date * msPerDay
         + TimeWithinDay lt).

End InZone.

(** Central European time in the autumn of 2025: UTC+2 until the clocks go
    back at 01:00 UTC on 26 October, UTC+1 afterwards.  A local time that
    occurs twice is read with the offset before the change. *)
Definition clocksBack2025 : Z := (iso_date 2025 10 26) * msPerDay + 3600000.

Definition centralEurope2025 : Zone :=
  {| offsetAt := fun t => if t <? clocksBack2025 then 120 else 60;
     offsetOfLocal :=
       fun t => if t <? clocksBack2025 + 120 * msPerMinute then 120 else 60 |}.

(** ** Dashboard: the chart of the last 14 days *)

Record DayTotals {num : Type} := {
  dt_income : num;
  dt_expense : num
}.
Arguments DayTotals : clear implicits.

Record ChartEntry {num : Type} := {
  c_name : string;
  c_Gelir : num;
  c_Gider : num
}.
Arguments ChartEntry : clear implicits.

(** [date.toISOString().split('T')[0]]: the UTC date of the time value. *)
Definition toISODate (t : Z) : Z := Day t.

Section DailyChart.
Context {num : Type} `{JsNumber num}.
#[local] Abbreviation Tx := (Transaction num).
Variable z : Zone.

(** The object [days]: its own keys are date strings, listed in the order
    of their first assignment, which is the order [Object.entries]
    follows. *)
Fixpoint lookupDay (k : Z) (days : list (Z * DayTotals num))
    : option (DayTotals num) :=
  match days with
  | [] => None
  | (k', v) :: rest => if k' =? k then Some v else lookupDay k rest
  end.

Fixpoint setDay (k : Z) (v : DayTotals num) (days : list (Z * DayTotals num))
    : list (Z * DayTotals num) :=
  match days with
  | [] => [(k, v)]
  | (k', v') :: rest =>
      if k' =? k then (k', v) :: rest else (k', v') :: setDay k v rest
  end.

(** The key of the first loop, [for (let i = 13; i >= 0; i--)]:
    [date.setDate(date.getDate() - i)] on a copy of [today]. *)
Definition chartKey (today i : Z) : Z :=
  toISODate (setDateIn z today (getDateIn z today - i)).

Definition emptyDays (today : Z) : list (Z * DayTotals num) :=
  fold_left (fun days i =>
               setDay (chartKey today i)
                      {| dt_income := nzero; dt_expense := nzero |} days)
            (rev (zrange 0 13)) [].

(** One round of [transactions.forEach]. *)
Definition addToChart (days : list (Z * DayTotals num)) (t : Tx)
    : list (Z * DayTotals num) :=
  match lookupDay (date t) days with
  | Some d =>
      match type t with
      | income =>
          setDay (date t) {| dt_income := nadd (dt_income d) (amount t);
                             dt_expense := dt_expense d |} days
      | expense =>
          setDay (date t) {| dt_income := dt_income d;
                             dt_expense := nadd (dt_expense d) (amount t) |} days
      end
  | None => days
  end.

(** The label is read back in local time: [new Date(date)] with
    [getDate] and [getMonth]. *)
Definition chartEntry (e : Z * DayTotals num) : ChartEntry num :=
  let d := Date_parse (fst e) in
  {| c_name := pretty (getDateIn z d) +:+ "/" +:+ pretty (getMonthIn z d + 1);
     c_Gelir := dt_income (snd e);
     c_Gider := dt_expense (snd e) |}.

Definition chartData (today : Z) (txs : list Tx) : list (ChartEntry num) :=
  List.map chartEntry (fold_left addToChart txs (emptyDays today)).

End DailyChart.

(** ** Vocabulary of the statements about these parts *)

(** [{ ...profile, ...data }]: what [updateProfile] writes for a profile
    with the given identifier. *)
Definition patchProfile (data : ProfilePatch) (profile : Profile) : Profile :=
  {| pid := pid profile;
     name := patched (name profile) (pp_name data);
     avatarColor := patched (avatarColor profile) (pp_avatarColor data);
     currency := patched (currency profile) (pp_currency data);
     pcreatedAt := pcreatedAt profile |}.

(** The order [getProfileTransactions] returns: no transaction stands
    before one of a later date. *)
Definition newestFirst {num : Type} (a b : Transaction num) : Prop :=
  date b <= date a.

(** [n] consecutive integers from [a]. *)
Definition zrange_n (a : Z) (n : nat) : list Z :=
  List.map (fun k => a + Z.of_nat k) (seq 0 n).

(** The year [new Date(year, month, date)] uses. *)
Definition fullYear (year : Z) : Z :=
  if (0 <=? year) && (year <=? 99) then 1900 + year else year.

(** The local calendar day (as a day number) of a cell of the grid. *)
Definition cellDay {num : Type} (tz : Z) (c : DayData num) : Z :=
  Day (LocalTime tz (d_date c)).

(** The transactions of category [c], in the order of the list. *)
Definition inCategory {num : Type} (c : TransactionCategory)
    (l : list (Transaction num)) : list (Transaction num) :=
  List.filter (fun t => category_eqb (category t) c) l.

(** The transactions dated on day [d], in the order of the list. *)
Definition datedOn {num : Type} (d : Z) (l : list (Transaction num))
    : list (Transaction num) :=
  List.filter (fun t => date t =? d) l.

(** What the record of day [k] becomes once the transactions of [l] dated
    on [k] are added to it. *)
Definition addDay {num : Type} `{JsNumber num} (k : Z)
    (l : list (Transaction num)) (v : DayTotals num) : DayTotals num :=
  {| dt_income := fold_left (fun sum t => nadd sum (amount t))
                            (List.filter isIncome (datedOn k l)) (dt_income v);
     dt_expense := fold_left (fun sum t => nadd sum (amount t))
                             (List.filter isExpense (datedOn k l)) (dt_expense v) |}.

(** A state with one profile and two March transactions of it. *)
Definition sampleState : State Z :=
  {| profiles := [{| pid := "p1"; name := "Ev"; avatarColor := "#06b6d4";
                     currency := TRY; pcreatedAt := 0 |}];
     transactions := [sampleRent; rentAsOther];
     activeProfileId := Some "p1";
     lastCleanupMonth := None |}.

(** ** Proof automation for the calendar arithmetic *)

Ltac div_lia := Z.div_mod_to_equations; lia.

Ltac split_ltb :=
  repeat match goal with
         | |- context [?a <? ?b] => destruct (Z.ltb_spec a b)
         end.

Ltac month_cases m :=
  let Hc := fresh "Hc" in
  assert (m = 0 \/ m = 1 \/ m = 2 \/ m = 3 \/ m = 4 \/ m = 5 \/ m = 6
          \/ m = 7 \/ m = 8 \/ m = 9 \/ m = 10 \/ m = 11) as Hc by lia;
  repeat (destruct Hc as [Hc|Hc]); subst m.

(** * Properties *)

(** ** Dates: sanity checks of the calendar functions *)

Example iso_date_epoch : iso_date 1970 1 1 = 0.
Proof. reflexivity. Qed.

Example iso_date_2025_03_31 :
  let d := iso_date 2025 3 31 in
  (YearFromDay d, MonthFromDay d, DateFromDay d) = (2025, 2, 31).
Proof. vm_compute. reflexivity. Qed.

Example iso_date_2024_02_29 :
  let d := iso_date 2024 2 29 in
  (YearFromDay d, MonthFromDay d, DateFromDay d, d) = (2024, 1, 29, 19782).
Proof. vm_compute. reflexivity. Qed.

Example Date_ymd_rolls_over :
  let d := Date_ymd 180 2025 3 31 in
  (getFullYear 180 d, getMonth 180 d, getDate 180 d) = (2025, 4, 1).
Proof. vm_compute. reflexivity. Qed.

Example currentMonthKey_example :
  currentMonthKey 180 (Date_ymd 180 2025 5 15) = "2025-06".
Proof. vm_compute. reflexivity. Qed.


(** ** Entity store *)

Section StoreFacts.
Context {num : Type}.
#[local] Abbreviation Tx := (Transaction num).
#[local] Abbreviation St := (State num).

Lemma eqb_string_false (a b : string) : String.eqb a b = false <-> a <> b.
Proof. apply String.eqb_neq. Qed.

Lemma negb_eqb_string (a b : string) : negb (String.eqb a b) = true <-> a <> b.
Proof. rewrite negb_true_iff. apply String.eqb_neq. Qed.

(** C9.  [deleteProfile id] is one state replacement that removes exactly
    the profiles with that id and exactly the transactions whose
    [profileId] is that id: what stays is what was there, in the same
    order, no transaction of the deleted profile remains, the transactions
    of every other profile are the same list as before, the active profile
    becomes [null] when it was the deleted one and is unchanged otherwise,
    and the cleanup marker is untouched. *)
Theorem deleteProfile_cascade (id : string) (s : St) :
  let s' := deleteProfile id s in
  (forall p, In p (profiles s') <-> In p (profiles s) /\ pid p <> id)
  /\ (forall t, In t (transactions s') <->
                In t (transactions s) /\ profileId t <> id)
  /\ sublist (profiles s') (profiles s)
  /\ sublist (transactions s') (transactions s)
  /\ (forall other, other <> id ->
        List.filter (fun t => String.eqb (profileId t) other) (transactions s')
        = List.filter (fun t => String.eqb (profileId t) other) (transactions s))
  /\ (forall other, other <> id ->
        List.filter (fun p => String.eqb (pid p) other) (profiles s')
        = List.filter (fun p => String.eqb (pid p) other) (profiles s))
  /\ List.filter (fun t => String.eqb (profileId t) id) (transactions s') = []
  /\ (activeProfileId s = Some id -> activeProfileId s' = None)
  /\ (activeProfileId s <> Some id -> activeProfileId s' = activeProfileId s)
  /\ lastCleanupMonth s' = lastCleanupMonth s.
Proof.
  cbn zeta. unfold deleteProfile;
    cbn [profiles transactions activeProfileId lastCleanupMonth].
  repeat apply conj.
  - intros p. rewrite filter_In, negb_eqb_string. tauto.
  - intros t. rewrite filter_In, negb_eqb_string. tauto.
  - induction (profiles s) as [|p l IH]; cbn; [constructor|].
    destruct (negb (String.eqb (pid p) id)); now constructor.
  - induction (transactions s) as [|t l IH]; cbn; [constructor|].
    destruct (negb (String.eqb (profileId t) id)); now constructor.
  - intros other Hne.
    induction (transactions s) as [|t l IH]; cbn; [reflexivity|].
    destruct (String.eqb_spec (profileId t) id) as [E|E]; cbn.
    + rewrite IH, E. apply eqb_string_false in Hne.
      rewrite String.eqb_sym in Hne. now rewrite Hne.
    + now rewrite IH.
  - intros other Hne.
    induction (profiles s) as [|p l IH]; cbn; [reflexivity|].
    destruct (String.eqb_spec (pid p) id) as [E|E]; cbn.
    + rewrite IH, E. apply eqb_string_false in Hne.
      rewrite String.eqb_sym in Hne. now rewrite Hne.
    + now rewrite IH.
  - induction (transactions s) as [|t l IH]; cbn; [reflexivity|].
    destruct (String.eqb_spec (profileId t) id) as [E|E]; cbn.
    + exact IH.
    + apply eqb_string_false in E. now rewrite E.
  - intros ->. now rewrite String.eqb_refl.
  - intros Hne. destruct (activeProfileId s) as [a|]; [|reflexivity].
    destruct (String.eqb_spec a id) as [->|E]; [congruence|reflexivity].
  - reflexivity.
Qed.

(** C10.  [addTransaction] with [isRecurring] false or omitted stores the
    new transaction without a [recurringDay], whatever [recurringDay] was
    passed; the new transaction is the head of the list, followed by the
    transactions stored before, and the profiles, the active profile and
    the cleanup marker are unchanged. *)
Theorem addTransaction_not_recurring
    (newId : string) (now : Z) (profId : string) (ty : TransactionType)
    (amt : num) (cat : TransactionCategory) (ttl : string)
    (descr : option string) (dateArg : option Z) (isRec : option bool)
    (recDay : option Z) (s : St) :
  isRec = Some false \/ isRec = None ->
  let s' := addTransaction newId now profId ty amt cat ttl descr dateArg
                           isRec recDay s in
  exists t,
    transactions s' = t :: transactions s
    /\ recurringDay t = None
    /\ isRecurring t = Some false
    /\ tid t = newId /\ profileId t = profId /\ type t = ty
    /\ amount t = amt /\ category t = cat /\ title t = ttl
    /\ description t = descr
    /\ profiles s' = profiles s
    /\ activeProfileId s' = activeProfileId s
    /\ lastCleanupMonth s' = lastCleanupMonth s.
Proof.
  intros Hrec s'. subst s'. unfold addTransaction.
  eexists. split; [reflexivity|].
  destruct Hrec as [-> | ->]; cbn; repeat split; reflexivity.
Qed.

End StoreFacts.

Lemma addTransaction_not_recurring_witness :
  exists t : Transaction Z,
    transactions (addTransaction "t2" 0 "p1" expense 250 food "Market" None
                    (Some (iso_date 2025 3 12)) (Some false) (Some 12)
                    {| profiles := []; transactions := [sampleRent];
                       activeProfileId := Some "p1";
                       lastCleanupMonth := None |})
    = t :: [sampleRent]
    /\ recurringDay t = None.
Proof.
  destruct (addTransaction_not_recurring "t2" 0 "p1" expense 250 food "Market"
              None (Some (iso_date 2025 3 12)) (Some false) (Some 12)
              {| profiles := []; transactions := [sampleRent];
                 activeProfileId := Some "p1"; lastCleanupMonth := None |})
    as [t [H1 [H2 _]]].
  - left. reflexivity.
  - exists t. split; assumption.
Defined.

(** *** Invariant of the stored transactions *)

Section Reachability.
Context {num : Type}.
#[local] Abbreviation Tx := (Transaction num).
#[local] Abbreviation St := (State num).
Variable tz : Z.

Lemma filter_Forall {A} (P : A -> Prop) (f : A -> bool) (l : list A) :
  Forall P l -> Forall P (List.filter f l).
Proof.
  induction 1 as [|x l Hx Hl IH]; cbn; [constructor|].
  destruct (f x); [constructor|]; assumption.
Qed.

Lemma step_preserves (a : Action) (s : St) :
  keepsRecurrence a ->
  Forall recurringDayOnlyIfRecurring (transactions s) ->
  Forall recurringDayOnlyIfRecurring (transactions (step tz a s)).
Proof.
  intros Ha Hs. destruct a; cbn [step]; try exact Hs.
  - cbn. now apply filter_Forall.
  - cbn. constructor; [|exact Hs].
    unfold recurringDayOnlyIfRecurring; cbn.
    destruct (truthy_bool isRec); split; auto; congruence.
  - cbn in *. destruct Ha as [Hi Hd].
    apply List.Forall_map. eapply List.Forall_impl; [|exact Hs].
    intros t Ht. cbn. destruct (String.eqb (tid t) id); [|exact Ht].
    unfold recurringDayOnlyIfRecurring, applyPatch; cbn.
    rewrite Hi, Hd. exact Ht.
  - cbn. now apply filter_Forall.
  - cbn. now apply filter_Forall.
  - unfold checkAndPerformMonthlyCleanup.
    destruct (bool_decide _); cbn; [|exact Hs].
    now apply filter_Forall.
Qed.

(** What the store guarantees on its own, whatever [addTransaction] is
    given: where [updateTransaction] is used only with patches that leave
    [isRecurring] and [recurringDay] alone, every stored transaction has a
    boolean [isRecurring], and has a [recurringDay] only if [isRecurring]
    is true. *)
Lemma stored_recurringDay_only_if_recurring (s : St) :
  reachableBy tz keepsRecurrence s ->
  Forall recurringDayOnlyIfRecurring (transactions s).
Proof.
  induction 1 as [|a s Hs IH Ha].
  - constructor.
  - now apply step_preserves.
Qed.

Lemma step_keeps_recurrenceInvariant (a : Action) (s : St) :
  respectsRecurrence a ->
  Forall recurrenceInvariant (transactions s) ->
  Forall recurrenceInvariant (transactions (step tz a s)).
Proof.
  intros Ha Hs. destruct a; cbn [step]; try exact Hs.
  - cbn. now apply filter_Forall.
  - cbn. constructor; [|exact Hs].
    unfold recurrenceInvariant; cbn [isRecurring recurringDay].
    cbn in Ha. destruct (truthy_bool isRec).
    + split; [intros _; now apply Ha|reflexivity].
    + split; [discriminate|]. intros [d [Hd _]]. discriminate Hd.
  - cbn in *. destruct Ha as [Hi Hd].
    apply List.Forall_map. eapply List.Forall_impl; [|exact Hs].
    intros t Ht. cbn. destruct (String.eqb (tid t) id); [|exact Ht].
    unfold recurrenceInvariant, applyPatch; cbn.
    rewrite Hi, Hd. exact Ht.
  - cbn. now apply filter_Forall.
  - cbn. now apply filter_Forall.
  - unfold checkAndPerformMonthlyCleanup.
    destruct (bool_decide _); cbn; [|exact Hs].
    now apply filter_Forall.
Qed.

(** C7, as amended.  In every state reachable by the public actions, where
    [addTransaction] is given a day of month from 1 to 31 whenever it is
    given [isRecurring] true, and [updateTransaction] is used only with
    patches that leave [isRecurring] and [recurringDay] alone, a stored
    transaction is recurring exactly when it has a [recurringDay], and that
    day is from 1 to 31. *)
Theorem stored_recurrence_invariant (s : St) :
  reachableBy tz respectsRecurrence s ->
  Forall recurrenceInvariant (transactions s).
Proof.
  induction 1 as [|a s Hs IH Ha].
  - constructor.
  - now apply step_keeps_recurrenceInvariant.
Qed.

End Reachability.

Lemma stored_recurrence_invariant_witness :
  reachableBy 180 respectsRecurrence
    (step 180 (DeleteTransaction "t0")
       (step 180 addRecurringDay15 initialState))
  /\ Forall recurrenceInvariant
       (transactions (step 180 (DeleteTransaction "t0")
                        (step 180 addRecurringDay15 initialState))).
Proof.
  assert (H : reachableBy 180 respectsRecurrence
                (step 180 (DeleteTransaction "t0")
                   (step 180 addRecurringDay15 initialState))).
  { apply reach_step; [|exact I]. apply reach_step; [apply reach_init|].
    intros _. exists 15. split; [reflexivity|lia]. }
  split; [exact H|].
  exact (stored_recurrence_invariant 180 _ H).
Defined.

(** C7, as stated, fails: [addTransaction] with [isRecurring] true and no
    [recurringDay] stores a transaction that is recurring and has no day of
    month. *)
Lemma recurrence_invariant_counterexample :
  let s := step 180 addRecurringWithoutDay initialState in
  reachable 180 s
  /\ exists t, In t (transactions s)
              /\ isRecurring t = Some true
              /\ recurringDay t = None
              /\ ~ recurrenceInvariant t.
Proof.
  cbn zeta. split.
  - apply reach_step; [apply reach_init|exact I].
  - eexists. split; [left; reflexivity|].
    split; [reflexivity|]. split; [reflexivity|].
    unfold recurrenceInvariant. cbn. intros [H _].
    destruct (H eq_refl) as [d [Hd _]]. discriminate Hd.
Qed.

(** [updateTransaction] merges its patch unchecked: the patch
    [{ isRecurring: false }] on a recurring transaction leaves a transaction
    that is not recurring and still has its [recurringDay]. *)
Lemma updateTransaction_breaks_recurrence :
  let s := step 180 (UpdateTransaction "t1" patchNotRecurring)
             (step 180 addRecurringDay15 initialState) in
  reachable 180 s
  /\ exists t, In t (transactions s)
              /\ isRecurring t = Some false
              /\ recurringDay t = Some 15.
Proof.
  cbn zeta. split.
  - apply reach_step; [|exact I]. apply reach_step; [apply reach_init|exact I].
  - eexists. split; [left; reflexivity|]. split; reflexivity.
Qed.

(** *** Monthly cleanup marker *)

Section CleanupMarker.
Context {num : Type}.
#[local] Abbreviation Tx := (Transaction num).
#[local] Abbreviation St := (State num).
Variable tz : Z.

Lemma checkAndPerformMonthlyCleanup_marker (now : Z) (s : St) :
  lastCleanupMonth (checkAndPerformMonthlyCleanup tz now s)
  = Some (currentMonthKey tz now).
Proof.
  unfold checkAndPerformMonthlyCleanup.
  destruct (bool_decide_reflect (lastCleanupMonth s <> Some (currentMonthKey tz now)))
    as [Hne|He]; cbn; [reflexivity|].
  destruct (decide (lastCleanupMonth s = Some (currentMonthKey tz now)));
    [assumption|contradiction].
Qed.

Lemma currentMonthKey_same_month (now now' : Z) :
  getFullYear tz now' = getFullYear tz now ->
  getMonth tz now' = getMonth tz now ->
  currentMonthKey tz now' = currentMonthKey tz now.
Proof. unfold currentMonthKey. now intros -> ->. Qed.

End CleanupMarker.

Example currentMonthKey_format :
  currentMonthKey 180 (Date_ymd 180 2025 11 31) = "2025-12"
  /\ currentMonthKey 180 (Date_ymd 180 2026 0 1) = "2026-01".
Proof. vm_compute. split; reflexivity. Qed.

(** ** Reports page: expense buckets *)

Section Buckets.
Context {num : Type} `{JsNumber num}.
#[local] Abbreviation Tx := (Transaction num).

Lemma addExpense_other (acc : gmap string (Bucket num)) (t : Tx) (k : string) :
  isExpense t && String.eqb (title t) k = false ->
  addExpense acc t !! k = acc !! k.
Proof.
  unfold addExpense, isExpense. destruct (type t); [reflexivity|].
  rewrite andb_true_l. intros Hk. apply String.eqb_neq in Hk.
  destruct (acc !! title t); [|destruct (inherited (title t))];
    try reflexivity; now rewrite lookup_insert_ne.
Qed.

Lemma addExpense_merge (acc : gmap string (Bucket num)) (t : Tx) (k : string)
    (b : Bucket num) :
  isExpense t && String.eqb (title t) k = true ->
  acc !! k = Some b ->
  addExpense acc t !! k
  = Some {| b_amount := nadd (b_amount b) (amount t);
            b_category := b_category b |}.
Proof.
  unfold addExpense, isExpense. destruct (type t); [discriminate|].
  rewrite andb_true_l. intros Hk Hb. apply String.eqb_eq in Hk. subst k.
  rewrite Hb.
  apply lookup_insert_eq.
Qed.

Lemma addExpense_create (acc : gmap string (Bucket num)) (t : Tx) (k : string) :
  isExpense t && String.eqb (title t) k = true ->
  acc !! k = None ->
  addExpense acc t !! k
  = if inherited k then None
    else Some {| b_amount := amount t; b_category := category t |}.
Proof.
  unfold addExpense, isExpense. destruct (type t); [discriminate|].
  rewrite andb_true_l. intros Hk Hb. apply String.eqb_eq in Hk. subst k.
  rewrite Hb.
  destruct (inherited (title t)); [exact Hb|apply lookup_insert_eq].
Qed.

(** Once a title has a bucket, the rest of the loop only adds amounts to it:
    the category of the bucket stays. *)
Lemma fold_addExpense_Some (l : list Tx) (acc : gmap string (Bucket num))
    (k : string) (b : Bucket num) :
  acc !! k = Some b ->
  fold_left addExpense l acc !! k
  = Some {| b_amount :=
              fold_left (fun a t => nadd a (amount t)) (expensesTitled k l)
                        (b_amount b);
            b_category := b_category b |}.
Proof.
  revert acc b. unfold expensesTitled.
  induction l as [|t l IH]; intros acc b Hb; cbn [fold_left List.filter].
  - rewrite Hb. now destruct b.
  - destruct (isExpense t && String.eqb (title t) k) eqn:Hk;
      cbn [fold_left].
    + rewrite (IH _ _ (addExpense_merge acc t k b Hk Hb)). reflexivity.
    + apply IH. now rewrite addExpense_other.
Qed.

Lemma fold_addExpense_None (l : list Tx) (acc : gmap string (Bucket num))
    (k : string) :
  acc !! k = None ->
  fold_left addExpense l acc !! k
  = if inherited k then None
    else match expensesTitled k l with
         | [] => None
         | t0 :: rest =>
             Some {| b_amount :=
                       fold_left (fun a t => nadd a (amount t)) rest (amount t0);
                     b_category := category t0 |}
         end.
Proof.
  revert acc. unfold expensesTitled.
  induction l as [|t l IH]; intros acc Hb; cbn [fold_left List.filter].
  - rewrite Hb. now destruct (inherited k).
  - destruct (isExpense t && String.eqb (title t) k) eqn:Hk.
    + pose proof (addExpense_create acc t k Hk Hb) as Hc.
      destruct (inherited k) eqn:Hi.
      * exact (IH _ Hc).
      * rewrite (fold_addExpense_Some l _ k _ Hc). reflexivity.
    + apply IH. now rewrite addExpense_other.
Qed.

(** C6, as amended.  The expense transactions are grouped by title.  For
    a title that is not the name of a property every object inherits, the
    bucket holds the sum of the amounts of the expenses with that title,
    added in the order of the list, and the category of the first of
    them; there is no bucket when no expense has the title. *)
Theorem expenseByTitle_first_category (filtered : list Tx) (k : string) :
  inherited k = false ->
  expenseByTitle filtered !! k
  = match expensesTitled k filtered with
    | [] => None
    | t0 :: rest =>
        Some {| b_amount :=
                  fold_left (fun a t => nadd a (amount t)) rest (amount t0);
                b_category := category t0 |}
    end.
Proof.
  intros Hk. unfold expenseByTitle.
  rewrite fold_addExpense_None by apply lookup_empty. now rewrite Hk.
Qed.

End Buckets.

Lemma expenseByTitle_first_category_witness :
  expenseByTitle [sampleRent; incomeOn (iso_date 2025 3 15); rentAsOther] !! "Kira"
  = match expensesTitled "Kira"
            [sampleRent; incomeOn (iso_date 2025 3 15); rentAsOther] with
    | [] => None
    | t0 :: rest =>
        Some {| b_amount :=
                  fold_left (fun a t => nadd a (amount t)) rest (amount t0);
                b_category := category t0 |}
    end.
Proof.
  apply (expenseByTitle_first_category
           [sampleRent; incomeOn (iso_date 2025 3 15); rentAsOther] "Kira").
  reflexivity.
Defined.

(** C6, as stated, fails: of two expenses titled "Kira", the first in
    category [utilities] and the second in category [other], the bucket keeps
    [utilities], the category of the first. *)
Lemma expenseByTitle_last_category_counterexample :
  expenseByTitle [sampleRent; rentAsOther] !! "Kira"
  = Some {| b_amount := 500; b_category := utilities |}
  /\ category (List.last [sampleRent; rentAsOther] sampleRent) = other
  /\ ~ (forall b, expenseByTitle [sampleRent; rentAsOther] !! "Kira" = Some b ->
        b_category b = category (List.last [sampleRent; rentAsOther] sampleRent)).
Proof.
  assert (E : expenseByTitle [sampleRent; rentAsOther] !! "Kira"
              = Some {| b_amount := 500; b_category := utilities |}).
  { unfold expenseByTitle. rewrite fold_addExpense_None by apply lookup_empty.
    vm_compute. reflexivity. }
  split; [exact E|]. split; [reflexivity|].
  intros Hall. specialize (Hall _ E). discriminate Hall.
Qed.

(** ** Upcoming payments *)

Section Upcoming.
Context {num : Type}.
#[local] Abbreviation Tx := (Transaction num).
#[local] Abbreviation Item := (UpcomingItem num).
Variable tz : Z.

Lemma insertByDaysLeft_Permutation (x : Item) (l : list Item) :
  Permutation (insertByDaysLeft x l) (x :: l).
Proof.
  induction l as [|y l IH]; cbn; [reflexivity|].
  destruct (daysLeft y <? daysLeft x); [|reflexivity].
  rewrite IH. apply perm_swap.
Qed.

Lemma sortByDaysLeft_Permutation (l : list Item) :
  Permutation (sortByDaysLeft l) l.
Proof.
  induction l as [|x l IH]; cbn; [reflexivity|].
  rewrite insertByDaysLeft_Permutation. now constructor.
Qed.

Lemma insertByDaysLeft_HdRel (a x : Item) (l : list Item) :
  byDaysLeft a x -> HdRel byDaysLeft a l ->
  HdRel byDaysLeft a (insertByDaysLeft x l).
Proof.
  intros Hax Hal. destruct l as [|y l]; cbn; [now constructor|].
  destruct (daysLeft y <? daysLeft x); constructor;
    [now inversion Hal|assumption].
Qed.

Lemma insertByDaysLeft_Sorted (x : Item) (l : list Item) :
  Sorted byDaysLeft l -> Sorted byDaysLeft (insertByDaysLeft x l).
Proof.
  induction 1 as [|y l Hl IH Hy]; cbn; [repeat constructor|].
  destruct (Z.ltb_spec (daysLeft y) (daysLeft x)) as [Hlt|Hge].
  - constructor; [exact IH|].
    apply insertByDaysLeft_HdRel; [unfold byDaysLeft; lia|exact Hy].
  - constructor; [now constructor|]. constructor. exact Hge.
Qed.

Lemma sortByDaysLeft_Sorted (l : list Item) : Sorted byDaysLeft (sortByDaysLeft l).
Proof.
  induction l as [|x l IH]; cbn; [constructor|].
  now apply insertByDaysLeft_Sorted.
Qed.

Lemma byDaysLeft_trans : Relations_1.Transitive (@byDaysLeft num).
Proof. intros a b c. unfold byDaysLeft. lia. Qed.

Lemma sortByDaysLeft_In (it : Item) (l : list Item) :
  In it (sortByDaysLeft l) <-> In it l.
Proof.
  split; apply Permutation_in;
    [|symmetry]; apply sortByDaysLeft_Permutation.
Qed.

(** The items before sorting: one for each listed recurring transaction
    whose day count is from 0 to 30, one for each future transaction. *)
Lemma In_recurringItem (today : Z) (t : Tx) (it : Item) :
  In it (recurringItem tz today t) <->
  exists d, recurringDay t = Some d
            /\ 0 <= recurringDaysLeft tz today d <= 30
            /\ it = {| transaction := t; dueDate := nextDueDate tz today d;
                       daysLeft := recurringDaysLeft tz today d |}.
Proof.
  unfold recurringItem, recurringDaysLeft.
  destruct (recurringDay t) as [d|].
  - destruct (Z.leb_spec (daysUntil today (nextDueDate tz today d)) 30);
      destruct (Z.geb_spec (daysUntil today (nextDueDate tz today d)) 0);
      cbn; split.
    all: try (intros [<-|[]]; exists d; repeat split; (lia || reflexivity)).
    all: try (intros [d' [Hd [Hr ->]]]; injection Hd as <-; (now left) || lia).
    all: intros [].
  - cbn. split; [intros []|]. intros [d [Hd _]]. discriminate.
Qed.

Lemma upcomingItems_In (now : Z) (txs : list Tx) (it : Item) :
  In it (upcomingItems tz now txs) <->
  In (transaction it) txs
  /\ isUpcoming tz (setHours0 tz now) (transaction it)
  /\ daysLeft it = shownDaysLeft tz (setHours0 tz now) (transaction it)
  /\ dueDate it = shownDueDate tz (setHours0 tz now) (transaction it).
Proof.
  unfold upcomingItems. rewrite sortByDaysLeft_In, in_app_iff, in_flat_map.
  rewrite in_map_iff. unfold isUpcoming, shownDaysLeft, shownDueDate.
  split.
  - intros [[t [Ht Hit]] | [t [<- Ht]]].
    + apply filter_In in Ht. destruct Ht as [Ht Hrec].
      apply andb_true_iff in Hrec. destruct Hrec as [Hrec Hday].
      apply In_recurringItem in Hit. destruct Hit as [d [Hd [Hr ->]]].
      cbn. rewrite Hrec, Hd. unfold truthy_num in Hday. rewrite Hd in Hday.
      apply negb_true_iff, Z.eqb_neq in Hday. tauto.
    + apply filter_In in Ht. destruct Ht as [Ht Hfut].
      unfold isFuture in Hfut. cbn.
      destruct (truthy_bool (isRecurring t)); [discriminate|].
      apply andb_true_iff in Hfut. destruct Hfut as [H1 H2].
      apply Z.gtb_lt in H1. apply Z.leb_le in H2. tauto.
  - intros [Ht [Hup [Hleft Hdue]]].
    destruct (truthy_bool (isRecurring (transaction it))) eqn:Hrec.
    + left. exists (transaction it).
      destruct (recurringDay (transaction it)) as [d|] eqn:Hd; [|destruct Hup].
      split.
      * apply filter_In. split; [exact Ht|]. rewrite Hrec. cbn.
        unfold truthy_num. rewrite Hd.
        apply negb_true_iff, Z.eqb_neq. tauto.
      * apply In_recurringItem. exists d. split; [exact Hd|].
        split; [tauto|]. destruct it; cbn in *. congruence.
    + right. exists (transaction it). split.
      * unfold futureItem. destruct it; cbn in *. congruence.
      * apply filter_In. split; [exact Ht|]. unfold isFuture. rewrite Hrec.
        apply andb_true_iff. split; [apply Z.gtb_lt|apply Z.leb_le]; lia.
Qed.

(** The structure of the upcoming list, in terms of the day counts the
    component computes ([recurringDaysLeft], [futureDaysLeft]): which
    transactions it holds, what it shows for each, and its order. *)
Lemma upcomingItems_structure (now : Z) (txs : list Tx) :
  let today := setHours0 tz now in
  let items := upcomingItems tz now txs in
  (forall t, In t (List.map transaction items) <->
             In t txs /\ isUpcoming tz today t)
  /\ (forall it, In it items ->
        daysLeft it = shownDaysLeft tz today (transaction it)
        /\ dueDate it = shownDueDate tz today (transaction it))
  /\ StronglySorted byDaysLeft items
  /\ Permutation items
       (flat_map (recurringItem tz today)
          (List.filter (fun t => truthy_bool (isRecurring t)
                                 && truthy_num (recurringDay t)) txs)
        ++ List.map (futureItem tz today) (List.filter (isFuture tz today) txs)).
Proof.
  intros today items. repeat apply conj.
  - intros t. rewrite in_map_iff. split.
    + intros [it [<- Hit]]. apply upcomingItems_In in Hit. tauto.
    + intros [Ht Hup].
      exists {| transaction := t; dueDate := shownDueDate tz today t;
                daysLeft := shownDaysLeft tz today t |}.
      split; [reflexivity|]. apply upcomingItems_In. cbn. tauto.
  - intros it Hit. apply upcomingItems_In in Hit. tauto.
  - apply Sorted_StronglySorted; [exact byDaysLeft_trans|].
    apply sortByDaysLeft_Sorted.
  - apply sortByDaysLeft_Permutation.
Qed.

End Upcoming.

(** On 10 April 2025 (UTC+3): recurring days 5, 15 and 10, and expenses
    dated 10 April, 20 April, 10 May and 11 May.  The expense of today and
    the one 31 days ahead are left out, the recurring transaction of today
    is in. *)
Example upcomingItems_example :
  List.map (fun it => (recurringDay (transaction it), daysLeft it))
    (upcomingItems 180 (noon 180 2025 3 10)
       [recurringOn (iso_date 2025 1 5) 5; recurringOn (iso_date 2025 1 15) 15;
        expenseOn (iso_date 2025 4 10); expenseOn (iso_date 2025 4 20);
        recurringOn (iso_date 2025 1 10) 10; expenseOn (iso_date 2025 5 10);
        expenseOn (iso_date 2025 5 11)])
  = [(Some 10, 0); (Some 15, 5); (None, 10); (Some 5, 25); (None, 30)].
Proof. vm_compute. reflexivity. Qed.

(** ** Dates of transactions in local time *)

Section LocalDays.
Variable tz : Z.

(** East of UTC (and in UTC) midnight UTC of a day is a time of the same
    local day. *)
Lemma Day_LocalTime_parse_east (d : Z) :
  0 <= tz < 1440 -> Day (LocalTime tz (Date_parse d)) = d.
Proof.
  intros Htz. unfold Day, LocalTime, LocalTZA, Date_parse, msPerDay, msPerMinute.
  rewrite Z.div_add_l by lia. rewrite Z.div_small by lia. lia.
Qed.

(** West of UTC it is a time of the local day before. *)
Lemma Day_LocalTime_parse_west (d : Z) :
  -1440 <= tz < 0 -> Day (LocalTime tz (Date_parse d)) = d - 1.
Proof.
  intros Htz. unfold Day, LocalTime, LocalTZA, Date_parse, msPerDay, msPerMinute.
  replace (d * 86400000 + tz * 60000)
    with ((d - 1) * 86400000 + (86400000 + tz * 60000)) by lia.
  rewrite Z.div_add_l by lia. rewrite Z.div_small by lia. lia.
Qed.

(** Local midnight of a day is a time of that local day, in every zone. *)
Lemma Day_LocalTime_UTC (x : Z) : Day (LocalTime tz (UTC tz (x * msPerDay))) = x.
Proof.
  unfold Day, LocalTime, UTC.
  replace (x * msPerDay - LocalTZA tz + LocalTZA tz) with (x * msPerDay) by lia.
  apply Z.div_mul. unfold msPerDay. lia.
Qed.

Lemma ceil_div_days (k : Z) : ceil_div (k * msPerDay) msPerDay = k.
Proof.
  unfold ceil_div. replace (- (k * msPerDay)) with ((- k) * msPerDay) by lia.
  rewrite Z.div_mul by (unfold msPerDay; lia). lia.
Qed.

End LocalDays.

(** The day count of a transaction that is not recurring is the number of
    days from today to its date at and east of UTC, and one day less west of
    UTC. *)
Lemma futureDaysLeft_east {num : Type} (tz now : Z) (t : Transaction num) :
  0 <= tz < 1440 ->
  futureDaysLeft tz (setHours0 tz now) t = date t - Day (LocalTime tz now).
Proof.
  intros Htz. unfold futureDaysLeft, daysUntil, futureDate, setHours0.
  rewrite (Day_LocalTime_parse_east tz _ Htz). unfold UTC.
  replace (date t * msPerDay - LocalTZA tz
           - (Day (LocalTime tz now) * msPerDay - LocalTZA tz))
    with ((date t - Day (LocalTime tz now)) * msPerDay) by lia.
  apply ceil_div_days.
Qed.

Lemma futureDaysLeft_west {num : Type} (tz now : Z) (t : Transaction num) :
  -1440 <= tz < 0 ->
  futureDaysLeft tz (setHours0 tz now) t = date t - 1 - Day (LocalTime tz now).
Proof.
  intros Htz. unfold futureDaysLeft, daysUntil, futureDate, setHours0.
  rewrite (Day_LocalTime_parse_west tz _ Htz). unfold UTC.
  replace ((date t - 1) * msPerDay - LocalTZA tz
           - (Day (LocalTime tz now) * msPerDay - LocalTZA tz))
    with ((date t - 1 - Day (LocalTime tz now)) * msPerDay) by lia.
  apply ceil_div_days.
Qed.

(** C8: the code in a browser west of UTC (UTC-5), at noon of 10 April
    2025.  An expense dated 11 April, one day ahead, gets the day count 0
    and is left out of the upcoming list; an expense dated 11 May, 31 days
    ahead, gets the day count 30 and is listed.  East of UTC (UTC+3) the
    same two expenses are handled as the claim says: the first is listed
    with day count 1, the second is left out. *)
Theorem upcomingItems_west_of_utc :
  let now := noon (-300) 2025 3 10 in
  let tomorrow := expenseOn (iso_date 2025 4 11) in
  let in31days := expenseOn (iso_date 2025 5 11) in
  getFullYear (-300) now = 2025 /\ getMonth (-300) now = 3
  /\ getDate (-300) now = 10
  /\ date tomorrow - Day (LocalTime (-300) now) = 1
  /\ date in31days - Day (LocalTime (-300) now) = 31
  /\ futureDaysLeft (-300) (setHours0 (-300) now) tomorrow = 0
  /\ futureDaysLeft (-300) (setHours0 (-300) now) in31days = 30
  /\ upcomingItems (-300) now [tomorrow] = []
  /\ List.map (fun it => (transaction it, daysLeft it))
       (upcomingItems (-300) now [in31days]) = [(in31days, 30)]
  /\ List.map (fun it => (transaction it, daysLeft it))
       (upcomingItems 180 (noon 180 2025 3 10) [tomorrow; in31days])
     = [(tomorrow, 1)].
Proof. vm_compute. repeat split; reflexivity. Qed.

(** ** Calendar arithmetic *)

Lemma DayFromYear_step (y : Z) : DayFromYear (y + 1) = DayFromYear y + DaysInYear y.
Proof.
  unfold DayFromYear, DaysInYear, InLeapYear.
  destruct (Z.eqb_spec (y mod 4) 0); cbn [negb];
    [destruct (Z.eqb_spec (y mod 100) 0); cbn [negb];
     [destruct (Z.eqb_spec (y mod 400) 0); cbn [negb]|]|].
  all: div_lia.
Qed.

Lemma DaysInYear_leapDays (y : Z) : DaysInYear y = 365 + leapDays y.
Proof. unfold DaysInYear, leapDays. now destruct (InLeapYear y). Qed.

Lemma leapDays_range (y : Z) : 0 <= leapDays y <= 1.
Proof. unfold leapDays. destruct (InLeapYear y); lia. Qed.

Lemma DayFromYear_le (y1 y2 : Z) : y1 <= y2 -> DayFromYear y1 <= DayFromYear y2.
Proof. unfold DayFromYear. intros. div_lia. Qed.

(** [YearFromDay] is the year function of the language specification: the
    largest year that starts on or before the day. *)
Lemma YearFromDay_spec (d : Z) :
  DayFromYear (YearFromDay d) <= d < DayFromYear (YearFromDay d + 1).
Proof.
  unfold YearFromDay.
  set (y := 1970 + 400 * d / 146097).
  destruct (Z.ltb_spec d (DayFromYear y)).
  - split.
    + unfold DayFromYear in *. subst y. div_lia.
    + replace (y - 1 + 1) with y by lia. lia.
  - destruct (Z.leb_spec (DayFromYear (y + 1)) d).
    + split; [lia|]. unfold DayFromYear in *. subst y. div_lia.
    + lia.
Qed.

Lemma YearFromDay_unique (d y : Z) :
  DayFromYear y <= d < DayFromYear (y + 1) -> YearFromDay d = y.
Proof.
  intros Hy. pose proof (YearFromDay_spec d) as Hs.
  destruct (Z.lt_trichotomy (YearFromDay d) y) as [Hlt|[Heq|Hgt]]; [|exact Heq|].
  - pose proof (DayFromYear_le (YearFromDay d + 1) y ltac:(lia)). lia.
  - pose proof (DayFromYear_le (y + 1) (YearFromDay d) ltac:(lia)). lia.
Qed.

Lemma MonthFromDay_range (d : Z) : 0 <= MonthFromDay d <= 11.
Proof. unfold MonthFromDay. split_ltb; lia. Qed.

Lemma MakeDay_eq (y mo d : Z) :
  MakeDay y mo d
  = DayFromYear (y + mo / 12)
    + daysBeforeMonth (leapDays (y + mo / 12)) (mo mod 12) + d - 1.
Proof. reflexivity. Qed.

Lemma daysBeforeMonth_succ (y m : Z) :
  0 <= m <= 10 ->
  daysBeforeMonth (leapDays y) (m + 1)
  = daysBeforeMonth (leapDays y) m + daysInMonthOf y m.
Proof.
  intros Hm. unfold daysInMonthOf. generalize (leapDays y). intros l.
  month_cases m; unfold daysBeforeMonth; simpl (_ =? _); cbn [orb]; lia.
Qed.

Lemma daysInMonthOf_range (y m : Z) : 28 <= daysInMonthOf y m <= 31.
Proof.
  pose proof (leapDays_range y). unfold daysInMonthOf.
  destruct (m =? 1); [lia|]. destruct (_ || _); lia.
Qed.

(** A valid calendar date is read back from its day number. *)
Lemma MakeDay_roundtrip (y m d : Z) :
  0 <= m <= 11 -> 1 <= d <= daysInMonthOf y m ->
  YearFromDay (MakeDay y m d) = y
  /\ MonthFromDay (MakeDay y m d) = m
  /\ DateFromDay (MakeDay y m d) = d.
Proof.
  intros Hm Hd.
  assert (Hmk : MakeDay y m d
                = DayFromYear y + daysBeforeMonth (leapDays y) m + d - 1).
  { unfold MakeDay. rewrite Z.div_small, Z.mod_small by lia.
    now rewrite Z.add_0_r. }
  pose proof (leapDays_range y) as Hl.
  assert (Hy : YearFromDay (MakeDay y m d) = y).
  { apply YearFromDay_unique.
    rewrite DayFromYear_step, DaysInYear_leapDays, Hmk.
    unfold daysInMonthOf, daysBeforeMonth in *.
    month_cases m; cbn in *; lia. }
  unfold DateFromDay, MonthFromDay, DayWithinYear. rewrite Hy.
  split; [reflexivity|]. rewrite Hmk.
  replace (DayFromYear y + daysBeforeMonth (leapDays y) m + d - 1 - DayFromYear y)
    with (daysBeforeMonth (leapDays y) m + d - 1) by lia.
  unfold daysInMonthOf, daysBeforeMonth in *.
  month_cases m; cbn [Z.eqb Pos.eqb orb] in *;
    split_ltb; try lia; cbn; split; lia.
Qed.

(** Every day number is a valid calendar date. *)
Lemma fields_valid (n : Z) :
  1 <= DateFromDay n <= daysInMonthOf (YearFromDay n) (MonthFromDay n)
  /\ MakeDay (YearFromDay n) (MonthFromDay n) (DateFromDay n) = n.
Proof.
  pose proof (YearFromDay_spec n) as Hs.
  rewrite DayFromYear_step, DaysInYear_leapDays in Hs.
  pose proof (leapDays_range (YearFromDay n)) as Hl.
  pose proof (MonthFromDay_range n) as Hm.
  unfold MakeDay. rewrite Z.div_small, Z.mod_small, Z.add_0_r by lia.
  clear Hm. unfold DateFromDay, daysInMonthOf, MonthFromDay, DayWithinYear.
  split_ltb; cbn; lia.
Qed.

(** The day number of the string "y-m-d" has the fields [y], [m - 1], [d]. *)
Lemma iso_date_fields (y m d : Z) :
  1 <= m <= 12 -> 1 <= d <= daysInMonthOf y (m - 1) ->
  YearFromDay (iso_date y m d) = y
  /\ MonthFromDay (iso_date y m d) = m - 1
  /\ DateFromDay (iso_date y m d) = d.
Proof. intros Hm Hd. apply MakeDay_roundtrip; [lia|exact Hd]. Qed.

(** A day of month from 1 to 31 keeps [MakeDay] inside the year of the
    month, in a month that has at least that many days: either the month
    asked for, or the month after it, after a month shorter than the day. *)
Lemma MakeDay_within_year (y mo d : Z) :
  1 <= d <= 31 ->
  YearFromDay (MakeDay y mo d) = y + mo / 12
  /\ d <= daysInMonthOf (y + mo / 12) (MonthFromDay (MakeDay y mo d)).
Proof.
  intros Hd. rewrite MakeDay_eq.
  set (ym := y + mo / 12). set (mn := mo mod 12).
  assert (Hmn : 0 <= mn <= 11)
    by (subst mn; pose proof (Z.mod_pos_bound mo 12); lia).
  pose proof (leapDays_range ym) as Hl. clearbody ym mn.
  assert (Hy : YearFromDay (DayFromYear ym + daysBeforeMonth (leapDays ym) mn
                            + d - 1) = ym).
  { apply YearFromDay_unique. rewrite DayFromYear_step, DaysInYear_leapDays.
    unfold daysBeforeMonth. month_cases mn; cbn; lia. }
  split; [exact Hy|].
  unfold MonthFromDay, DayWithinYear. rewrite Hy.
  replace (DayFromYear ym + daysBeforeMonth (leapDays ym) mn + d - 1
           - DayFromYear ym)
    with (daysBeforeMonth (leapDays ym) mn + d - 1) by lia.
  unfold daysInMonthOf, daysBeforeMonth.
  month_cases mn; cbn [Z.eqb Pos.eqb orb]; split_ltb; cbn; lia.
Qed.

(** Day 0 of the next month is the last day of the month. *)
Lemma MakeDay_month_end (y m : Z) :
  0 <= m <= 11 -> MakeDay y (m + 1) 0 = MakeDay y m (daysInMonthOf y m).
Proof.
  intros Hm. rewrite !MakeDay_eq. pose proof (leapDays_range y).
  destruct (Z.eq_dec m 11) as [->|Hne].
  - change ((11 + 1) / 12) with 1. change ((11 + 1) mod 12) with 0.
    change (11 / 12) with 0. change (11 mod 12) with 11.
    rewrite !Z.add_0_r, DayFromYear_step, DaysInYear_leapDays.
    unfold daysInMonthOf, daysBeforeMonth. cbn [Z.eqb Pos.eqb orb]. lia.
  - rewrite (Z.div_small (m + 1)), (Z.div_small m) by lia.
    rewrite (Z.mod_small (m + 1)), (Z.mod_small m) by lia.
    rewrite !Z.add_0_r, daysBeforeMonth_succ by lia. lia.
Qed.

Lemma lastDay_of_month (y m : Z) :
  0 <= m <= 11 -> DateFromDay (MakeDay y (m + 1) 0) = daysInMonthOf y m.
Proof.
  intros Hm. rewrite MakeDay_month_end by exact Hm.
  pose proof (daysInMonthOf_range y m).
  apply MakeDay_roundtrip; lia.
Qed.

Lemma Date_ymd_year (tz y mo d : Z) :
  100 <= y -> Date_ymd tz y mo d = UTC tz (MakeDay y mo d * msPerDay).
Proof.
  intros Hy. unfold Date_ymd.
  destruct (Z.leb_spec 0 y); destruct (Z.leb_spec y 99); cbn [andb];
    (reflexivity || lia).
Qed.

Lemma setHours0_fields (tz now : Z) :
  getFullYear tz (setHours0 tz now) = getFullYear tz now
  /\ getMonth tz (setHours0 tz now) = getMonth tz now
  /\ getDate tz (setHours0 tz now) = getDate tz now.
Proof.
  unfold getFullYear, getMonth, getDate, setHours0.
  rewrite Day_LocalTime_UTC. repeat split; reflexivity.
Qed.

(** ** Next occurrence of a recurring transaction *)

(** C1: the code at the inputs of the specification's example.
    [new Date(year, month, 31)] has already rolled over into the next month
    when the test against [lastDayOfMonth] runs, and that month has 31 days,
    so nothing is clamped: with [recurringDay] 31 and today 10 April 2025
    the due date is 1 May (not 30 April), and with today 10 February 2025 it
    is 3 March (not 28 February). *)
Theorem nextDueDate_day31_rolls_over :
  (let today := setHours0 180 (noon 180 2025 3 10) in
   let due := nextDueDate 180 today 31 in
   (getFullYear 180 due, getMonth 180 due, getDate 180 due) = (2025, 4, 1)
   /\ recurringDaysLeft 180 today 31 = 21)
  /\ (let today := setHours0 180 (noon 180 2025 1 10) in
      let due := nextDueDate 180 today 31 in
      (getFullYear 180 due, getMonth 180 due, getDate 180 due) = (2025, 2, 3)
      /\ recurringDaysLeft 180 today 31 = 21).
Proof. vm_compute. repeat split; reflexivity. Qed.

(** For a day of month from 1 to 31 the test [recurringDay >
    lastDayOfMonth] is never true: [lastDayOfMonth] is read from the month
    the due date has rolled into. *)
Lemma no_clamp (tz y mo d : Z) :
  1 <= d <= 31 -> 100 <= y -> 0 <= mo <= 12 ->
  let due := Date_ymd tz y mo d in
  (d >? getDate tz (Date_ymd tz (getFullYear tz due) (getMonth tz due + 1) 0))
  = false.
Proof.
  intros Hd Hy Hmo due. subst due.
  rewrite (Date_ymd_year tz y mo d Hy).
  unfold getFullYear, getMonth, getDate. rewrite Day_LocalTime_UTC.
  destruct (MakeDay_within_year y mo d Hd) as [Hyr Hdim]. rewrite Hyr.
  assert (0 <= mo / 12) by (apply Z.div_pos; lia).
  rewrite Date_ymd_year by lia. rewrite Day_LocalTime_UTC.
  rewrite lastDay_of_month by apply MonthFromDay_range.
  rewrite Z.gtb_ltb. apply Z.ltb_ge. exact Hdim.
Qed.

(** So the next occurrence is what [new Date(year, month, recurringDay)]
    gives, rolled over or not: the clamp to the end of the month is dead
    code. *)
Lemma nextDueDate_never_clamps (tz today d : Z) :
  1 <= d <= 31 -> 100 <= getFullYear tz today ->
  nextDueDate tz today d
  = if Date_ymd tz (getFullYear tz today) (getMonth tz today) d <? today
    then Date_ymd tz (getFullYear tz today) (getMonth tz today + 1) d
    else Date_ymd tz (getFullYear tz today) (getMonth tz today) d.
Proof.
  intros Hd Hy. unfold nextDueDate.
  pose proof (MonthFromDay_range (Day (LocalTime tz today))) as Hm.
  fold (getMonth tz today) in Hm.
  destruct (Date_ymd tz (getFullYear tz today) (getMonth tz today) d <? today).
  - rewrite no_clamp by lia. reflexivity.
  - rewrite no_clamp by lia. reflexivity.
Qed.

(** In every month shorter than 31 days, of every year and in every time
    zone, [recurringDay] 31 is due in the following month, on the day
    31 minus the length of the current month: on the 1st after a month of 30
    days, on 3 March after a February of 28 days. *)
Lemma nextDueDate_day31_short_month (tz now : Z) :
  let today := setHours0 tz now in
  let y := getFullYear tz now in
  let m := getMonth tz now in
  100 <= y -> daysInMonthOf y m < 31 ->
  let due := nextDueDate tz today 31 in
  getFullYear tz due = y
  /\ getMonth tz due = m + 1
  /\ getDate tz due = 31 - daysInMonthOf y m.
Proof.
  intros today y m Hy Hshort due. subst due.
  destruct (setHours0_fields tz now) as [Ey [Em Ed]].
  fold today in Ey, Em, Ed. fold y in Ey. fold m in Em.
  rewrite nextDueDate_never_clamps by lia. rewrite Ey, Em.
  pose proof (MonthFromDay_range (Day (LocalTime tz now))) as Hm.
  fold (getMonth tz now) in Hm. fold m in Hm.
  assert (Hm10 : m <= 10).
  { destruct (Z.eq_dec m 11) as [E|]; [|lia]. rewrite E in Hshort.
    unfold daysInMonthOf in Hshort. cbn in Hshort. lia. }
  pose proof (daysInMonthOf_range y m) as Hdim.
  pose proof (daysInMonthOf_range y (m + 1)) as Hdim'.
  assert (Hroll : MakeDay y m 31 = MakeDay y (m + 1) (31 - daysInMonthOf y m)).
  { rewrite !MakeDay_eq.
    rewrite (Z.div_small (m + 1)), (Z.div_small m) by lia.
    rewrite (Z.mod_small (m + 1)), (Z.mod_small m) by lia.
    rewrite !Z.add_0_r, daysBeforeMonth_succ by lia. lia. }
  assert (Hnot : (Date_ymd tz y m 31 <? today) = false).
  { apply Z.ltb_ge. rewrite Date_ymd_year by lia. unfold today, setHours0, UTC.
    destruct (fields_valid (Day (LocalTime tz now))) as [Hv Hmk].
    fold (getFullYear tz now) (getMonth tz now) (getDate tz now) in Hv, Hmk.
    fold y m in Hv, Hmk. rewrite <- Hmk. rewrite !MakeDay_eq.
    unfold msPerDay. lia. }
  rewrite Hnot, Date_ymd_year by lia.
  unfold getFullYear, getMonth, getDate. rewrite Day_LocalTime_UTC, Hroll.
  apply MakeDay_roundtrip; lia.
Qed.

Lemma nextDueDate_day31_short_month_witness :
  let due := nextDueDate 180 (setHours0 180 (noon 180 2025 3 10)) 31 in
  getFullYear 180 due = 2025 /\ getMonth 180 due = 3 + 1
  /\ getDate 180 due = 31 - 30.
Proof.
  apply (nextDueDate_day31_short_month 180 (noon 180 2025 3 10));
    vm_compute; congruence.
Defined.

(** ** Calendar membership *)

Section Calendar.
Context {num : Type}.
#[local] Abbreviation Tx := (Transaction num).

(** East of UTC the test is the one of the specification: the stored date
    is the displayed day, or the transaction is recurring, its day of month
    is the displayed one, and the month of its date is not after the
    displayed month. *)
Lemma onCalendarDay_east_of_utc (tz : Z) (t : Tx) (currentYear currentMonth day : Z) :
  0 <= tz < 1440 ->
  onCalendarDay tz t currentYear currentMonth day = true <->
  (dateDay t = day /\ dateMonth t = currentMonth /\ dateYear t = currentYear)
  \/ (isRecurring t = Some true
      /\ recurringDay t = Some day
      /\ (currentYear > dateYear t
          \/ (currentYear = dateYear t /\ currentMonth >= dateMonth t))).
Proof.
  intros Htz. unfold onCalendarDay, isMatch, isRecurringMatch.
  unfold getDate, getMonth, getFullYear.
  rewrite (Day_LocalTime_parse_east tz _ Htz).
  unfold dateDay, dateMonth, dateYear, truthy_bool, strict_eq_num.
  rewrite orb_true_iff, !andb_true_iff, orb_true_iff, andb_true_iff.
  rewrite !Z.eqb_eq, Z.gtb_gt, Z.geb_ge.
  destruct (isRecurring t) as [[|]|]; destruct (recurringDay t) as [d|];
    rewrite ?Z.eqb_eq; split; intros Hc;
    repeat match goal with
           | H : _ \/ _ |- _ => destruct H
           | H : _ /\ _ |- _ => destruct H
           end;
    try discriminate; try (left; repeat split; assumption || lia);
    try (right; repeat split; try reflexivity; try (f_equal; assumption);
         try match goal with H : Some _ = Some _ |- _ => injection H as -> end;
         try reflexivity; lia).
Qed.

End Calendar.

Lemma onCalendarDay_east_of_utc_witness :
  onCalendarDay 180 (recurringOn (iso_date 2025 6 15) 15) 2025 6 15 = true.
Proof.
  apply (onCalendarDay_east_of_utc 180); [lia|].
  right. vm_compute. repeat split; try reflexivity. right. split; congruence.
Defined.

(** C2: the code in a browser west of UTC (UTC-5).  A transaction dated
    2025-06-15 is not on the calendar on 15 June 2025; it is on 14 June. *)
Theorem onCalendarDay_west_of_utc :
  onCalendarDay (-300) (expenseOn (iso_date 2025 6 15)) 2025 5 15 = false
  /\ onCalendarDay (-300) (expenseOn (iso_date 2025 6 15)) 2025 5 14 = true
  /\ dateDay (expenseOn (iso_date 2025 6 15)) = 15
  /\ dateMonth (expenseOn (iso_date 2025 6 15)) = 5
  /\ dateYear (expenseOn (iso_date 2025 6 15)) = 2025.
Proof. vm_compute. repeat split; reflexivity. Qed.

(** The example of the specification holds in every time zone: a recurring
    transaction dated 2025-06-15 with [recurringDay] 15 is on day 15 of a
    displayed month exactly from June 2025 on. *)
Lemma recurring_projects_forward_only (tz currentYear currentMonth : Z) :
  -1440 <= tz < 1440 ->
  onCalendarDay tz (recurringOn (iso_date 2025 6 15) 15) currentYear currentMonth 15
  = true <->
  currentYear > 2025 \/ (currentYear = 2025 /\ currentMonth >= 5).
Proof.
  intros Htz. unfold onCalendarDay, isMatch, isRecurringMatch.
  unfold getDate, getMonth, getFullYear.
  destruct (Z_lt_le_dec tz 0) as [Hw|He].
  - rewrite (Day_LocalTime_parse_west tz) by lia.
    change (date (recurringOn (iso_date 2025 6 15) 15) - 1) with 20253.
    change (YearFromDay 20253) with 2025. change (MonthFromDay 20253) with 5.
    change (DateFromDay 20253) with 14. cbn [recurringOn isRecurring recurringDay
      truthy_bool strict_eq_num].
    rewrite orb_true_iff, !andb_true_iff, orb_true_iff, andb_true_iff.
    rewrite !Z.eqb_eq, Z.gtb_gt, Z.geb_ge. split; intros; intuition lia.
  - rewrite (Day_LocalTime_parse_east tz) by lia.
    change (date (recurringOn (iso_date 2025 6 15) 15)) with 20254.
    change (YearFromDay 20254) with 2025. change (MonthFromDay 20254) with 5.
    change (DateFromDay 20254) with 15. cbn [recurringOn isRecurring recurringDay
      truthy_bool strict_eq_num].
    rewrite orb_true_iff, !andb_true_iff, orb_true_iff, andb_true_iff.
    rewrite !Z.eqb_eq, Z.gtb_gt, Z.geb_ge. split; intros; intuition lia.
Qed.

(** ** Retention: what the monthly cleanup keeps *)

Section Retention.
Context {num : Type}.
#[local] Abbreviation Tx := (Transaction num).
#[local] Abbreviation St := (State num).

(** East of UTC the cleanup keeps exactly the recurring transactions and
    the transactions dated in the current month. *)
Lemma keptByCleanup_east_of_utc (tz now : Z) (t : Tx) :
  0 <= tz < 1440 ->
  keptByCleanup tz now t = true <->
  isRecurring t = Some true
  \/ (dateMonth t = getMonth tz now /\ dateYear t = getFullYear tz now).
Proof.
  intros Htz. unfold keptByCleanup, dateMonth, dateYear.
  unfold getMonth at 1, getFullYear at 1.
  rewrite (Day_LocalTime_parse_east tz _ Htz).
  destruct (isRecurring t) as [[|]|]; cbn [truthy_bool];
    rewrite ?andb_true_iff, ?Z.eqb_eq.
  - split; [now left|reflexivity].
  - split; [now right|]. intros [Hc|Hc]; [discriminate|exact Hc].
  - split; [now right|]. intros [Hc|Hc]; [discriminate|exact Hc].
Qed.

Lemma cleanup_east_of_utc (tz now : Z) (s : St) (t : Tx) :
  0 <= tz < 1440 ->
  In t (transactions (cleanupNonRecurringTransactions tz now s)) <->
  In t (transactions s)
  /\ (isRecurring t = Some true
      \/ (dateMonth t = getMonth tz now /\ dateYear t = getFullYear tz now)).
Proof.
  intros Htz. unfold cleanupNonRecurringTransactions; cbn [transactions].
  rewrite filter_In, (keptByCleanup_east_of_utc tz now t Htz). reflexivity.
Qed.

(** In every time zone all recurring transactions are kept. *)
Lemma cleanup_keeps_recurring (tz now : Z) (s : St) (t : Tx) :
  isRecurring t = Some true ->
  In t (transactions s) ->
  In t (transactions (cleanupNonRecurringTransactions tz now s)).
Proof.
  intros Hrec Hin. unfold cleanupNonRecurringTransactions; cbn [transactions].
  apply filter_In. split; [exact Hin|].
  unfold keptByCleanup. now rewrite Hrec.
Qed.

End Retention.

(** C3: the code in a browser west of UTC (UTC-5), on 15 June 2025 at noon.
    A transaction that is not recurring and is dated 2025-06-01, in the
    current month, is deleted, and one dated 2025-07-01, outside the current
    month, is retained. *)
Theorem cleanup_west_of_utc :
  let now := noon (-300) 2025 5 15 in
  let s := {| profiles := [];
              transactions := [expenseOn (iso_date 2025 6 1);
                               expenseOn (iso_date 2025 7 1)];
              activeProfileId := None; lastCleanupMonth := None |} in
  (getFullYear (-300) now, getMonth (-300) now) = (2025, 5)
  /\ (dateYear (expenseOn (iso_date 2025 6 1)),
      dateMonth (expenseOn (iso_date 2025 6 1))) = (2025, 5)
  /\ (dateYear (expenseOn (iso_date 2025 7 1)),
      dateMonth (expenseOn (iso_date 2025 7 1))) = (2025, 6)
  /\ transactions (cleanupNonRecurringTransactions (-300) now s)
     = [expenseOn (iso_date 2025 7 1)].
Proof. vm_compute. repeat split; reflexivity. Qed.

(** The example of the specification: of a recurring and a non-recurring transaction
    both dated five months before the cleanup, the recurring one stays and
    the other one goes (here in UTC+3 and in UTC-5). *)
Lemma cleanup_five_months_ago :
  (let now := noon 180 2025 5 15 in
   transactions
     (cleanupNonRecurringTransactions 180 now
        {| profiles := [];
           transactions := [recurringOn (iso_date 2025 1 15) 15;
                            expenseOn (iso_date 2025 1 15)];
           activeProfileId := None; lastCleanupMonth := None |})
   = [recurringOn (iso_date 2025 1 15) 15])
  /\ (let now := noon (-300) 2025 5 15 in
      transactions
        (cleanupNonRecurringTransactions (-300) now
           {| profiles := [];
              transactions := [recurringOn (iso_date 2025 1 15) 15;
                               expenseOn (iso_date 2025 1 15)];
              activeProfileId := None; lastCleanupMonth := None |})
      = [recurringOn (iso_date 2025 1 15) 15]).
Proof. vm_compute. split; reflexivity. Qed.

(** ** Period aggregation *)

Section Period.
Context {num : Type}.
#[local] Abbreviation Tx := (Transaction num).

(** The filter of a period that runs from local midnight of day [a] to local
    midnight of day [b], on dates that are midnight UTC: in UTC it keeps the
    days from [a] to [b]; east of UTC it loses day [b]; west of UTC it loses
    day [a]. *)
Lemma inPeriod_days (tz a b : Z) (t : Tx) :
  -1440 < tz < 1440 ->
  inPeriod (UTC tz (a * msPerDay)) (UTC tz (b * msPerDay)) t = true <->
  if tz =? 0 then a <= date t <= b
  else if 0 <? tz then a <= date t <= b - 1
  else a + 1 <= date t <= b.
Proof.
  intros Htz. unfold inPeriod, UTC, LocalTZA, Date_parse, msPerDay, msPerMinute.
  rewrite andb_true_iff, Z.geb_ge, Z.leb_le.
  destruct (Z.eqb_spec tz 0); [lia|].
  destruct (Z.ltb_spec 0 tz); lia.
Qed.

(** The period [month]: the transactions [calculatePeriodData] keeps for
    month [m] of year [yr].  In UTC they are those dated from the first to
    the last day of the month; east of UTC those of the last day are
    missing; west of UTC those of the first day are missing. *)
Lemma month_period_members `{JsNumber num} (tz now : Z) (txs : list Tx)
    (pname : string) (cur : Currency) (yr m : Z) (t : Tx) :
  -1440 < tz < 1440 -> 100 <= yr -> 0 <= m <= 11 ->
  let first := MakeDay yr m 1 in
  let last := MakeDay yr m (daysInMonthOf yr m) in
  In t (e_transactions
          (calculatePeriodData tz now txs pname cur month yr (Some m))) <->
  In t txs
  /\ (if tz =? 0 then first <= date t <= last
      else if 0 <? tz then first <= date t <= last - 1
      else first + 1 <= date t <= last).
Proof.
  intros Htz Hyr Hm first last.
  unfold calculatePeriodData, periodBounds; cbn [e_transactions].
  rewrite filter_In, !Date_ymd_year by exact Hyr.
  rewrite MakeDay_month_end by exact Hm.
  rewrite (inPeriod_days tz _ _ t Htz). reflexivity.
Qed.

End Period.

(** C5: the code in Istanbul (UTC+3).  For the period [month] of March
    2025 a transaction dated 2025-03-31, the last day of the month, is
    filtered out: the list is empty and the totals are 0. *)
Theorem calculatePeriodData_drops_last_day :
  let r := calculatePeriodData 180 (noon 180 2025 2 15)
             [expenseOn (iso_date 2025 3 31)] "Ali" TRY month 2025 (Some 2) in
  e_transactions r = []
  /\ totalExpense r = 0
  /\ periodLabel r = "Mart 2025"
  /\ (dateYear (expenseOn (iso_date 2025 3 31)),
      dateMonth (expenseOn (iso_date 2025 3 31)),
      dateDay (expenseOn (iso_date 2025 3 31))) = (2025, 2, 31).
Proof. vm_compute. repeat split; reflexivity. Qed.

(** The numbers of the example of the specification come out as stated (the dates of
    the example are in the middle of the month), in every time zone. *)
Lemma calculatePeriodData_example (tz now : Z) :
  -1440 < tz < 1440 ->
  let r := calculatePeriodData tz now
             [incomeOn (iso_date 2025 3 5); expenseOn (iso_date 2025 3 10)]
             "Ali" TRY month 2025 (Some 2) in
  totalIncome r = 1000 /\ totalExpense r = 400 /\ balance r = 600
  /\ List.length (e_transactions r) = 2%nat.
Proof.
  intros Htz r. subst r. unfold calculatePeriodData, periodBounds.
  change (Date_ymd tz 2025 2 1) with (UTC tz (20148 * msPerDay)).
  change (Date_ymd tz 2025 (2 + 1) 0) with (UTC tz (20178 * msPerDay)).
  cbn [List.filter].
  assert (H1 : inPeriod (UTC tz (20148 * msPerDay)) (UTC tz (20178 * msPerDay))
                 (incomeOn (iso_date 2025 3 5)) = true).
  { apply inPeriod_days; [exact Htz|].
    change (date (incomeOn (iso_date 2025 3 5))) with 20152.
    destruct (tz =? 0); [lia|]. destruct (0 <? tz); lia. }
  assert (H2 : inPeriod (UTC tz (20148 * msPerDay)) (UTC tz (20178 * msPerDay))
                 (expenseOn (iso_date 2025 3 10)) = true).
  { apply inPeriod_days; [exact Htz|].
    change (date (expenseOn (iso_date 2025 3 10))) with 20157.
    destruct (tz =? 0); [lia|]. destruct (0 <? tz); lia. }
  rewrite H1, H2. cbn. repeat split; reflexivity.
Qed.

Lemma calculatePeriodData_example_witness :
  let r := calculatePeriodData 180 0
             [incomeOn (iso_date 2025 3 5); expenseOn (iso_date 2025 3 10)]
             "Ali" TRY month 2025 (Some 2) in
  totalIncome r = 1000 /\ totalExpense r = 400 /\ balance r = 600
  /\ List.length (e_transactions r) = 2%nat.
Proof. apply (calculatePeriodData_example 180 0). lia. Defined.

(** ** Monthly cleanup: the key of the month and the second call *)

Lemma pretty_N_char_digit (d : N) :
  (d < 10)%N -> pretty_N_char d = digitChar (Z.of_N d).
Proof.
  intros Hd.
  assert (Hc : (d = 0 \/ d = 1 \/ d = 2 \/ d = 3 \/ d = 4 \/ d = 5 \/ d = 6
                \/ d = 7 \/ d = 8 \/ d = 9)%N) by lia.
  repeat (destruct Hc as [Hc|Hc]; [subst d; reflexivity|]). subst d. reflexivity.
Qed.

Lemma pretty_four_digits (y : Z) :
  1000 <= y <= 9999 ->
  pretty y = fourDigits y.
Proof.
  intros Hy. unfold fourDigits. destruct y as [|p|p]; try lia.
  change (pretty (Z.pos p)) with (pretty (N.pos p)).
  set (x := N.pos p). assert (Hx : Z.pos p = Z.of_N x) by reflexivity.
  rewrite Hx in *. clearbody x. clear p Hx.
  assert (Hn : (1000 <= x <= 9999)%N) by lia.
  unfold pretty, pretty_N. destruct (decide (x = 0%N)) as [E|_]; [lia|].
  set (x1 := N.div x 10). set (x2 := N.div x1 10). set (x3 := N.div x2 10).
  assert (E1 : x1 = N.div x 10) by reflexivity.
  assert (E2 : x2 = N.div x 100)
    by (subst x2 x1; rewrite N.Div0.div_div; reflexivity).
  assert (E3 : x3 = N.div x 1000)
    by (subst x3; rewrite E2, N.Div0.div_div; reflexivity).
  assert (H1 : (0 < x1)%N) by (rewrite E1; apply N.div_str_pos; lia).
  assert (H2 : (0 < x2)%N) by (rewrite E2; apply N.div_str_pos; lia).
  assert (H3 : (0 < x3)%N) by (rewrite E3; apply N.div_str_pos; lia).
  assert (H4 : N.div x3 10 = 0%N).
  { rewrite E3, N.Div0.div_div. apply N.div_small. lia. }
  rewrite (pretty_N_go_step x) by lia. fold x1.
  rewrite (pretty_N_go_step x1) by exact H1. fold x2.
  rewrite (pretty_N_go_step x2) by exact H2. fold x3.
  rewrite (pretty_N_go_step x3) by exact H3.
  rewrite H4, pretty_N_go_0.
  rewrite !pretty_N_char_digit by (apply N.mod_lt; lia).
  rewrite E1, E2, E3.
  rewrite !N2Z.inj_mod, !N2Z.inj_div.
  change (Z.of_N 10) with 10. change (Z.of_N 100) with 100.
  change (Z.of_N 1000) with 1000.
  repeat f_equal. div_lia.
Qed.

Lemma padStart2_month (m : Z) :
  1 <= m <= 12 ->
  padStart2 (pretty m) = twoDigits m.
Proof.
  intros Hm.
  assert (Hc : m = 1 \/ m = 2 \/ m = 3 \/ m = 4 \/ m = 5 \/ m = 6 \/ m = 7
               \/ m = 8 \/ m = 9 \/ m = 10 \/ m = 11 \/ m = 12) by lia.
  repeat (destruct Hc as [Hc|Hc]; [subst m; reflexivity|]). subst m. reflexivity.
Qed.

Lemma padStart2_month_inj (m m' : Z) :
  1 <= m <= 12 -> 1 <= m' <= 12 ->
  padStart2 (pretty m) = padStart2 (pretty m') -> m = m'.
Proof.
  intros Hm Hm'. rewrite !padStart2_month by assumption.
  unfold twoDigits. intros E. injection E as E1 E2.
  assert (Hd : forall a b, 0 <= a <= 9 -> 0 <= b <= 9 ->
                           digitChar a = digitChar b -> a = b).
  { intros a b Ha Hb Hab. unfold digitChar in Hab.
    apply (f_equal Ascii.nat_of_ascii) in Hab.
    rewrite !Ascii.nat_ascii_embedding in Hab by lia. lia. }
  apply Hd in E1; [|div_lia|div_lia]. apply Hd in E2; [|div_lia|div_lia].
  div_lia.
Qed.

Lemma length_string_app (a b : string) :
  String.length (a +:+ b) = (String.length a + String.length b)%nat.
Proof. induction a as [|c a IH]; [reflexivity|]. simpl. f_equal. exact IH. Qed.

Lemma string_app_inj_suffix (a b c d : string) :
  String.length c = String.length d -> a +:+ c = b +:+ d -> a = b /\ c = d.
Proof.
  intros Hlen. revert b. induction a as [|x a IH]; intros [|y b] E.
  - now split.
  - apply (f_equal String.length) in E.
    rewrite !length_string_app in E. cbn in E. lia.
  - apply (f_equal String.length) in E.
    rewrite !length_string_app in E. cbn in E. lia.
  - injection E as -> E. destruct (IH b E) as [-> ->]. now split.
Qed.

Lemma padStart2_month_length (m : Z) :
  1 <= m <= 12 -> String.length (padStart2 (pretty m)) = 2%nat.
Proof. intros Hm. now rewrite padStart2_month. Qed.

(** The key of the month is the text "YYYY-MM", and it tells the
    calendar months apart. *)

Section MonthKey.
Context {num : Type}.
#[local] Abbreviation Tx := (Transaction num).
#[local] Abbreviation St := (State num).
Variable tz : Z.

Lemma currentMonthKey_yearMonthText (now : Z) :
  1000 <= getFullYear tz now <= 9999 ->
  currentMonthKey tz now = yearMonthText (getFullYear tz now) (getMonth tz now + 1).
Proof.
  intros Hy. unfold currentMonthKey, yearMonthText.
  pose proof (MonthFromDay_range (Day (LocalTime tz now))) as Hm.
  fold (getMonth tz now) in Hm.
  rewrite pretty_four_digits by exact Hy.
  rewrite padStart2_month by lia. reflexivity.
Qed.

Lemma currentMonthKey_inj (now now' : Z) :
  currentMonthKey tz now' = currentMonthKey tz now ->
  getFullYear tz now' = getFullYear tz now /\ getMonth tz now' = getMonth tz now.
Proof.
  unfold currentMonthKey. intros E.
  pose proof (MonthFromDay_range (Day (LocalTime tz now))) as Hm.
  pose proof (MonthFromDay_range (Day (LocalTime tz now'))) as Hm'.
  fold (getMonth tz now) in Hm. fold (getMonth tz now') in Hm'.
  apply string_app_inj_suffix in E.
  - destruct E as [Ey Em]. split.
    + now apply (inj pretty).
    + injection Em as Em. apply padStart2_month_inj in Em; lia.
  - rewrite !length_string_app, !padStart2_month_length by lia. reflexivity.
Qed.

(** What the filter of the cleanup reads: a transaction is kept when it is
    recurring, or when the instant its date is parsed to has the local
    month and year of now. *)
Lemma keptByCleanup_iff (now : Z) (t : Tx) :
  keptByCleanup tz now t = true <->
  isRecurring t = Some true
  \/ (getMonth tz (Date_parse (date t)) = getMonth tz now
      /\ getFullYear tz (Date_parse (date t)) = getFullYear tz now).
Proof.
  unfold keptByCleanup.
  destruct (isRecurring t) as [[|]|]; cbn [truthy_bool];
    rewrite ?andb_true_iff, ?Z.eqb_eq.
  - split; [now left|reflexivity].
  - split; [now right|]. intros [Hc|Hc]; [discriminate|exact Hc].
  - split; [now right|]. intros [Hc|Hc]; [discriminate|exact Hc].
Qed.

(** C4.  [checkAndPerformMonthlyCleanup] computes the key of the current
    month, the text "YYYY-MM" for a year of four digits; the keys of two
    instants are equal exactly when the instants are in the same calendar
    month.  When the key differs from the stored marker the result is the
    pruned state with the marker set to the key (the recurring transactions
    and those the cleanup reads as of the current month stay, the others
    go); when they are equal the state is returned as it is.  So a second
    call at any instant of the same calendar month returns the state the
    first call produced, and a call in any other month prunes again and
    moves the marker. *)
Theorem checkAndPerformMonthlyCleanup_idempotent (now now' : Z) (s : St) :
  let key := currentMonthKey tz now in
  let s1 := checkAndPerformMonthlyCleanup tz now s in
  (1000 <= getFullYear tz now <= 9999 ->
     key = yearMonthText (getFullYear tz now) (getMonth tz now + 1))
  /\ (currentMonthKey tz now' = key <->
      getFullYear tz now' = getFullYear tz now
      /\ getMonth tz now' = getMonth tz now)
  /\ (lastCleanupMonth s <> Some key ->
     s1 = {| profiles := profiles s;
             transactions := List.filter (keptByCleanup tz now) (transactions s);
             activeProfileId := activeProfileId s;
             lastCleanupMonth := Some key |})
  /\ (lastCleanupMonth s <> Some key ->
      forall t, In t (transactions s1) <->
                In t (transactions s)
                /\ (isRecurring t = Some true
                    \/ (getMonth tz (Date_parse (date t)) = getMonth tz now
                        /\ getFullYear tz (Date_parse (date t))
                           = getFullYear tz now)))
  /\ (lastCleanupMonth s = Some key -> s1 = s)
  /\ (getFullYear tz now' = getFullYear tz now ->
      getMonth tz now' = getMonth tz now ->
      checkAndPerformMonthlyCleanup tz now' s1 = s1
      /\ transactions (checkAndPerformMonthlyCleanup tz now' s1)
         = transactions s1)
  /\ (~ (getFullYear tz now' = getFullYear tz now
         /\ getMonth tz now' = getMonth tz now) ->
      checkAndPerformMonthlyCleanup tz now' s1
      = {| profiles := profiles s1;
           transactions := List.filter (keptByCleanup tz now') (transactions s1);
           activeProfileId := activeProfileId s1;
           lastCleanupMonth := Some (currentMonthKey tz now') |}).
Proof.
  intros key s1.
  assert (Hmark : lastCleanupMonth s1 = Some key)
    by (subst s1; apply checkAndPerformMonthlyCleanup_marker).
  assert (Hprune : lastCleanupMonth s <> Some key ->
     s1 = {| profiles := profiles s;
             transactions := List.filter (keptByCleanup tz now) (transactions s);
             activeProfileId := activeProfileId s;
             lastCleanupMonth := Some key |}).
  { intros Hne. subst s1. unfold checkAndPerformMonthlyCleanup.
    fold key. rewrite bool_decide_eq_true_2 by assumption. reflexivity. }
  split; [|split; [|split; [|split; [|split; [|split]]]]].
  - apply currentMonthKey_yearMonthText.
  - split; [apply currentMonthKey_inj|].
    intros [Hy Hm]. now apply currentMonthKey_same_month.
  - exact Hprune.
  - intros Hne t. rewrite (Hprune Hne). cbn [transactions].
    rewrite filter_In, keptByCleanup_iff. reflexivity.
  - intros He. subst s1. unfold checkAndPerformMonthlyCleanup.
    fold key. rewrite bool_decide_eq_false_2; [reflexivity|]. now intros Hne.
  - intros Hy Hm.
    assert (Hfix : checkAndPerformMonthlyCleanup tz now' s1 = s1).
    { unfold checkAndPerformMonthlyCleanup at 1.
      rewrite bool_decide_eq_false_2; [reflexivity|].
      rewrite Hmark, (currentMonthKey_same_month tz now now') by assumption.
      now intros Hne. }
    split; [exact Hfix|now rewrite Hfix].
  - intros Hdiff. unfold checkAndPerformMonthlyCleanup at 1.
    rewrite bool_decide_eq_true_2; [reflexivity|].
    rewrite Hmark. intros E. injection E as E. apply Hdiff.
    apply currentMonthKey_inj. now symmetry.
Qed.

End MonthKey.


(** A March expense and an April expense; calls on 2 and 25 April and on
    1 May 2025 (UTC+3). *)
Example checkAndPerformMonthlyCleanup_example :
  let s := {| profiles := []; activeProfileId := None; lastCleanupMonth := None;
              transactions := [expenseOn (iso_date 2025 4 20);
                               expenseOn (iso_date 2025 3 10)] |} in
  let s1 := checkAndPerformMonthlyCleanup 180 (noon 180 2025 3 2) s in
  let s2 := checkAndPerformMonthlyCleanup 180 (noon 180 2025 3 25) s1 in
  let s3 := checkAndPerformMonthlyCleanup 180 (noon 180 2025 4 1) s2 in
  transactions s1 = [expenseOn (iso_date 2025 4 20)]
  /\ lastCleanupMonth s1 = Some "2025-04"
  /\ s2 = s1
  /\ transactions s3 = []
  /\ lastCleanupMonth s3 = Some "2025-05".
Proof. vm_compute. repeat split; reflexivity. Qed.

(** * More of the sources: properties *)

(** ** Ranges of integers *)

Lemma zrange_zrange_n (a b : Z) : zrange a b = zrange_n a (Z.to_nat (b - a + 1)).
Proof. reflexivity. Qed.

Lemma zrange_n_S (a : Z) (n : nat) : zrange_n a (S n) = a :: zrange_n (a + 1) n.
Proof.
  unfold zrange_n. cbn [seq List.map]. f_equal; [lia|].
  rewrite <- seq_shift, List.map_map. apply List.map_ext. intros k. lia.
Qed.

Lemma zrange_n_snoc (a : Z) (n : nat) :
  zrange_n a (S n) = zrange_n a n ++ [a + Z.of_nat n].
Proof. unfold zrange_n. rewrite seq_S, List.map_app. reflexivity. Qed.

Lemma zrange_n_app (a : Z) (n m : nat) :
  zrange_n a (n + m) = zrange_n a n ++ zrange_n (a + Z.of_nat n) m.
Proof.
  revert a. induction n as [|n IH]; intros a.
  - cbn [Nat.add]. unfold zrange_n at 2. cbn. f_equal. lia.
  - cbn [Nat.add]. rewrite !zrange_n_S, IH. cbn [app]. do 3 f_equal. lia.
Qed.

Lemma zrange_n_length (a : Z) (n : nat) : List.length (zrange_n a n) = n.
Proof. unfold zrange_n. now rewrite List.length_map, length_seq. Qed.

Lemma zrange_n_rev_down (c : Z) (n : nat) :
  List.map (fun i => c - i) (rev (zrange_n 0 n)) = zrange_n (c - Z.of_nat n + 1) n.
Proof.
  induction n as [|n IH]; [reflexivity|].
  rewrite zrange_n_snoc, rev_app_distr. cbn [rev app List.map].
  rewrite IH, zrange_n_S. f_equal; [lia|]. f_equal. lia.
Qed.

Lemma zrange_n_map_shift (c a : Z) (n : nat) :
  List.map (fun d => c + d) (zrange_n a n) = zrange_n (c + a) n.
Proof.
  unfold zrange_n. rewrite List.map_map. apply List.map_ext. intros k. lia.
Qed.

Lemma zrange_n_NoDup (a : Z) (n : nat) : List.NoDup (zrange_n a n).
Proof.
  revert a. induction n as [|n IH]; intros a; [constructor|].
  rewrite zrange_n_S. constructor; [|apply IH].
  unfold zrange_n. rewrite in_map_iff. intros [k [Hk _]]. lia.
Qed.

(** ** More calendar arithmetic *)

Lemma MakeDay_affine (y mo d : Z) : MakeDay y mo d = MakeDay y mo 0 + d.
Proof. rewrite !MakeDay_eq. lia. Qed.

Lemma MakeDay_normal (y mo d : Z) :
  MakeDay y mo d = MakeDay (y + mo / 12) (mo mod 12) d.
Proof.
  rewrite !MakeDay_eq. rewrite Z.mod_mod by lia.
  rewrite (Z.div_small (mo mod 12)) by (apply Z.mod_pos_bound; lia).
  now rewrite Z.add_0_r.
Qed.

Lemma MakeDay_month_end_any (y m : Z) :
  MakeDay y (m + 1) 0 = MakeDay y m (daysInMonthOf (y + m / 12) (m mod 12)).
Proof.
  rewrite !MakeDay_eq.
  pose proof (Z.mod_pos_bound m 12 ltac:(lia)) as Hmn.
  destruct (Z.eq_dec (m mod 12) 11) as [E|E].
  - assert (Hd : (m + 1) / 12 = m / 12 + 1) by div_lia.
    assert (Hr : (m + 1) mod 12 = 0) by div_lia.
    rewrite Hd, Hr, E, Z.add_assoc, DayFromYear_step, DaysInYear_leapDays.
    pose proof (leapDays_range (y + m / 12)).
    unfold daysInMonthOf, daysBeforeMonth. cbn [Z.eqb Pos.eqb orb]. lia.
  - assert (Hd : (m + 1) / 12 = m / 12) by div_lia.
    assert (Hr : (m + 1) mod 12 = m mod 12 + 1) by div_lia.
    rewrite Hd, Hr, daysBeforeMonth_succ by lia. lia.
Qed.

Lemma lastDay_of_month_any (y m : Z) :
  DateFromDay (MakeDay y (m + 1) 0) = daysInMonthOf (y + m / 12) (m mod 12).
Proof.
  rewrite MakeDay_month_end_any, MakeDay_normal.
  pose proof (daysInMonthOf_range (y + m / 12) (m mod 12)).
  pose proof (Z.mod_pos_bound m 12 ltac:(lia)).
  apply MakeDay_roundtrip; lia.
Qed.

Lemma Date_ymd_fullYear (tz y mo d : Z) :
  Date_ymd tz y mo d = UTC tz (MakeDay (fullYear y) mo d * msPerDay).
Proof. reflexivity. Qed.

Lemma MakeDay_first_fields (y mo : Z) :
  YearFromDay (MakeDay y mo 1) = y + mo / 12
  /\ MonthFromDay (MakeDay y mo 1) = mo mod 12.
Proof.
  rewrite MakeDay_normal.
  pose proof (Z.mod_pos_bound mo 12 ltac:(lia)).
  pose proof (daysInMonthOf_range (y + mo / 12) (mo mod 12)).
  destruct (MakeDay_roundtrip (y + mo / 12) (mo mod 12) 1) as [Hy [Hm _]];
    [lia|lia|]. split; assumption.
Qed.

Lemma MakeDay_next_month (y m : Z) :
  MakeDay y (m + 1) 1 = MakeDay y m 1 + daysInMonthOf (y + m / 12) (m mod 12).
Proof.
  rewrite (MakeDay_affine y (m + 1) 1), MakeDay_month_end_any.
  rewrite (MakeDay_affine y m 1), (MakeDay_affine y m (daysInMonthOf _ _)). lia.
Qed.

Lemma MakeDay_months_mono (y m : Z) (n : nat) :
  MakeDay y m 1 <= MakeDay y (m + Z.of_nat n) 1.
Proof.
  induction n as [|n IH]; [rewrite Z.add_0_r; lia|].
  replace (m + Z.of_nat (S n)) with (m + Z.of_nat n + 1) by lia.
  rewrite MakeDay_next_month.
  pose proof (daysInMonthOf_range (y + (m + Z.of_nat n) / 12) ((m + Z.of_nat n) mod 12)).
  lia.
Qed.

Lemma MakeDay_months_le (y m1 m2 : Z) :
  m1 <= m2 -> MakeDay y m1 1 <= MakeDay y m2 1.
Proof.
  intros Hle. replace m2 with (m1 + Z.of_nat (Z.to_nat (m2 - m1))) by lia.
  apply MakeDay_months_mono.
Qed.

Lemma MakeDay_next_month_in_year (y m : Z) :
  0 <= m <= 11 -> MakeDay y (m + 1) 1 = MakeDay y m 1 + daysInMonthOf y m.
Proof.
  intros Hm. rewrite MakeDay_next_month.
  rewrite (Z.div_small m 12), (Z.mod_small m 12) by lia.
  rewrite Z.add_0_r. reflexivity.
Qed.

Lemma MakeDay_december_carry (y d : Z) : MakeDay y 12 d = MakeDay (y + 1) 0 d.
Proof.
  rewrite !MakeDay_eq. change (12 / 12) with 1. change (12 mod 12) with 0.
  change (0 / 12) with 0. change (0 mod 12) with 0. rewrite !Z.add_0_r.
  reflexivity.
Qed.

Lemma DateFromDay_range (n : Z) : 1 <= DateFromDay n <= 31.
Proof.
  destruct (fields_valid n) as [Hv _].
  pose proof (daysInMonthOf_range (YearFromDay n) (MonthFromDay n)). lia.
Qed.

Lemma setDate_back (tz t i : Z) :
  setDate tz t (getDate tz t - i) = t - i * msPerDay.
Proof.
  unfold setDate, getDate. cbn zeta.
  destruct (fields_valid (Day (LocalTime tz t))) as [_ Hmk].
  rewrite MakeDay_affine.
  rewrite (MakeDay_affine _ _ (DateFromDay _)) in Hmk.
  set (n := Day (LocalTime tz t)) in *.
  replace (MakeDay (YearFromDay n) (MonthFromDay n) 0 + (DateFromDay n - i))
    with (n - i) by lia.
  subst n. unfold UTC, TimeWithinDay, Day, LocalTime, msPerDay.
  div_lia.
Qed.

(** ** The store: getters *)

Section GetterFacts.
Context {num : Type} `{JsNumber num}.
#[local] Abbreviation Tx := (Transaction num).
#[local] Abbreviation St := (State num).

Lemma insertByDateDesc_Permutation (x : Tx) (l : list Tx) :
  Permutation (insertByDateDesc x l) (x :: l).
Proof.
  induction l as [|y l IH]; cbn; [reflexivity|].
  destruct (_ >? 0); [|reflexivity].
  rewrite IH. apply perm_swap.
Qed.

Lemma sortByDateDesc_Permutation (l : list Tx) :
  Permutation (sortByDateDesc l) l.
Proof.
  induction l as [|x l IH]; cbn; [reflexivity|].
  rewrite insertByDateDesc_Permutation. now constructor.
Qed.

Lemma Date_parse_gtb (a b : Z) :
  (Date_parse a - Date_parse b >? 0) = (a >? b).
Proof.
  unfold Date_parse, msPerDay.
  destruct (Z.gtb_spec (a * 86400000 - b * 86400000) 0);
    destruct (Z.gtb_spec a b); (reflexivity || lia).
Qed.

Lemma insertByDateDesc_Sorted (x : Tx) (l : list Tx) :
  Sorted newestFirst l -> Sorted newestFirst (insertByDateDesc x l).
Proof.
  induction 1 as [|y l Hl IH Hy]; cbn; [repeat constructor|].
  rewrite Date_parse_gtb.
  destruct (Z.gtb_spec (date y) (date x)) as [Hgt|Hle].
  - constructor; [exact IH|].
    destruct l as [|z l]; cbn.
    + constructor. unfold newestFirst. lia.
    + rewrite Date_parse_gtb. destruct (date z >? date x).
      * constructor. now inversion Hy.
      * constructor. unfold newestFirst. lia.
  - constructor; [now constructor|]. constructor. exact Hle.
Qed.

Lemma sortByDateDesc_Sorted (l : list Tx) : Sorted newestFirst (sortByDateDesc l).
Proof.
  induction l as [|x l IH]; cbn; [constructor|].
  now apply insertByDateDesc_Sorted.
Qed.

Lemma insertByDateDesc_same_date (d : Z) (x : Tx) (l : list Tx) :
  List.filter (fun t => date t =? d) (insertByDateDesc x l)
  = List.filter (fun t => date t =? d) (x :: l).
Proof.
  induction l as [|y l IH]; [reflexivity|].
  cbn [insertByDateDesc]. rewrite Date_parse_gtb.
  destruct (Z.gtb_spec (date y) (date x)) as [Hgt|Hle]; [|reflexivity].
  cbn [List.filter] in *. rewrite IH.
  destruct (Z.eqb_spec (date x) d); destruct (Z.eqb_spec (date y) d);
    (reflexivity || lia).
Qed.

Lemma sortByDateDesc_stable (d : Z) (l : list Tx) :
  List.filter (fun t => date t =? d) (sortByDateDesc l)
  = List.filter (fun t => date t =? d) l.
Proof.
  induction l as [|x l IH]; [reflexivity|].
  cbn [sortByDateDesc fold_right]. rewrite insertByDateDesc_same_date.
  cbn [List.filter]. fold (sortByDateDesc l). now rewrite IH.
Qed.

(** X1: [getProfileTransactions] returns exactly the transactions of the
    profile (a permutation of them), none before one of a later date, and
    transactions of the same date keep the order they have in the store. *)
Theorem getProfileTransactions_newest_first (profId : string) (s : St) :
  let own := List.filter (fun t => String.eqb (profileId t) profId) (transactions s) in
  let result := getProfileTransactions profId s in
  Permutation result own
  /\ (forall t, In t result <-> In t (transactions s) /\ profileId t = profId)
  /\ StronglySorted newestFirst result
  /\ (forall d, List.filter (fun t => date t =? d) result
                = List.filter (fun t => date t =? d) own).
Proof.
  intros own result. repeat apply conj.
  - apply sortByDateDesc_Permutation.
  - intros t. unfold result, getProfileTransactions. split.
    + intros Hin. apply (Permutation_in _ (sortByDateDesc_Permutation _)) in Hin.
      apply filter_In in Hin. now rewrite String.eqb_eq in Hin.
    + intros [Hin Hp].
      apply (Permutation_in _ (Permutation_sym (sortByDateDesc_Permutation _))).
      apply filter_In. now rewrite String.eqb_eq.
  - apply Sorted_StronglySorted; [|apply sortByDateDesc_Sorted].
    intros a b c. unfold newestFirst. lia.
  - intros d. apply sortByDateDesc_stable.
Qed.

(** X2: [getSummary] counts the transactions of the profile, every one of
    them as either an income or an expense; for a profile without
    transactions all figures are zero. *)
Theorem getSummary_counts (profId : string) (s : St) :
  let own := List.filter (fun t => String.eqb (profileId t) profId) (transactions s) in
  transactionCount (getSummary profId s) = List.length own
  /\ transactionCount (getSummary profId s)
     = (List.length (List.filter isIncome own)
        + List.length (List.filter isExpense own))%nat
  /\ (own = [] ->
      getSummary profId s
      = {| totalBalance := nsub nzero nzero; s_totalIncome := nzero;
           s_totalExpense := nzero; transactionCount := 0 |}).
Proof.
  intros own. unfold getSummary; cbn [transactionCount].
  unfold getProfileTransactions. fold own.
  rewrite (Permutation_length (sortByDateDesc_Permutation own)).
  repeat apply conj.
  - reflexivity.
  - clear. induction own as [|t l IH]; [reflexivity|].
    cbn [List.filter List.length]. unfold isIncome, isExpense in *.
    destruct (type t); cbn [List.length]; lia.
  - intros ->. reflexivity.
Qed.

End GetterFacts.

(** ** The store: actions followed by getters *)

Section StoreComposition.
Context {num : Type} `{JsNumber num}.
#[local] Abbreviation Tx := (Transaction num).
#[local] Abbreviation St := (State num).

Lemma filter_filter_none {A} (f g : A -> bool) (l : list A) :
  (forall x, g x = true -> f x = false) ->
  List.filter f (List.filter (fun x => negb (g x)) l) = List.filter f l.
Proof.
  intros Hfg. induction l as [|x l IH]; [reflexivity|]. cbn.
  destruct (g x) eqn:Hg; cbn.
  - rewrite (Hfg x Hg). exact IH.
  - destruct (f x); now rewrite IH.
Qed.

Lemma filter_negb_same_nil {A} (g : A -> bool) (l : list A) :
  List.filter g (List.filter (fun x => negb (g x)) l) = [].
Proof.
  induction l as [|x l IH]; [reflexivity|]. cbn.
  destruct (g x) eqn:Hg; cbn; [exact IH|]. now rewrite Hg.
Qed.

(** X3: after [deleteProfile id] the getters find nothing for [id] (no
    transaction, a zero summary) and answer for every other profile as
    before. *)
Theorem deleteProfile_then_getters (id : string) (s : St) :
  getProfileTransactions id (deleteProfile id s) = []
  /\ getSummary id (deleteProfile id s)
     = {| totalBalance := nsub nzero nzero; s_totalIncome := nzero;
          s_totalExpense := nzero; transactionCount := 0 |}
  /\ (forall other, other <> id ->
        getProfileTransactions other (deleteProfile id s)
        = getProfileTransactions other s
        /\ getSummary other (deleteProfile id s) = getSummary other s).
Proof.
  assert (E : getProfileTransactions id (deleteProfile id s) = []).
  { unfold getProfileTransactions, deleteProfile; cbn [transactions].
    now rewrite (filter_negb_same_nil (fun t => String.eqb (profileId t) id)). }
  repeat apply conj.
  - exact E.
  - unfold getSummary. rewrite E. reflexivity.
  - intros other Hne.
    assert (E' : getProfileTransactions other (deleteProfile id s)
                 = getProfileTransactions other s).
    { unfold getProfileTransactions, deleteProfile; cbn [transactions].
      rewrite (filter_filter_none _ (fun t => String.eqb (profileId t) id));
        [reflexivity|].
      intros t Ht. apply String.eqb_eq in Ht. apply String.eqb_neq. congruence. }
    split; [exact E'|]. unfold getSummary. now rewrite E'.
Qed.

Lemma find_filter_other (a id : string) (l : list Profile) :
  a <> id ->
  List.find (fun p => String.eqb (pid p) a)
            (List.filter (fun p => negb (String.eqb (pid p) id)) l)
  = List.find (fun p => String.eqb (pid p) a) l.
Proof.
  intros Hne. induction l as [|p l IH]; [reflexivity|]. cbn.
  destruct (String.eqb_spec (pid p) id) as [E|E]; cbn.
  - rewrite IH. destruct (String.eqb_spec (pid p) a); [congruence|reflexivity].
  - destruct (String.eqb (pid p) a); [reflexivity|exact IH].
Qed.

(** X4: deleting the active profile leaves no active profile; deleting
    another one does not change what [getActiveProfile] returns; the
    deleted profile is never returned. *)
Theorem getActiveProfile_after_deleteProfile (id : string) (s : St) :
  (activeProfileId s = Some id -> getActiveProfile (deleteProfile id s) = None)
  /\ (activeProfileId s <> Some id ->
      getActiveProfile (deleteProfile id s) = getActiveProfile s)
  /\ (forall p, getActiveProfile (deleteProfile id s) = Some p -> pid p <> id).
Proof.
  assert (Hother : activeProfileId s <> Some id ->
                   getActiveProfile (deleteProfile id s) = getActiveProfile s).
  { intros Hne. unfold getActiveProfile, deleteProfile;
      cbn [activeProfileId profiles].
    destruct (activeProfileId s) as [a|]; [|reflexivity].
    destruct (String.eqb_spec a id) as [->|E]; [congruence|].
    now apply find_filter_other. }
  assert (Hsame : activeProfileId s = Some id ->
                  getActiveProfile (deleteProfile id s) = None).
  { intros Ha. unfold getActiveProfile, deleteProfile;
      cbn [activeProfileId profiles]. rewrite Ha. now rewrite String.eqb_refl. }
  repeat apply conj; [exact Hsame|exact Hother|].
  intros p Hp. destruct (decide (activeProfileId s = Some id)) as [Ha|Ha].
  - rewrite (Hsame Ha) in Hp. discriminate.
  - unfold getActiveProfile, deleteProfile in Hp; cbn [activeProfileId profiles] in Hp.
    destruct (activeProfileId s) as [a|]; [|discriminate].
    destruct (String.eqb_spec a id) as [->|E]; [congruence|].
    apply find_some in Hp. destruct Hp as [_ Hp].
    apply String.eqb_eq in Hp. congruence.
Qed.

(** X5: a profile added under a fresh identifier and then selected is
    what [getActiveProfile] returns, with the fields given to
    [addProfile]. *)
Theorem addProfile_then_select (newId : string) (now : Z) (nm color : string)
    (cur : Currency) (s : St) :
  (forall p, In p (profiles s) -> pid p <> newId) ->
  getActiveProfile
    (selectProfile (Some newId) (addProfile newId now nm color cur s))
  = Some {| pid := newId; name := nm; avatarColor := color; currency := cur;
            pcreatedAt := now |}.
Proof.
  intros Hfresh. unfold getActiveProfile, selectProfile, addProfile;
    cbn [activeProfileId profiles].
  induction (profiles s) as [|p l IH]; cbn.
  - now rewrite String.eqb_refl.
  - destruct (String.eqb_spec (pid p) newId) as [E|E].
    + exfalso. apply (Hfresh p); [now left|exact E].
    + apply IH. intros q Hq. apply Hfresh. now right.
Qed.

(** X6: deleting a transaction that was just added under a fresh
    identifier gives back the state before the addition. *)
Theorem addTransaction_then_delete (newId : string) (now : Z) (profId : string)
    (ty : TransactionType) (amt : num) (cat : TransactionCategory)
    (ttl : string) (descr : option string) (dateArg : option Z)
    (isRec : option bool) (recDay : option Z) (s : St) :
  (forall t, In t (transactions s) -> tid t <> newId) ->
  deleteTransaction newId
    (addTransaction newId now profId ty amt cat ttl descr dateArg isRec recDay s)
  = s.
Proof.
  intros Hfresh. unfold deleteTransaction, addTransaction;
    cbn [transactions profiles activeProfileId lastCleanupMonth List.filter tid].
  rewrite String.eqb_refl. cbn [negb].
  assert (E : List.filter (fun t : Tx => negb (String.eqb (tid t) newId))
                (transactions s) = transactions s).
  { induction (transactions s) as [|t l IH]; [reflexivity|]. cbn.
    destruct (String.eqb_spec (tid t) newId) as [E|E]; cbn.
    - exfalso. apply (Hfresh t); [now left|exact E].
    - f_equal. apply IH. intros q Hq. apply Hfresh. now right. }
  rewrite E. now destruct s.
Qed.

(** X7: [updateTransaction] keeps the identifier, the profile and the
    creation time of every transaction, changes no transaction with
    another identifier, touches nothing else in the state, and is the
    identity when no transaction has the identifier. *)
Theorem updateTransaction_frame (id : string)
    (data : TransactionPatch (num := num)) (s : St) :
  let s' := updateTransaction id data s in
  List.map tid (transactions s') = List.map tid (transactions s)
  /\ List.map profileId (transactions s') = List.map profileId (transactions s)
  /\ List.map createdAt (transactions s') = List.map createdAt (transactions s)
  /\ List.filter (fun t => negb (String.eqb (tid t) id)) (transactions s')
     = List.filter (fun t => negb (String.eqb (tid t) id)) (transactions s)
  /\ profiles s' = profiles s
  /\ activeProfileId s' = activeProfileId s
  /\ lastCleanupMonth s' = lastCleanupMonth s
  /\ ((forall t, In t (transactions s) -> tid t <> id) -> s' = s).
Proof.
  cbn zeta. unfold updateTransaction;
    cbn [transactions profiles activeProfileId lastCleanupMonth].
  repeat apply conj; try reflexivity.
  - rewrite List.map_map. apply List.map_ext. intros t.
    now destruct (String.eqb (tid t) id).
  - rewrite List.map_map. apply List.map_ext. intros t.
    now destruct (String.eqb (tid t) id).
  - rewrite List.map_map. apply List.map_ext. intros t.
    now destruct (String.eqb (tid t) id).
  - induction (transactions s) as [|t l IH]; [reflexivity|]. cbn.
    destruct (String.eqb (tid t) id) eqn:E; cbn; rewrite E; cbn; now rewrite IH.
  - intros Hfresh.
    assert (E : List.map (fun t : Tx => if String.eqb (tid t) id
                                        then applyPatch t data else t)
                  (transactions s) = transactions s).
    { induction (transactions s) as [|t l IH]; [reflexivity|]. cbn.
      destruct (String.eqb_spec (tid t) id) as [E|E].
      - exfalso. apply (Hfresh t); [now left|exact E].
      - f_equal. apply IH. intros q Hq. apply Hfresh. now right. }
    rewrite E. now destruct s.
Qed.

(** X8: a second [cleanupNonRecurringTransactions] in the same calendar
    month removes nothing more. *)
Theorem cleanup_idempotent_within_month (tz now now' : Z) (s : St) :
  getFullYear tz now' = getFullYear tz now ->
  getMonth tz now' = getMonth tz now ->
  cleanupNonRecurringTransactions tz now'
    (cleanupNonRecurringTransactions tz now s)
  = cleanupNonRecurringTransactions tz now s.
Proof.
  intros Hy Hm. unfold cleanupNonRecurringTransactions;
    cbn [transactions profiles activeProfileId lastCleanupMonth].
  f_equal.
  assert (Hk : forall t : Tx, keptByCleanup tz now' t = keptByCleanup tz now t).
  { intros t. unfold keptByCleanup. now rewrite Hy, Hm. }
  induction (transactions s) as [|t l IH]; [reflexivity|]. cbn [List.filter].
  destruct (keptByCleanup tz now t) eqn:E; [|exact IH].
  cbn [List.filter]. rewrite Hk, E. now f_equal.
Qed.

End StoreComposition.

Lemma addProfile_then_select_witness :
  getActiveProfile
    (selectProfile (Some "p1")
       (addProfile "p1" 0 "Ev" "#06b6d4" TRY (initialState (num := Z))))
  = Some {| pid := "p1"; name := "Ev"; avatarColor := "#06b6d4";
            currency := TRY; pcreatedAt := 0 |}.
Proof.
  apply (addProfile_then_select "p1" 0 "Ev" "#06b6d4" TRY initialState).
  intros p Hp. destruct Hp.
Defined.

Lemma addTransaction_then_delete_witness :
  deleteTransaction "t9"
    (addTransaction "t9" 0 "p1" expense 250 food "Market" None
                    (Some (iso_date 2025 3 12)) (Some false) None sampleState)
  = sampleState.
Proof.
  apply (addTransaction_then_delete "t9" 0 "p1" expense 250 food "Market" None
           (Some (iso_date 2025 3 12)) (Some false) None sampleState).
  intros t [<-|[<-|[]]]; discriminate.
Defined.

Lemma cleanup_idempotent_within_month_witness :
  cleanupNonRecurringTransactions 180 (noon 180 2025 3 25)
    (cleanupNonRecurringTransactions 180 (noon 180 2025 3 2) sampleState)
  = cleanupNonRecurringTransactions 180 (noon 180 2025 3 2) sampleState.
Proof.
  apply (cleanup_idempotent_within_month 180 (noon 180 2025 3 2)
           (noon 180 2025 3 25) sampleState); vm_compute; reflexivity.
Defined.
(** ** Local time in a zone whose offset changes *)

(** In a zone without clock changes the local time is the one of the fixed
    offset. *)

Section FixedZone.
Variable z : Zone.
Variable tz : Z.
Hypothesis Hz : hasFixedOffset z tz.

Lemma LocalTimeIn_fixed (t : Z) : LocalTimeIn z t = LocalTime tz t.
Proof. unfold LocalTimeIn, LocalTime, LocalTZA. now rewrite (proj1 Hz). Qed.

Lemma UTCIn_fixed (t : Z) : UTCIn z t = UTC tz t.
Proof. unfold UTCIn, UTC, LocalTZA. now rewrite (proj2 Hz). Qed.

Lemma getDateIn_fixed (t : Z) : getDateIn z t = getDate tz t.
Proof. unfold getDateIn, getDate. now rewrite LocalTimeIn_fixed. Qed.

Lemma getMonthIn_fixed (t : Z) : getMonthIn z t = getMonth tz t.
Proof. unfold getMonthIn, getMonth. now rewrite LocalTimeIn_fixed. Qed.

Lemma setDateIn_fixed (t date : Z) : setDateIn z t date = setDate tz t date.
Proof. unfold setDateIn, setDate. now rewrite LocalTimeIn_fixed, UTCIn_fixed. Qed.

End FixedZone.

Lemma setHours0In_fixed (z : Zone) (tz t : Z) :
  hasFixedOffset z tz -> setHours0In z t = setHours0 tz t.
Proof.
  intros Hz. unfold setHours0In, setHours0.
  now rewrite (LocalTimeIn_fixed z tz Hz), (UTCIn_fixed z tz Hz).
Qed.

Lemma Date_ymdIn_fixed (z : Zone) (tz y m d : Z) :
  hasFixedOffset z tz -> Date_ymdIn z y m d = Date_ymd tz y m d.
Proof. intros Hz. unfold Date_ymdIn, Date_ymd. now rewrite (UTCIn_fixed z tz Hz). Qed.

(** ** Upcoming payments: the day count across a clock change *)

(** X9: the day count from today's local midnight to the local midnight of
    a due date ([new Date(year, month, date)]) is the number of calendar
    days between them when both midnights have the same offset from UTC,
    and also when the offset at the due date is larger; it is one more when
    the offset at the due date is smaller (the clocks went back in
    between). *)
Theorem daysLeft_across_clock_change (z : Zone) (now year month date : Z) :
  let today := setHours0In z now in
  let dueDate := Date_ymdIn z year month date in
  let todayDay := Day (LocalTimeIn z now) in
  let dueDay := MakeDay (fullYear year) month date in
  let offToday := offsetOfLocal z (todayDay * msPerDay) in
  let offDue := offsetOfLocal z (dueDay * msPerDay) in
  -1440 < offToday - offDue < 1440 ->
  daysUntil today dueDate
  = dueDay - todayDay + (if offDue <? offToday then 1 else 0).
Proof.
  intros today dueDate todayDay dueDay offToday offDue Hoff.
  subst today dueDate. unfold setHours0In, Date_ymdIn, daysUntil, UTCIn.
  fold (fullYear year). fold todayDay dueDay. fold offToday offDue.
  unfold ceil_div, msPerDay, msPerMinute.
  destruct (Z.ltb_spec offDue offToday); div_lia.
Qed.

Lemma daysLeft_across_clock_change_witness :
  daysUntil (setHours0In centralEurope2025 ((iso_date 2025 10 2) * msPerDay))
            (Date_ymdIn centralEurope2025 2025 10 1)
  = 31.
Proof.
  rewrite (daysLeft_across_clock_change centralEurope2025
             ((iso_date 2025 10 2) * msPerDay) 2025 10 1).
  - reflexivity.
  - vm_compute. split; reflexivity.
Defined.

(** The upcoming list, computed with the fixed offset of the zone, agrees
    with this: in a zone without clock changes the day count is the number
    of calendar days. *)
Lemma daysUntil_days (tz a b : Z) :
  daysUntil (UTC tz (a * msPerDay)) (UTC tz (b * msPerDay)) = b - a.
Proof.
  unfold daysUntil, UTC.
  replace (b * msPerDay - LocalTZA tz - (a * msPerDay - LocalTZA tz))
    with ((b - a) * msPerDay) by lia.
  apply ceil_div_days.
Qed.

Section UpcomingOrder.
Context {num : Type}.
#[local] Abbreviation Item := (UpcomingItem num).

Lemma insertByDaysLeft_same_key (k : Z) (x : Item) (l : list Item) :
  List.filter (fun it => daysLeft it =? k) (insertByDaysLeft x l)
  = List.filter (fun it => daysLeft it =? k) (x :: l).
Proof.
  induction l as [|y l IH]; [reflexivity|].
  cbn [insertByDaysLeft].
  destruct (Z.ltb_spec (daysLeft y) (daysLeft x)) as [Hlt|Hge]; [|reflexivity].
  cbn [List.filter] in *. rewrite IH.
  destruct (Z.eqb_spec (daysLeft x) k); destruct (Z.eqb_spec (daysLeft y) k);
    (reflexivity || lia).
Qed.

Lemma sortByDaysLeft_stable (k : Z) (l : list Item) :
  List.filter (fun it => daysLeft it =? k) (sortByDaysLeft l)
  = List.filter (fun it => daysLeft it =? k) l.
Proof.
  induction l as [|x l IH]; [reflexivity|].
  cbn [sortByDaysLeft fold_right]. rewrite insertByDaysLeft_same_key.
  cbn [List.filter]. fold (sortByDaysLeft l). now rewrite IH.
Qed.

(** X11: [upcomingItems] is sorted stably: among the items of one day
    count, the recurring ones come first, then the others, each group in
    the order of the transactions. *)
Theorem upcomingItems_ties_keep_order (tz now k : Z) (txs : list (Transaction num)) :
  let today := setHours0 tz now in
  List.filter (fun it => daysLeft it =? k) (upcomingItems tz now txs)
  = List.filter (fun it => daysLeft it =? k)
      (flat_map (recurringItem tz today)
         (List.filter (fun t => truthy_bool (isRecurring t)
                                && truthy_num (recurringDay t)) txs))
    ++ List.filter (fun it => daysLeft it =? k)
         (List.map (futureItem tz today) (List.filter (isFuture tz today) txs)).
Proof.
  intros today. unfold upcomingItems. fold today.
  rewrite sortByDaysLeft_stable. apply List.filter_app.
Qed.

End UpcomingOrder.

(** ** The transaction form *)

Section Form.
Context {num : Type}.
#[local] Abbreviation Tx := (Transaction num).
#[local] Abbreviation St := (State num).

(** X12: a transaction submitted through the form satisfies the
    invariant of the data model: it is recurring exactly when it has a day
    of month, and that day is from 1 to 31. *)
Theorem submitTransaction_keeps_invariant (tz : Z) (newId : string) (now : Z)
    (activeProfile : string) (ty : TransactionType) (amt : num)
    (cat : TransactionCategory) (ttl : string) (descr : option string)
    (dateStr : Z) (isRec : bool) (s : St) :
  Forall recurrenceInvariant (transactions s) ->
  Forall recurrenceInvariant
    (transactions (submitTransaction tz newId now activeProfile ty amt cat ttl
                     descr dateStr isRec s)).
Proof.
  intros Hs. unfold submitTransaction, addTransaction; cbn [transactions].
  constructor; [|exact Hs].
  unfold recurrenceInvariant; cbn [isRecurring recurringDay truthy_bool].
  destruct isRec; cbn.
  - split; [|reflexivity]. intros _. eexists. split; [reflexivity|].
    apply DateFromDay_range.
  - split; [discriminate|]. intros [d [Hd _]]. discriminate.
Qed.

(** X13: a recurring transaction submitted through the form is on the
    calendar exactly on the day of month the form read from the chosen
    date, in the month of that date and every later month. *)
Theorem submitted_recurring_on_calendar (tz : Z) (newId : string) (now : Z)
    (activeProfile : string) (ty : TransactionType) (amt : num)
    (cat : TransactionCategory) (ttl : string) (descr : option string)
    (dateStr : Z) (s : St) (t : Tx) (currentYear currentMonth day : Z) :
  List.hd_error
    (transactions (submitTransaction tz newId now activeProfile ty amt cat ttl
                     descr dateStr true s)) = Some t ->
  let picked := Date_parse dateStr in
  onCalendarDay tz t currentYear currentMonth day = true <->
  day = getDate tz picked
  /\ (currentYear > getFullYear tz picked
      \/ (currentYear = getFullYear tz picked
          /\ currentMonth >= getMonth tz picked)).
Proof.
  unfold submitTransaction, addTransaction; cbn [transactions List.hd_error].
  intros Ht. injection Ht as <-.
  unfold onCalendarDay, isMatch, isRecurringMatch;
    cbn [date isRecurring recurringDay truthy_bool strict_eq_num].
  rewrite orb_true_iff, !andb_true_iff, orb_true_iff, andb_true_iff.
  rewrite !Z.eqb_eq, Z.gtb_gt, Z.geb_ge. intuition lia.
Qed.

(** The call the form makes is one of the calls [respectsRecurrence]
    allows. *)
Lemma submitTransaction_respectsRecurrence (tz : Z) (newId : string) (now : Z)
    (activeProfile : string) (ty : TransactionType) (amt : num)
    (cat : TransactionCategory) (ttl : string) (descr : option string)
    (dateStr : Z) (isRec : bool) (s : St) :
  let call :=
    AddTransaction newId now activeProfile ty amt cat ttl descr (Some dateStr)
                   (Some isRec)
                   (if isRec then Some (getDate tz (Date_parse dateStr)) else None) in
  respectsRecurrence call
  /\ step tz call s
     = submitTransaction tz newId now activeProfile ty amt cat ttl descr
                         dateStr isRec s.
Proof.
  cbn zeta. split; [|reflexivity].
  cbn [respectsRecurrence truthy_bool].
  destruct isRec; [intros _|discriminate].
  eexists. split; [reflexivity|]. apply DateFromDay_range.
Qed.

End Form.

Lemma submitTransaction_keeps_invariant_witness :
  Forall recurrenceInvariant
    (transactions (submitTransaction 180 "t9" 0 "p1" expense 400 utilities
                     "Kira" None (iso_date 2025 1 28) true sampleState)).
Proof.
  apply (submitTransaction_keeps_invariant 180 "t9" 0 "p1" expense 400
           utilities "Kira" None (iso_date 2025 1 28) true sampleState).
  unfold sampleState; cbn [transactions].
  repeat (apply List.Forall_cons;
          [split; [discriminate|intros [d [Hd _]]; discriminate Hd]|]).
  apply List.Forall_nil.
Defined.

Lemma submitted_recurring_on_calendar_witness :
  onCalendarDay 180 (recurringOn (iso_date 2025 1 28) 28) 2025 2 28 = true <->
  28 = getDate 180 (Date_parse (iso_date 2025 1 28))
  /\ (2025 > getFullYear 180 (Date_parse (iso_date 2025 1 28))
      \/ (2025 = getFullYear 180 (Date_parse (iso_date 2025 1 28))
          /\ 2 >= getMonth 180 (Date_parse (iso_date 2025 1 28)))).
Proof.
  apply (submitted_recurring_on_calendar 180 "t3" 0 "p1" expense 400 utilities
           "Kira" None (iso_date 2025 1 28) initialState).
  vm_compute. reflexivity.
Defined.
(** ** CalendarView: the grid *)

Section Grid.
Context {num : Type} `{JsNumber num}.
#[local] Abbreviation Tx := (Transaction num).
Variable tz : Z.

Lemma fold_addToDay (cy cm day : Z) (l acc : list Tx) (i e : num) :
  fold_left (addToDay tz cy cm day) l (acc, i, e)
  = (acc ++ dayTransactions tz l cy cm day,
     fold_left (fun sum t => nadd sum (amount t))
               (List.filter isIncome (dayTransactions tz l cy cm day)) i,
     fold_left (fun sum t => nadd sum (amount t))
               (List.filter isExpense (dayTransactions tz l cy cm day)) e).
Proof.
  revert acc i e. unfold dayTransactions.
  induction l as [|t l IH]; intros acc i e; cbn [fold_left List.filter].
  - now rewrite app_nil_r.
  - unfold addToDay at 2.
    destruct (onCalendarDay tz t cy cm day); [|apply IH].
    cbn [List.filter]. unfold isIncome, isExpense.
    destruct (type t); rewrite IH; cbn [fold_left]; now rewrite <- app_assoc.
Qed.

(** X14: a day of the displayed month lists exactly the transactions that
    are on that calendar day, in the order of the input, and its income and
    expense are the sums over the incomes and the expenses of that list. *)
Theorem monthDay_contents (today : Z) (txs : list Tx) (cy cm day : Z) :
  let cell := monthDay tz today txs cy cm day in
  d_transactions cell = dayTransactions tz txs cy cm day
  /\ d_income cell = sumAmounts (List.filter isIncome (d_transactions cell))
  /\ d_expense cell = sumAmounts (List.filter isExpense (d_transactions cell))
  /\ (forall t, In t (d_transactions cell) <->
                In t txs /\ onCalendarDay tz t cy cm day = true)
  /\ sublist (d_transactions cell) txs.
Proof.
  cbn zeta. unfold monthDay. rewrite fold_addToDay. cbn [app d_transactions d_income d_expense].
  repeat apply conj; try reflexivity.
  - intros t. unfold dayTransactions. apply filter_In.
  - unfold dayTransactions. induction txs as [|t l IH]; cbn; [constructor|].
    destruct (onCalendarDay tz t cy cm day); now constructor.
Qed.

End Grid.

Section GridLayout.
Context {num : Type} `{JsNumber num}.
#[local] Abbreviation Tx := (Transaction num).
Variable tz : Z.

Lemma getDate_UTC (x : Z) : getDate tz (UTC tz (x * msPerDay)) = DateFromDay x.
Proof. unfold getDate. now rewrite Day_LocalTime_UTC. Qed.

Lemma getDay_UTC (x : Z) : getDay tz (UTC tz (x * msPerDay)) = (x + 4) mod 7.
Proof. unfold getDay. now rewrite Day_LocalTime_UTC. Qed.

Lemma cellDay_fillerDay (x : Z) :
  cellDay tz (fillerDay (num := num) (UTC tz (x * msPerDay))) = x.
Proof. unfold cellDay, fillerDay; cbn [d_date]. apply Day_LocalTime_UTC. Qed.

Lemma cellDay_monthDay (today : Z) (txs : list Tx) (cy cm day : Z) :
  cellDay tz (monthDay tz today txs cy cm day) = MakeDay (fullYear cy) cm day.
Proof.
  unfold cellDay, monthDay. rewrite fold_addToDay. cbn [d_date].
  rewrite Date_ymd_fullYear. apply Day_LocalTime_UTC.
Qed.

(** X15: the grid always has 42 cells; they are 42 consecutive local
    calendar days, the first one a Monday on or before the first day of the
    displayed month; the cells outside the month carry no transactions; the
    cells of the month are its days from 1 to the last, in order. *)
Theorem calendarData_grid (today : Z) (txs : list Tx) (cy cm : Z) :
  let cells := calendarData tz today txs cy cm in
  let first := MakeDay (fullYear cy) cm 1 in
  let start := first - (first + 3) mod 7 in
  List.length cells = 42%nat
  /\ List.map (cellDay tz) cells = zrange start (start + 41)
  /\ (start + 4) mod 7 = 1
  /\ (forall c, In c cells -> isCurrentMonth c = false -> d_transactions c = [])
  /\ List.filter isCurrentMonth cells
     = List.map (monthDay tz today txs cy cm)
         (zrange 1 (daysInMonthOf (fullYear cy + cm / 12) (cm mod 12))).
Proof.
  intros cells first start. subst cells. unfold calendarData.
  rewrite !Date_ymd_fullYear, !getDate_UTC, getDay_UTC.
  set (yq := fullYear cy) in *. fold first.
  (* the numbers the source computes *)
  assert (Hdim : DateFromDay (MakeDay yq (cm + 1) 0)
                 = daysInMonthOf (yq + cm / 12) (cm mod 12))
    by apply lastDay_of_month_any.
  rewrite Hdim. set (dim := daysInMonthOf (yq + cm / 12) (cm mod 12)) in *.
  pose proof (daysInMonthOf_range (yq + cm / 12) (cm mod 12)) as Hdimr.
  fold dim in Hdimr.
  set (s := if (first + 4) mod 7 - 1 <? 0 then 6 else (first + 4) mod 7 - 1).
  assert (Hs : s = (first + 3) mod 7).
  { subst s. destruct (Z.ltb_spec ((first + 4) mod 7 - 1) 0); div_lia. }
  assert (Hsr : 0 <= s <= 6) by (rewrite Hs; div_lia).
  assert (Hprev : MakeDay yq (cm - 1) 0 + DateFromDay (MakeDay yq cm 0) = first - 1).
  { replace cm with (cm - 1 + 1) at 2 by lia.
    rewrite lastDay_of_month_any.
    rewrite <- (MakeDay_affine yq (cm - 1)), <- MakeDay_month_end_any.
    replace (cm - 1 + 1) with cm by lia.
    unfold first. rewrite (MakeDay_affine yq cm 1). lia. }
  assert (Hnext : MakeDay yq (cm + 1) 0 = first - 1 + dim).
  { rewrite MakeDay_month_end_any. fold dim.
    rewrite (MakeDay_affine yq cm dim). unfold first.
    rewrite (MakeDay_affine yq cm 1). lia. }
  (* the three runs of cells *)
  set (prev := List.map _ (rev (zrange 0 (s - 1)))).
  set (cur := List.map (monthDay tz today txs cy cm) (zrange 1 dim)).
  assert (Lprev : List.length prev = Z.to_nat s).
  { subst prev. rewrite List.length_map, length_rev, zrange_zrange_n, zrange_n_length.
    f_equal. lia. }
  assert (Lcur : List.length cur = Z.to_nat dim).
  { subst cur. rewrite List.length_map, zrange_zrange_n, zrange_n_length.
    f_equal. lia. }
  rewrite (List.length_app prev cur), Lprev, Lcur.
  set (r := 42 - Z.of_nat (Z.to_nat s + Z.to_nat dim)).
  assert (Hr : r = 42 - s - dim) by (subst r; lia).
  set (next := List.map _ (zrange 1 r)).
  assert (Lnext : List.length next = Z.to_nat r).
  { subst next. rewrite List.length_map, zrange_zrange_n, zrange_n_length.
    f_equal. lia. }
  assert (Dprev : List.map (cellDay tz) prev = zrange_n (first - s) (Z.to_nat s)).
  { subst prev. rewrite List.map_map.
    rewrite (List.map_ext _ (fun i => (first - 1) - i)).
    - rewrite zrange_zrange_n.
      replace (Z.to_nat (s - 1 - 0 + 1)) with (Z.to_nat s) by (f_equal; lia).
      rewrite zrange_n_rev_down. f_equal. lia.
    - intros i. rewrite Date_ymd_fullYear. fold yq. rewrite cellDay_fillerDay.
      rewrite (MakeDay_affine yq (cm - 1)). lia. }
  assert (Dcur : List.map (cellDay tz) cur = zrange_n first (Z.to_nat dim)).
  { subst cur. rewrite List.map_map.
    rewrite (List.map_ext _ (fun d => (first - 1) + d)).
    - rewrite zrange_zrange_n.
      replace (Z.to_nat (dim - 1 + 1)) with (Z.to_nat dim) by (f_equal; lia).
      rewrite zrange_n_map_shift. f_equal. lia.
    - intros d. rewrite cellDay_monthDay. fold yq. unfold first.
      rewrite (MakeDay_affine yq cm d), (MakeDay_affine yq cm 1). lia. }
  assert (Dnext : List.map (cellDay tz) next = zrange_n (first + dim) (Z.to_nat r)).
  { subst next. rewrite List.map_map.
    rewrite (List.map_ext _ (fun i => (first - 1 + dim) + i)).
    - rewrite zrange_zrange_n.
      replace (Z.to_nat (r - 1 + 1)) with (Z.to_nat r) by (f_equal; lia).
      rewrite zrange_n_map_shift. f_equal. lia.
    - intros i. rewrite Date_ymd_fullYear. fold yq. rewrite cellDay_fillerDay.
      rewrite (MakeDay_affine yq (cm + 1)). lia. }
  repeat apply conj.
  - rewrite !List.length_app, Lprev, Lcur, Lnext. lia.
  - rewrite !List.map_app, Dprev, Dcur, Dnext.
    rewrite zrange_zrange_n.
    replace (Z.to_nat (start + 41 - start + 1))
      with ((Z.to_nat s + Z.to_nat dim) + Z.to_nat r)%nat
      by lia.
    rewrite !zrange_n_app. subst start. rewrite <- Hs.
    f_equal; [f_equal|]; f_equal; lia.
  - subst start. div_lia.
  - intros c Hc Hfalse. rewrite !in_app_iff in Hc.
    destruct Hc as [[Hc|Hc]|Hc].
    + subst prev. apply in_map_iff in Hc. destruct Hc as [i [<- _]]. reflexivity.
    + subst cur. apply in_map_iff in Hc. destruct Hc as [d [<- _]].
      unfold monthDay in Hfalse. rewrite fold_addToDay in Hfalse. discriminate.
    + subst next. apply in_map_iff in Hc. destruct Hc as [i [<- _]]. reflexivity.
  - rewrite !List.filter_app.
    assert (Fprev : List.filter isCurrentMonth prev = []).
    { subst prev. generalize (rev (zrange 0 (s - 1))). intros l.
      induction l as [|i l IH]; [reflexivity|]. cbn. exact IH. }
    assert (Fnext : List.filter isCurrentMonth next = []).
    { subst next. generalize (zrange 1 r). intros l.
      induction l as [|i l IH]; [reflexivity|]. cbn. exact IH. }
    assert (Fcur : List.filter isCurrentMonth cur = cur).
    { subst cur. generalize (zrange 1 dim). intros l.
      induction l as [|d l IH]; [reflexivity|]. cbn [List.map List.filter].
      replace (isCurrentMonth (monthDay tz today txs cy cm d)) with true.
      - now rewrite IH.
      - unfold monthDay. now rewrite fold_addToDay. }
    rewrite Fprev, Fnext, Fcur, app_nil_r. reflexivity.
Qed.

End GridLayout.
(** ** CalendarView: navigation *)

(** X16: [goToPreviousMonth] and [goToNextMonth] undo each other, keep the
    month index from 0 to 11, and move the first day of the displayed month
    by exactly the length of the month left behind. *)
Theorem month_navigation (cy cm : Z) :
  0 <= cm <= 11 ->
  goToNextMonth (goToPreviousMonth (cy, cm)) = (cy, cm)
  /\ goToPreviousMonth (goToNextMonth (cy, cm)) = (cy, cm)
  /\ 0 <= snd (goToNextMonth (cy, cm)) <= 11
  /\ 0 <= snd (goToPreviousMonth (cy, cm)) <= 11
  /\ MakeDay (fst (goToNextMonth (cy, cm))) (snd (goToNextMonth (cy, cm))) 1
     = MakeDay cy cm 1 + daysInMonthOf cy cm
  /\ MakeDay (fst (goToPreviousMonth (cy, cm))) (snd (goToPreviousMonth (cy, cm))) 1
     + daysInMonthOf (fst (goToPreviousMonth (cy, cm)))
                     (snd (goToPreviousMonth (cy, cm)))
     = MakeDay cy cm 1.
Proof.
  intros Hm.
  assert (Hn : goToNextMonth (cy, cm)
               = if cm =? 11 then (cy + 1, 0) else (cy, cm + 1)) by reflexivity.
  assert (Hp : goToPreviousMonth (cy, cm)
               = if cm =? 0 then (cy - 1, 11) else (cy, cm - 1)) by reflexivity.
  rewrite Hn, Hp.
  destruct (Z.eqb_spec cm 0) as [E0|E0]; destruct (Z.eqb_spec cm 11) as [E11|E11];
    try lia; cbn [fst snd]; unfold goToNextMonth, goToPreviousMonth.
  - subst cm. change (11 =? 11) with true. change (0 + 1 =? 0) with false.
    cbv iota. repeat apply conj; try lia.
    + f_equal. lia.
    + f_equal.
    + apply (MakeDay_next_month_in_year cy 0). lia.
    + rewrite <- (MakeDay_next_month_in_year (cy - 1) 11) by lia.
      change (11 + 1) with 12. rewrite MakeDay_december_carry. f_equal. lia.
  - subst cm. change (11 - 1 =? 11) with false. change (0 =? 0) with true.
    cbv iota. repeat apply conj; try lia.
    + f_equal.
    + f_equal. lia.
    + rewrite <- (MakeDay_next_month_in_year cy 11) by lia.
      change (11 + 1) with 12. now rewrite MakeDay_december_carry.
    + rewrite <- (MakeDay_next_month_in_year cy (11 - 1)) by lia. reflexivity.
  - destruct (Z.eqb_spec (cm - 1) 11); [lia|].
    destruct (Z.eqb_spec (cm + 1) 0); [lia|].
    repeat apply conj; try lia.
    + f_equal. lia.
    + f_equal. lia.
    + now apply MakeDay_next_month_in_year.
    + rewrite <- (MakeDay_next_month_in_year cy (cm - 1)) by lia.
      f_equal. lia.
Qed.

Lemma month_navigation_witness :
  goToNextMonth (goToPreviousMonth (2025, 0)) = (2025, 0).
Proof. refine (proj1 (month_navigation 2025 0 _)). lia. Defined.

(** ** Period aggregation: nested periods *)

Section Nesting.
Context {num : Type} `{JsNumber num}.
#[local] Abbreviation Tx := (Transaction num).

Lemma inPeriod_widen (s1 e1 s2 e2 : Z) (t : Tx) :
  s2 <= s1 -> e1 <= e2 -> inPeriod s1 e1 t = true -> inPeriod s2 e2 t = true.
Proof.
  unfold inPeriod. rewrite !andb_true_iff, !Z.geb_ge, !Z.leb_le. lia.
Qed.

Lemma filter_widen (s1 e1 s2 e2 : Z) (l : list Tx) :
  s2 <= s1 -> e1 <= e2 ->
  incl (List.filter (inPeriod s1 e1) l) (List.filter (inPeriod s2 e2) l).
Proof.
  intros Hs He t Ht. apply filter_In in Ht. apply filter_In.
  split; [tauto|]. apply (inPeriod_widen s1 e1); tauto.
Qed.

Lemma Date_ymd_first_le (tz y m1 m2 : Z) :
  m1 <= m2 -> Date_ymd tz y m1 1 <= Date_ymd tz y m2 1.
Proof.
  intros Hle. rewrite !Date_ymd_fullYear. unfold UTC, msPerDay.
  pose proof (MakeDay_months_le (fullYear y) m1 m2 Hle). lia.
Qed.

Lemma Date_ymd_last_le (tz y m1 m2 : Z) :
  m1 <= m2 -> Date_ymd tz y m1 0 <= Date_ymd tz y m2 0.
Proof.
  intros Hle. rewrite !Date_ymd_fullYear. unfold UTC, msPerDay.
  pose proof (MakeDay_months_le (fullYear y) m1 m2 Hle).
  rewrite (MakeDay_affine _ m1 1), (MakeDay_affine _ m2 1) in *. lia.
Qed.

Lemma Date_ymd_dec31 (tz y : Z) : Date_ymd tz y 11 31 = Date_ymd tz y 12 0.
Proof.
  rewrite !Date_ymd_fullYear. do 2 f_equal.
  change 12 with (11 + 1). rewrite MakeDay_month_end_any. reflexivity.
Qed.

(** X17: for a month index from 0 to 11 the periods are nested: every
    transaction of the month report is in the quarter report, every one of
    the quarter is in the half-year report, and every one of the half year
    is in the year report. *)
Theorem wider_period_keeps_transactions (tz now : Z) (txs : list Tx)
    (pname : string) (cur : Currency) (yr m : Z) :
  0 <= m <= 11 ->
  let shown p := e_transactions
                   (calculatePeriodData tz now txs pname cur p yr (Some m)) in
  incl (shown month) (shown quarter)
  /\ incl (shown quarter) (shown half)
  /\ incl (shown half) (shown year).
Proof.
  intros Hm shown. subst shown. unfold calculatePeriodData, periodBounds.
  cbn [e_transactions].
  assert (Hq : 3 * (m / 3) <= m < 3 * (m / 3) + 3) by div_lia.
  repeat apply conj.
  - apply filter_widen; [apply Date_ymd_first_le|apply Date_ymd_last_le]; lia.
  - destruct (Z.ltb_spec m 6); apply filter_widen;
      (apply Date_ymd_first_le || apply Date_ymd_last_le); lia.
  - rewrite Date_ymd_dec31.
    destruct (Z.ltb_spec m 6); apply filter_widen;
      (apply Date_ymd_first_le || apply Date_ymd_last_le); lia.
Qed.

End Nesting.

Lemma wider_period_keeps_transactions_witness :
  incl (e_transactions (calculatePeriodData 180 0 [sampleRent; rentAsOther]
                          "Ev" TRY month 2025 (Some 2)))
       (e_transactions (calculatePeriodData 180 0 [sampleRent; rentAsOther]
                          "Ev" TRY quarter 2025 (Some 2))).
Proof.
  refine (proj1 (wider_period_keeps_transactions 180 0 [sampleRent; rentAsOther]
                   "Ev" TRY 2025 2 _)).
  lia.
Defined.
(** ** Export service: text without Turkish letters *)

Example turkishToAscii_example :
  turkishToAscii (units "Maa" ++ [351%N]) = units "Maas"
  /\ turkishToAscii (units "100 " ++ [8378%N]) = units "100 TL".
Proof. split; reflexivity. Qed.

Lemma turkishToAscii_char (c : N) :
  inTurkishClass c = true ->
  exists r, charMap c = Some r
            /\ Forall (fun u => inTurkishClass u = false) r
            /\ (1 <= List.length r <= 2)%nat.
Proof.
  unfold inTurkishClass. cbn [existsb]. rewrite !orb_true_iff.
  intros Hc.
  repeat (destruct Hc as [Hc|Hc];
          [apply N.eqb_eq in Hc; subst c; eexists; split; [reflexivity|];
           split; [repeat constructor|cbn; lia]|]).
  discriminate.
Qed.

(** X18: the output of [turkishToAscii] has none of the letters it
    replaces; applying it twice is the same as applying it once; a text
    without those letters is unchanged; the output is at least as long as
    the input and at most twice as long. *)
Theorem turkishToAscii_properties (text : list N) :
  Forall (fun u => inTurkishClass u = false) (turkishToAscii text)
  /\ turkishToAscii (turkishToAscii text) = turkishToAscii text
  /\ (Forall (fun u => inTurkishClass u = false) text ->
      turkishToAscii text = text)
  /\ (List.length text <= List.length (turkishToAscii text)
      <= 2 * List.length text)%nat.
Proof.
  assert (Hid : forall l, Forall (fun u => inTurkishClass u = false) l ->
                          turkishToAscii l = l).
  { induction 1 as [|c l Hc Hl IH]; [reflexivity|].
    unfold turkishToAscii in *. cbn [flat_map]. rewrite Hc, IH. reflexivity. }
  assert (Hclean : Forall (fun u => inTurkishClass u = false) (turkishToAscii text)).
  { induction text as [|c l IH]; [constructor|].
    unfold turkishToAscii in *. cbn [flat_map]. apply Forall_app. split; [|exact IH].
    destruct (inTurkishClass c) eqn:Hc.
    - destruct (turkishToAscii_char c Hc) as [r [-> [Hr _]]]. exact Hr.
    - repeat constructor. exact Hc. }
  split; [|split; [|split]].
  - exact Hclean.
  - apply Hid, Hclean.
  - apply Hid.
  - clear Hclean Hid. induction text as [|c l IH]; [cbn; lia|].
    unfold turkishToAscii in *. cbn [flat_map]. rewrite List.length_app.
    cbn [List.length].
    destruct (inTurkishClass c) eqn:Hc.
    + destruct (turkishToAscii_char c Hc) as [r [-> [_ Hlen]]]. lia.
    + cbn [List.length]. lia.
Qed.


(** ** Export service: the category sheet *)

Section ExcelSummaryFacts.
Context {num : Type} `{JsNumber num}.
#[local] Abbreviation Tx := (Transaction num).

Lemma category_eqb_eq (a b : TransactionCategory) :
  category_eqb a b = true <-> a = b.
Proof. destruct a, b; cbn; split; intros E; (reflexivity || discriminate). Qed.

Lemma categoryLabel_inj (a b : TransactionCategory) :
  categoryLabel a = categoryLabel b -> a = b.
Proof. destruct a, b; intros E; (reflexivity || discriminate E). Qed.

Lemma fold_addToCategory (l : list Tx) (acc : gmap (list N) (CategoryTotal num))
    (c : TransactionCategory) :
  fold_left addToCategory l acc !! categoryLabel c
  = match acc !! categoryLabel c, inCategory c l with
    | None, [] => None
    | o, own =>
        let e := match o with
                 | Some e => e
                 | None => {| ct_income := nzero; ct_expense := nzero;
                              ct_count := 0 |}
                 end in
        Some {| ct_income :=
                  fold_left (fun sum t => nadd sum (amount t))
                            (List.filter isIncome own) (ct_income e);
                ct_expense :=
                  fold_left (fun sum t => nadd sum (amount t))
                            (List.filter isExpense own) (ct_expense e);
                ct_count := ct_count e + Z.of_nat (List.length own) |}
    end.
Proof.
  revert acc. unfold inCategory.
  induction l as [|t l IH]; intros acc; cbn [fold_left List.filter].
  - destruct (acc !! categoryLabel c) as [[i e n]|]; [|reflexivity].
    cbn. do 2 f_equal. lia.
  - rewrite IH. clear IH. unfold addToCategory at 1.
    destruct (category_eqb (category t) c) eqn:Hc.
    + apply category_eqb_eq in Hc. rewrite Hc. rewrite lookup_insert_eq.
      cbn [List.filter List.length].
      destruct (acc !! categoryLabel c) as [[i e n]|];
        unfold isIncome, isExpense; destruct (type t);
        cbn [ct_income ct_expense ct_count fold_left List.filter];
        destruct (List.filter _ l); cbn zeta;
        do 2 f_equal; lia.
    + assert (Hne : categoryLabel (category t) <> categoryLabel c).
      { intros E. apply categoryLabel_inj in E. rewrite E in Hc.
        assert (category_eqb c c = true) by now apply category_eqb_eq.
        congruence. }
      rewrite lookup_insert_ne by exact Hne. reflexivity.
Qed.

(** X19: the category sheet has a row for a category exactly when some
    transaction has it; the row holds the number of these transactions and
    the sums of their incomes and of their expenses. *)
Theorem categoryTotals_per_category (txs : list Tx) (c : TransactionCategory) :
  categoryTotals txs !! categoryLabel c
  = match inCategory c txs with
    | [] => None
    | own =>
        Some {| ct_income := sumAmounts (List.filter isIncome own);
                ct_expense := sumAmounts (List.filter isExpense own);
                ct_count := Z.of_nat (List.length own) |}
    end.
Proof.
  unfold categoryTotals. rewrite fold_addToCategory, lookup_empty.
  destruct (inCategory c txs); reflexivity.
Qed.

End ExcelSummaryFacts.

(** ** Reports page: the 12-month trend *)

Section TrendFacts.
Context {num : Type} `{JsNumber num}.
#[local] Abbreviation Tx := (Transaction num).

Lemma trendEntry_month (tz now : Z) (txs : list Tx) (pname : string)
    (cur : Currency) (cy cm i : Z) :
  101 <= cy -> 0 <= cm <= 11 -> 0 <= i <= 11 ->
  let yr := cy + (cm - i) / 12 in
  let mon := (cm - i) mod 12 in
  let report := calculatePeriodData tz now txs pname cur month yr (Some mon) in
  let entry := trendEntry tz txs cy cm i in
  12 * yr + mon = 12 * cy + cm - i
  /\ 0 <= mon <= 11
  /\ t_name entry = nth (Z.to_nat mon) MONTH_NAMES []
  /\ Gelir entry = totalIncome report
  /\ Gider entry = totalExpense report
  /\ Net entry = balance report.
Proof.
  intros Hcy Hcm Hi yr mon report entry.
  assert (Hmon : 0 <= mon <= 11) by (subst mon; div_lia).
  assert (Hyr : 12 * yr + mon = 12 * cy + cm - i) by (subst yr mon; div_lia).
  assert (Hfields : getFullYear tz (Date_ymd tz cy (cm - i) 1) = yr
                    /\ getMonth tz (Date_ymd tz cy (cm - i) 1) = mon).
  { rewrite Date_ymd_year by lia. unfold getFullYear, getMonth.
    rewrite Day_LocalTime_UTC. apply MakeDay_first_fields. }
  destruct Hfields as [Ey Em].
  subst entry report. unfold trendEntry, calculatePeriodData, periodBounds.
  rewrite Ey, Em.
  cbn [t_name Gelir Gider Net totalIncome totalExpense balance].
  repeat apply conj; try reflexivity; try lia.
  assert (Hn : (Z.to_nat mon < 12)%nat) by lia.
  revert Hn. generalize (Z.to_nat mon) as k. intros k Hk. unfold MONTH_NAMES.
  do 12 (destruct k as [|k]; [reflexivity|]). lia.
Qed.
End TrendFacts.

Section TrendTheorem.
Context {num : Type} `{JsNumber num}.
#[local] Abbreviation Tx := (Transaction num).

(** X20: the trend has the twelve months that end with the current one,
    oldest first, each with its name and with the income, expense and
    balance that the month report of the export service gives for it. *)
Theorem yearlyTrendData_months (tz now : Z) (txs : list Tx) (pname : string)
    (cur : Currency) (cy cm : Z) :
  101 <= cy -> 0 <= cm <= 11 ->
  yearlyTrendData tz txs cy cm
  = List.map (fun n =>
                let report := calculatePeriodData tz now txs pname cur month
                                (n / 12) (Some (n mod 12)) in
                {| t_name := nth (Z.to_nat (n mod 12)) MONTH_NAMES [];
                   Gelir := totalIncome report;
                   Gider := totalExpense report;
                   Net := balance report |})
             (zrange (12 * cy + cm - 11) (12 * cy + cm)).
Proof.
  intros Hcy Hcm. unfold yearlyTrendData.
  assert (Hz : zrange (12 * cy + cm - 11) (12 * cy + cm)
               = List.map (fun i => 12 * cy + cm - i) (rev (zrange 0 11))).
  { unfold zrange.
    replace (Z.to_nat (12 * cy + cm - (12 * cy + cm - 11) + 1)) with 12%nat by lia.
    change (Z.to_nat (11 - 0 + 1)) with 12%nat. cbn [seq List.map rev app].
    repeat (f_equal; try lia). }
  rewrite Hz, List.map_map.
  assert (Hin : forall i, In i (rev (zrange 0 11)) -> 0 <= i <= 11).
  { intros i Hi. apply in_rev in Hi. unfold zrange in Hi.
    apply in_map_iff in Hi. destruct Hi as [k [<- Hk]]. apply in_seq in Hk. lia. }
  apply List.map_ext_in. intros i Hi. apply Hin in Hi.
  destruct (trendEntry_month tz now txs pname cur cy cm i Hcy Hcm Hi)
    as [_ [_ [En [Ei [Ee Eb]]]]].
  assert (Hq : (12 * cy + cm - i) / 12 = cy + (cm - i) / 12) by div_lia.
  assert (Hr : (12 * cy + cm - i) mod 12 = (cm - i) mod 12) by div_lia.
  cbn zeta. rewrite Hq, Hr. rewrite <- En, <- Ei, <- Ee, <- Eb.
  now destruct (trendEntry tz txs cy cm i).
Qed.

End TrendTheorem.

Lemma yearlyTrendData_months_witness :
  yearlyTrendData 180 [sampleRent; rentAsOther] 2025 2
  = List.map (fun n =>
                let report := calculatePeriodData 180 0 [sampleRent; rentAsOther]
                                "Ev" TRY month (n / 12) (Some (n mod 12)) in
                {| t_name := nth (Z.to_nat (n mod 12)) MONTH_NAMES [];
                   Gelir := totalIncome report;
                   Gider := totalExpense report;
                   Net := balance report |})
             (zrange (12 * 2025 + 2 - 11) (12 * 2025 + 2)).
Proof.
  apply (yearlyTrendData_months 180 0 [sampleRent; rentAsOther] "Ev" TRY 2025 2);
    lia.
Defined.
(** ** Dashboard: the chart of the last 14 days *)

Lemma chartKey_fixed (z : Zone) (tz today i : Z) :
  hasFixedOffset z tz -> chartKey z today i = Day today - i.
Proof.
  intros Hz. unfold chartKey, toISODate.
  rewrite (getDateIn_fixed z tz Hz), (setDateIn_fixed z tz Hz), setDate_back.
  unfold Day, msPerDay. div_lia.
Qed.

Section ChartFacts.
Context {num : Type} `{JsNumber num}.
#[local] Abbreviation Tx := (Transaction num).

Lemma lookupDay_None (k : Z) (days : list (Z * DayTotals num)) :
  ~ In k (List.map fst days) -> lookupDay k days = None.
Proof.
  induction days as [|[k' v] r IH]; [reflexivity|]. cbn. intros Hn.
  destruct (Z.eqb_spec k' k); [tauto|]. apply IH. tauto.
Qed.

Lemma setDay_fresh (k : Z) (v : DayTotals num) (days : list (Z * DayTotals num)) :
  ~ In k (List.map fst days) -> setDay k v days = days ++ [(k, v)].
Proof.
  induction days as [|[k' v'] r IH]; [reflexivity|]. cbn. intros Hn.
  destruct (Z.eqb_spec k' k); [tauto|]. rewrite IH by tauto. reflexivity.
Qed.

Lemma fold_setDay_fresh (v : DayTotals num) (ks : list Z)
    (acc : list (Z * DayTotals num)) :
  List.NoDup (List.map fst acc ++ ks) ->
  fold_left (fun days k => setDay k v days) ks acc
  = acc ++ List.map (fun k => (k, v)) ks.
Proof.
  revert acc. induction ks as [|k ks IH]; intros acc Hnd; cbn [fold_left List.map].
  - now rewrite app_nil_r.
  - assert (Hk : ~ In k (List.map fst acc)).
    { apply NoDup_remove_2 in Hnd. intros Hin. apply Hnd.
      apply in_or_app. now left. }
    rewrite setDay_fresh by exact Hk. rewrite IH.
    + rewrite <- app_assoc. reflexivity.
    + rewrite List.map_app, <- app_assoc. exact Hnd.
Qed.

Lemma addToChart_map (days : list (Z * DayTotals num)) (t : Tx) :
  List.NoDup (List.map fst days) ->
  addToChart days t = List.map (fun e => (fst e, addDay (fst e) [t] (snd e))) days.
Proof.
  unfold addToChart.
  induction days as [|[k v] r IH]; [reflexivity|]. intros Hnd.
  cbn [List.map fst snd] in *. inversion Hnd as [|? ? Hk Hr]; subst.
  cbn [lookupDay].
  assert (Hsame : forall w : DayTotals num,
             addDay k [t] w
             = if k =? date t
               then match type t with
                    | income => {| dt_income := nadd (dt_income w) (amount t);
                                   dt_expense := dt_expense w |}
                    | expense => {| dt_income := dt_income w;
                                    dt_expense := nadd (dt_expense w) (amount t) |}
                    end
               else w).
  { intros w. unfold addDay, datedOn. cbn [List.filter].
    rewrite (Z.eqb_sym (date t) k).
    destruct (k =? date t); [|now destruct w].
    unfold isIncome, isExpense. cbn [List.filter].
    destruct (type t); reflexivity. }
  rewrite Hsame.
  destruct (Z.eqb_spec k (date t)) as [E|E].
  - assert (Hr' : List.map (fun e => (fst e, addDay (fst e) [t] (snd e))) r = r).
    { clear IH Hr Hnd. induction r as [|[k' v'] r IH]; [reflexivity|].
      cbn [List.map fst snd In] in *. rewrite IH by tauto. f_equal.
      unfold addDay, datedOn. cbn [List.filter].
      destruct (Z.eqb_spec (date t) k'); [exfalso; apply Hk; left; congruence|].
      now destruct v'. }
    rewrite Hr'. destruct (type t); cbn [setDay]; rewrite (proj2 (Z.eqb_eq _ _) E);
      reflexivity.
  - specialize (IH Hr). destruct (lookupDay (date t) r) as [d|].
    + destruct (type t); cbn [setDay]; rewrite (proj2 (Z.eqb_neq _ _) E);
        now rewrite IH.
    + now rewrite <- IH.
Qed.

Lemma fold_addToChart (l : list Tx) (days : list (Z * DayTotals num)) :
  List.NoDup (List.map fst days) ->
  fold_left addToChart l days
  = List.map (fun e => (fst e, addDay (fst e) l (snd e))) days.
Proof.
  revert days. induction l as [|t l IH]; intros days Hnd; cbn [fold_left].
  - rewrite <- (List.map_id days) at 1. apply List.map_ext.
    intros [k v]. now destruct v.
  - rewrite addToChart_map by exact Hnd. rewrite IH.
    + rewrite List.map_map. apply List.map_ext. intros [k v]. cbn [fst snd].
      f_equal. unfold addDay, datedOn. cbn [List.filter dt_income dt_expense].
      destruct (date t =? k); [|reflexivity].
      unfold isIncome, isExpense. cbn [List.filter].
      destruct (type t); reflexivity.
    + rewrite List.map_map. cbn [fst]. exact Hnd.
Qed.

End ChartFacts.

Section ChartTheorem.
Context {num : Type} `{JsNumber num}.
#[local] Abbreviation Tx := (Transaction num).

Lemma fold_setDay_map (f : Z -> Z) (v : DayTotals num) (l : list Z)
    (acc : list (Z * DayTotals num)) :
  fold_left (fun days i => setDay (f i) v days) l acc
  = fold_left (fun days k => setDay k v days) (List.map f l) acc.
Proof. revert acc. induction l as [|i l IH]; intros acc; [reflexivity|apply IH]. Qed.

Lemma emptyDays_fixed (z : Zone) (tz today : Z) :
  hasFixedOffset z tz ->
  emptyDays (num := num) z today
  = List.map (fun k => (k, {| dt_income := nzero; dt_expense := nzero |}))
      (zrange (Day today - 13) (Day today)).
Proof.
  intros Hz. unfold emptyDays.
  rewrite (fold_setDay_map (chartKey z today)).
  assert (Hk : List.map (chartKey z today) (rev (zrange 0 13))
               = zrange (Day today - 13) (Day today)).
  { rewrite (List.map_ext _ (fun i => Day today - i))
      by (intros i; apply (chartKey_fixed z tz today i Hz)).
    rewrite !zrange_zrange_n.
    replace (Z.to_nat (Day today - (Day today - 13) + 1)) with 14%nat by lia.
    change (Z.to_nat (13 - 0 + 1)) with 14%nat.
    rewrite zrange_n_rev_down. f_equal. lia. }
  rewrite Hk. rewrite fold_setDay_fresh; [reflexivity|].
  cbn [List.map app]. rewrite zrange_zrange_n. apply zrange_n_NoDup.
Qed.

(** X21: in a zone without clock changes the chart has 14 entries, one
    for each of the 14 UTC days that end with the UTC day of now, oldest
    first; an entry sums the incomes and the expenses of the transactions
    dated on its day; its label is the day and month of that date east of
    UTC, and of the day before west of UTC. *)
Theorem chartData_last_14_days (z : Zone) (tz today : Z) (txs : list Tx) :
  hasFixedOffset z tz ->
  chartData z today txs
  = List.map (fun d =>
                {| c_name := pretty (getDate tz (Date_parse d)) +:+ "/"
                             +:+ pretty (getMonth tz (Date_parse d) + 1);
                   c_Gelir := sumAmounts (List.filter isIncome (datedOn d txs));
                   c_Gider := sumAmounts (List.filter isExpense (datedOn d txs)) |})
             (zrange (Day today - 13) (Day today))
  /\ List.length (chartData z today txs) = 14%nat
  /\ (0 <= tz < 1440 ->
      List.map c_name (chartData z today txs)
      = List.map (fun d => pretty (DateFromDay d) +:+ "/"
                           +:+ pretty (MonthFromDay d + 1))
                 (zrange (Day today - 13) (Day today)))
  /\ (-1440 <= tz < 0 ->
      List.map c_name (chartData z today txs)
      = List.map (fun d => pretty (DateFromDay d) +:+ "/"
                           +:+ pretty (MonthFromDay d + 1))
                 (zrange (Day today - 14) (Day today - 1))).
Proof.
  intros Hz.
  assert (E : chartData z today txs
    = List.map (fun d =>
                {| c_name := pretty (getDate tz (Date_parse d)) +:+ "/"
                             +:+ pretty (getMonth tz (Date_parse d) + 1);
                   c_Gelir := sumAmounts (List.filter isIncome (datedOn d txs));
                   c_Gider := sumAmounts (List.filter isExpense (datedOn d txs)) |})
             (zrange (Day today - 13) (Day today))).
  { unfold chartData. rewrite fold_addToChart.
    - rewrite (emptyDays_fixed z tz today Hz), !List.map_map.
      apply List.map_ext. intros d. unfold chartEntry. cbn [fst snd].
      now rewrite (getDateIn_fixed z tz Hz), (getMonthIn_fixed z tz Hz).
    - rewrite (emptyDays_fixed z tz today Hz), List.map_map. cbn [fst].
      rewrite List.map_id.
      rewrite zrange_zrange_n. apply zrange_n_NoDup. }
  rewrite E. split; [reflexivity|]. split; [|split].
  - rewrite List.length_map, zrange_zrange_n. unfold zrange_n.
    rewrite List.length_map, length_seq. lia.
  - intros Htz. rewrite List.map_map. cbn [c_name]. apply List.map_ext.
    intros d. unfold getDate, getMonth. now rewrite Day_LocalTime_parse_east.
  - intros Htz. rewrite List.map_map. cbn [c_name].
    rewrite (List.map_ext _ (fun d => pretty (DateFromDay (d - 1)) +:+ "/"
                               +:+ pretty (MonthFromDay (d - 1) + 1))).
    + unfold zrange. rewrite !List.map_map.
      replace (Z.to_nat (Day today - 1 - (Day today - 14) + 1))
        with (Z.to_nat (Day today - (Day today - 13) + 1)) by lia.
      apply List.map_ext. intros k.
      replace (Day today - 13 + Z.of_nat k - 1)
        with (Day today - 14 + Z.of_nat k) by lia.
      reflexivity.
    + intros d. unfold getDate, getMonth. rewrite Day_LocalTime_parse_west by lia.
      reflexivity.
Qed.

End ChartTheorem.

Lemma chartData_last_14_days_witness :
  List.length (chartData (fixedZone 180) (noon 180 2025 3 10)
                 [sampleRent; rentAsOther]) = 14%nat.
Proof.
  refine (proj1 (proj2 (chartData_last_14_days (fixedZone 180) 180
                          (noon 180 2025 3 10) [sampleRent; rentAsOther] _))).
  split; intros t; reflexivity.
Defined.

(** Across a clock change the keys are not consecutive days: at 01:30
    local time on 27 October 2025 in central Europe the chart has no entry
    for 26 October. *)
Example chartData_clocks_back :
  List.map c_name
    (chartData (num := Z) centralEurope2025
       ((iso_date 2025 10 27) * msPerDay + 1800000) [])
  = ["13/10"; "14/10"; "15/10"; "16/10"; "17/10"; "18/10"; "19/10"; "20/10";
     "21/10"; "22/10"; "23/10"; "24/10"; "25/10"; "27/10"].
Proof. vm_compute. reflexivity. Qed.

(** ** The store: updating a profile *)

Section ProfileFacts.
Context {num : Type} `{JsNumber num}.
#[local] Abbreviation St := (State num).

Lemma find_map_patch (a id : string) (data : ProfilePatch) (l : list Profile) :
  List.find (fun p => String.eqb (pid p) a)
    (List.map (fun profile => if String.eqb (pid profile) id
                              then patchProfile data profile else profile) l)
  = option_map (fun p => if String.eqb (pid p) id then patchProfile data p else p)
      (List.find (fun p => String.eqb (pid p) a) l).
Proof.
  induction l as [|p l IH]; [reflexivity|]. cbn [List.map List.find].
  assert (E : pid (if String.eqb (pid p) id then patchProfile data p else p) = pid p)
    by (destruct (String.eqb (pid p) id); reflexivity).
  rewrite E. destruct (String.eqb (pid p) a); [reflexivity|exact IH].
Qed.

(** X22: after [updateProfile], [getActiveProfile] returns the profile it
    returned before, patched when it has the given identifier; identifiers
    and creation times of the profiles, the transactions, the active
    identifier and the cleanup marker stay, and profiles with another
    identifier are unchanged. *)
Theorem updateProfile_then_getActiveProfile (id : string) (data : ProfilePatch)
    (s : St) :
  let s' := updateProfile id data s in
  getActiveProfile s'
  = option_map (fun p => if String.eqb (pid p) id then patchProfile data p else p)
      (getActiveProfile s)
  /\ List.map pid (profiles s') = List.map pid (profiles s)
  /\ List.map pcreatedAt (profiles s') = List.map pcreatedAt (profiles s)
  /\ transactions s' = transactions s
  /\ activeProfileId s' = activeProfileId s
  /\ lastCleanupMonth s' = lastCleanupMonth s
  /\ (forall other, other <> id ->
        List.filter (fun p => String.eqb (pid p) other) (profiles s')
        = List.filter (fun p => String.eqb (pid p) other) (profiles s)).
Proof.
  cbn zeta. unfold getActiveProfile, updateProfile;
    cbn [profiles transactions activeProfileId lastCleanupMonth].
  fold (patchProfile data).
  split; [|split; [|split; [|split; [|split; [|split]]]]]; try reflexivity.
  - destruct (activeProfileId s) as [a|]; [|reflexivity].
    apply (find_map_patch a id data).
  - rewrite List.map_map. apply List.map_ext. intros p.
    now destruct (String.eqb (pid p) id).
  - rewrite List.map_map. apply List.map_ext. intros p.
    now destruct (String.eqb (pid p) id).
  - intros other Hne. induction (profiles s) as [|p l IH]; [reflexivity|].
    cbn [List.map List.filter].
    destruct (String.eqb_spec (pid p) id) as [E|E].
    + cbn [patchProfile pid]. rewrite E.
      destruct (String.eqb_spec id other); [congruence|]. exact IH.
    + destruct (String.eqb (pid p) other); now rewrite IH.
Qed.

End ProfileFacts.

(** ** Export service: the category summary of the PDF *)

Lemma asciiLabel_inj (a b : TransactionCategory) :
  turkishToAscii (categoryLabel a) = turkishToAscii (categoryLabel b) -> a = b.
Proof. destruct a, b; intros E; (reflexivity || discriminate E). Qed.

Section PdfFacts.
Context {num : Type} `{JsNumber num}.
#[local] Abbreviation Tx := (Transaction num).

Lemma fold_addToPdfCategory (l : list Tx)
    (acc : gmap (list N) (PdfCategoryTotal num)) (c : TransactionCategory) :
  fold_left addToPdfCategory l acc !! turkishToAscii (categoryLabel c)
  = match acc !! turkishToAscii (categoryLabel c), inCategory c l with
    | None, [] => None
    | o, own =>
        let e := match o with
                 | Some e => e
                 | None => {| pct_income := nzero; pct_expense := nzero |}
                 end in
        Some {| pct_income :=
                  fold_left (fun sum t => nadd sum (amount t))
                            (List.filter isIncome own) (pct_income e);
                pct_expense :=
                  fold_left (fun sum t => nadd sum (amount t))
                            (List.filter isExpense own) (pct_expense e) |}
    end.
Proof.
  revert acc. unfold inCategory.
  induction l as [|t l IH]; intros acc; cbn [fold_left List.filter].
  - destruct (acc !! turkishToAscii (categoryLabel c)) as [[i e]|]; reflexivity.
  - rewrite IH. clear IH. unfold addToPdfCategory at 1.
    destruct (category_eqb (category t) c) eqn:Hc.
    + apply category_eqb_eq in Hc. rewrite Hc. rewrite lookup_insert_eq.
      cbn [List.filter].
      destruct (acc !! turkishToAscii (categoryLabel c)) as [[i e]|];
        unfold isIncome, isExpense; destruct (type t);
        cbn [pct_income pct_expense fold_left List.filter];
        destruct (List.filter _ l); reflexivity.
    + assert (Hne : turkishToAscii (categoryLabel (category t))
                    <> turkishToAscii (categoryLabel c)).
      { intros E. apply asciiLabel_inj in E. rewrite E in Hc.
        assert (category_eqb c c = true) by now apply category_eqb_eq.
        congruence. }
      rewrite lookup_insert_ne by exact Hne. reflexivity.
Qed.

(** X23: the keys of the category summary of the PDF hold no Turkish
    letter and still tell the categories apart: the summary has a row for a
    category exactly when some transaction has it, with the sums of its
    incomes and expenses, the same figures as the Excel sheet. *)
Theorem pdfCategoryTotals_per_category (txs : list Tx) (c : TransactionCategory) :
  Forall (fun u => inTurkishClass u = false) (turkishToAscii (categoryLabel c))
  /\ pdfCategoryTotals txs !! turkishToAscii (categoryLabel c)
     = match inCategory c txs with
       | [] => None
       | own =>
           Some {| pct_income := sumAmounts (List.filter isIncome own);
                   pct_expense := sumAmounts (List.filter isExpense own) |}
       end
  /\ pdfCategoryTotals txs !! turkishToAscii (categoryLabel c)
     = option_map (fun e => {| pct_income := ct_income e;
                               pct_expense := ct_expense e |})
                  (categoryTotals txs !! categoryLabel c).
Proof.
  assert (E : pdfCategoryTotals txs !! turkishToAscii (categoryLabel c)
     = match inCategory c txs with
       | [] => None
       | own =>
           Some {| pct_income := sumAmounts (List.filter isIncome own);
                   pct_expense := sumAmounts (List.filter isExpense own) |}
       end).
  { unfold pdfCategoryTotals. rewrite fold_addToPdfCategory, lookup_empty.
    destruct (inCategory c txs); reflexivity. }
  split; [|split].
  - destruct c; vm_compute; repeat constructor.
  - exact E.
  - rewrite E. unfold categoryTotals. rewrite fold_addToCategory, lookup_empty.
    destruct (inCategory c txs); reflexivity.
Qed.

End PdfFacts.
